(** * DDPG (garage/tf/algos/ddpg.py): a shallow embedding and its properties

    Definitions first, in the order of the source file:

    - [Float64]: numpy's float64 scalars (IEEE binary64) and the scalar
      kernels behind [np.clip];
    - [Python]: the exceptions the class can meet, and the result of a call;
    - [Numpy]: arrays as views on a shared store of buffers, in-place
      scaling, broadcasting of column arrays;
    - class [Collaborators]: what the class calls but does not define
      (runner, sampler, replay buffer, compiled TensorFlow functions,
      numpy's generator, logger);
    - sections [Algo] and [Methods]: the instance, the runner, the
      state-and-exception monad the methods run in, and the methods
      themselves ([__init__], [optimize_policy], [train_once], [train]);
    - sections [Observations] and [Cadence]: what a run leaves in its
      log;
    - [Doubles], [Scenario] and [Cases]: concrete collaborators and runs
      of the model on them;
    - [Instance]: the instance as the dictionary of its attributes, for
      [__getstate__], [__setstate__] and the attributes [init_opt] reads
      and assigns;
    - [Trainer]: the trainer of garage/trainer/tf_trainer.py, with
      TensorFlow behind an interface, and [Stubs] to run both.

    Then the properties: of float64 and of the arrays, the rules of the
    monad, the properties of the training target, of the warm-up gates,
    of the accumulators, of the constructor and of the value [train]
    returns; then those of [optimize_policy], [train_once] and [train]
    call by call, of the pickled state, and of the trainer. *)

From Stdlib Require Import ZArith Floats List Bool Lia String Ascii.
From stdpp Require Import base tactics option list strings gmap.
Import ListNotations.

Local Open Scope Z_scope.

Set Warnings "-inexact-float".

(** ** numpy float64 scalars

    Arrays hold numpy's default floating type, float64: IEEE binary64, the
    format of Rocq's primitive floats. *)

Module Float64.

Local Open Scope float_scope.

(** IEEE equality, except that NaN matches NaN
    (numpy's [array_equal(..., equal_nan=True)] on one element). *)
Definition same_value (x y : float) : bool :=
  (x =? y) || (is_nan x && is_nan y).

(** The scalar kernels of numpy's [clip] ufunc for floating types:
    [_NPY_MAX(a, b) = isnan(a) ? a : (a > b ? a : b)], likewise [_NPY_MIN],
    and [_NPY_CLIP(x, lo, hi) = _NPY_MIN(_NPY_MAX(x, lo), hi)]. *)
Definition npy_max (a b : float) : float :=
  if is_nan a then a else if b <? a then a else b.

Definition npy_min (a b : float) : float :=
  if is_nan a then a else if a <? b then a else b.

Definition npy_clip (x lo hi : float) : float :=
  npy_min (npy_max x lo) hi.

End Float64.

(** ** Python exceptions *)

Module Python.

Inductive exn : Type :=
| TypeError
| ValueError
| ZeroDivisionError.

Inductive result (A : Type) : Type :=
| Ok (a : A)
| Raise (e : exn).

Arguments Ok {A} a.
Arguments Raise {A} e.

(** A Python value where the source binds a name first to a float and
    then to a tuple. *)
Inductive pyobj : Type :=
| PyFloat (x : float)
| PyTuple (xs : list float).

End Python.

Export Python.

(** ** numpy arrays

    An [ndarray] is a view: the buffer that owns the memory, and the window
    of it the array covers (what basic slicing [a[i:j]] produces; a fresh
    array covers its whole buffer). Buffers live in a store shared by
    every array object, so that writing through one view is seen through
    every other view of the same memory. Two-dimensional arrays are kept in
    row-major order; an [(N, 1)] column is the list of its [N] entries. *)

Module Numpy.

Local Open Scope float_scope.
Local Open Scope nat_scope.

Abbreviation loc := nat (only parsing).

Abbreviation heap := (list (list float)) (only parsing).

Record ndarray : Type := mk_ndarray {
  base : loc;
  start : nat;
  len : nat
}.

Definition buffer_of (h : heap) (l : loc) : list float :=
  default [] (h !! l).

(** The entries of an array, as they are in memory now. *)
Definition read (h : heap) (a : ndarray) : list float :=
  take (len a) (drop (start a) (buffer_of h (base a))).

(** A fresh array owning its data ([np.array], fancy indexing, the output
    of a compiled function). *)
Definition alloc (h : heap) (data : list float) : heap * ndarray :=
  (h ++ [data], mk_ndarray (length h) 0 (length data)).

(** [a.reshape(-1, 1)] of a one-dimensional array: a view on the same
    memory, with one more axis of length one. *)
Definition reshape_col (a : ndarray) : ndarray := a.

Definition scale_window (s : float) (st ln : nat) (buf : list float)
  : list float :=
  take st buf ++ map (fun x => (x * s)%float) (take ln (drop st buf))
    ++ drop (st + ln) buf.

(** [a *= s]: the multiplication is done in place, in the memory the view
    covers. *)
Definition imul (h : heap) (a : ndarray) (s : float) : heap :=
  alter (scale_window s (start a) (len a)) (base a) h.

(** Elementwise binary operation on two columns, with numpy's
    broadcasting: equal lengths, or one of the two of length one. *)
Definition broadcast2 (f : float -> float -> float) (xs ys : list float)
  : result (list float) :=
  if Nat.eqb (length xs) (length ys) then Ok (zip_with f xs ys)
  else match xs, ys with
       | [x], _ => Ok (map (f x) ys)
       | _, [y] => Ok (map (fun x => f x y) xs)
       | _, _ => Raise ValueError
       end.

(** [xs += ys], on values: the left operand keeps its shape, so only the
    right one may be broadcast. *)
Definition iadd (xs ys : list float) : result (list float) :=
  if Nat.eqb (length xs) (length ys) then Ok (zip_with PrimFloat.add xs ys)
  else match ys with
       | [y] => Ok (map (fun x => (x + y)%float) xs)
       | _ => Raise ValueError
       end.

(** [np.clip(xs, lo, hi)]. *)
Definition clip (xs : list float) (lo hi : float) : list float :=
  map (fun x => Float64.npy_clip x lo hi) xs.

(** The argument of a numpy reduction in [train_once]: a list of Python
    floats, or a list of arrays. *)
Inductive nparg : Type :=
| Scalars (xs : list float)
| Arrays (xss : list (list float)).

Definition size (a : nparg) : nat :=
  match a with
  | Scalars xs => length xs
  | Arrays xss => length (concat xss)
  end.

End Numpy.

Export Numpy.

(** ** The collaborators of the algorithm

    Everything the class calls but does not define: the environment
    specification, the runner and its sampler, the replay buffer, the
    networks and the TensorFlow functions compiled in [init_opt], numpy's
    random generator, the evaluation helpers. *)

(** [env_spec]: the fields the class reads. *)
Record EnvSpec : Type := mk_EnvSpec {
  action_space_high_0 : float;       (* env_spec.action_space.high[0] *)
  action_space_flat_dim : nat;
  observation_space_flat_dim : nat;
  spec_max_episode_length : option Z
}.

(** The dictionary returned by [replay_buffer.sample_transitions]: one
    array per key. *)
Record Transitions : Type := mk_Transitions {
  observations : ndarray;
  next_observations : ndarray;
  rewards : ndarray;
  actions : ndarray;
  terminals : ndarray
}.

(** The [agent_update] argument of [runner.obtain_episodes]: a
    [UniformRandomPolicy(self.env_spec)] made for the call, or the object
    held in [self.exploration_policy] ([None] when the constructor was
    given none). *)
Inductive agent_update (P : Type) : Type :=
| UniformRandomPolicy (env_spec : EnvSpec)
| Given (exploration_policy : option P).

Arguments UniformRandomPolicy {P} env_spec.
Arguments Given {P} exploration_policy.

(** [World] stands for the state outside the Python objects modelled here:
    the TensorFlow session with the parameters of the four networks, the
    environments and sampler workers, numpy's global generator. A
    collaborator that changes it returns the new one. *)
Class Collaborators : Type := {
  World : Type;
  Network : Type;
  ExplorationPolicy : Type;
  Environment : Type;
  EpisodeBatch : Type;
  ReplayBuffer : Type;

  (* garage.tf policies and Q-functions *)
  clone : Network -> string -> World -> Network * World;

  (* init_opt: the graph is built in the session, and the functions
     below are compiled from it *)
  build_graph : World -> World;
  target_policy_f_prob_online : list float -> World -> list float;
  target_qf_f_prob_online : list float -> list float -> World -> list float;
  f_train_qf :
    list float -> list float -> list float -> World ->
    (float * list float) * World;
  f_train_policy : list float -> World -> float * World;
  f_update_target : World -> World;

  (* one draw of np.random.normal(loc, scale) *)
  normal_draw : float -> float -> World -> float * World;

  (* numpy's mean of a list of floats *)
  np_mean : list float -> float;

  (* the replay buffer *)
  n_transitions_stored : ReplayBuffer -> Z;
  add_episode_batch :
    ReplayBuffer -> EpisodeBatch -> heap -> ReplayBuffer * heap;
  sample_transitions :
    ReplayBuffer -> Z -> heap -> World -> Transitions * heap * World;

  (* the runner: obtain_episodes returns the episodes and the runner's
     new total_env_steps *)
  get_env_copy : World -> Environment * World;
  obtain_episodes :
    Z -> agent_update ExplorationPolicy -> Z -> World ->
    (EpisodeBatch * Z) * World;

  (* garage.np.obtain_evaluation_episodes and garage.log_performance *)
  obtain_evaluation_episodes :
    Network -> option Environment -> Z -> World -> EpisodeBatch * World;
  log_performance : Z -> EpisodeBatch -> float -> World -> list float * World
}.

(** ** The class [DDPG] *)

(** The attributes [__init__] assigns once and no method assigns again. *)
Record Hyper : Type := mk_Hyper {
  env_spec : EnvSpec;
  _max_action : float;
  _tau : float;
  _policy_weight_decay : float;
  _qf_weight_decay : float;
  _name : string;
  _clip_pos_returns : bool;
  _clip_return : float;
  _policy_lr : float;
  _qf_lr : float;
  _min_buffer_size : Z;
  _start_steps : Z;
  _steps_per_epoch : Z;
  _n_train_steps : Z;
  _buffer_batch_size : Z;
  _discount : float;
  _reward_scale : float;
  _num_evaluation_episodes : Z;
  max_episode_length : option Z;
  _max_episode_length_eval : option Z;
  _exploration_policy_sigma : float;
  _exploration_policy_clip : float;
  _act_dim : nat;
  _obs_dim : nat
}.

(** The arguments of [__init__], keyword ones with the defaults of the
    source in [Args.defaults]. *)
Module Args.

Record t (N P B : Type) : Type := mk {
  env_spec : EnvSpec;
  policy : N;
  qf : N;
  replay_buffer : B;
  steps_per_epoch : Z;
  n_train_steps : Z;
  start_steps : Z;
  buffer_batch_size : Z;
  min_buffer_size : Z;
  exploration_policy : option P;
  target_update_tau : float;
  discount : float;
  policy_weight_decay : float;
  qf_weight_decay : float;
  num_evaluation_episodes : Z;
  policy_lr : float;
  qf_lr : float;
  clip_pos_returns : bool;
  clip_return : float;
  max_action : option float;
  reward_scale : float;
  exploration_policy_sigma : float;
  exploration_policy_clip : float;
  name : string
}.

Arguments mk {N P B}.
Arguments env_spec {N P B}.
Arguments policy {N P B}.
Arguments qf {N P B}.
Arguments replay_buffer {N P B}.
Arguments steps_per_epoch {N P B}.
Arguments n_train_steps {N P B}.
Arguments start_steps {N P B}.
Arguments buffer_batch_size {N P B}.
Arguments min_buffer_size {N P B}.
Arguments exploration_policy {N P B}.
Arguments target_update_tau {N P B}.
Arguments discount {N P B}.
Arguments policy_weight_decay {N P B}.
Arguments qf_weight_decay {N P B}.
Arguments num_evaluation_episodes {N P B}.
Arguments policy_lr {N P B}.
Arguments qf_lr {N P B}.
Arguments clip_pos_returns {N P B}.
Arguments clip_return {N P B}.
Arguments max_action {N P B}.
Arguments reward_scale {N P B}.
Arguments exploration_policy_sigma {N P B}.
Arguments exploration_policy_clip {N P B}.
Arguments name {N P B}.

Definition defaults {N P B : Type}
  (env_spec : EnvSpec) (policy qf : N) (replay_buffer : B) : t N P B :=
  {| env_spec := env_spec;
     policy := policy;
     qf := qf;
     replay_buffer := replay_buffer;
     steps_per_epoch := 20;
     n_train_steps := 50;
     start_steps := 1000;
     buffer_batch_size := 64;
     min_buffer_size := 10000;
     exploration_policy := None;
     target_update_tau := 0.01;
     discount := 0.99;
     policy_weight_decay := 0;
     qf_weight_decay := 0;
     num_evaluation_episodes := 10;
     policy_lr := 1e-4;
     qf_lr := 1e-3;
     clip_pos_returns := false;
     clip_return := infinity;
     max_action := None;
     reward_scale := 1;
     exploration_policy_sigma := 0.2;
     exploration_policy_clip := 0.5;
     name := "DDPG" |}.

End Args.

Section Algo.

Context `{C : Collaborators}.

(** An instance. The attributes holding classes ([_policy_optimizer],
    [_qf_optimizer], [sampler_cls], [worker_cls]) are read by [init_opt]
    and by the runner only; the compiled functions ([f_train_qf] and the
    others) are those of [Collaborators]. *)
Record DDPG : Type := mk_DDPG {
  hyper : Hyper;
  _episode_policy_losses : list float;
  _episode_qf_losses : list float;
  _epoch_ys : list (list float);
  _epoch_qs : list (list float);
  _target_policy : Network;
  _target_qf : Network;
  _qf : Network;
  _eval_env : option Environment;
  replay_buffer : ReplayBuffer;
  policy : Network;
  exploration_policy : option ExplorationPolicy
}.

(** The attributes of the runner that [train] reads and assigns. *)
Record Runner : Type := mk_Runner {
  step_itr : Z;
  total_env_steps : Z;
  enable_logging : bool;
  step_path : option EpisodeBatch
}.

(** What [tabular.record] is given: [itr / steps_per_epoch] for the epoch,
    and numpy reductions of the accumulators, kept with their argument. *)
Inductive LogValue : Type :=
| Epoch (itr steps_per_epoch : Z)
| Mean (a : nparg)
| Max (a : nparg)
| MeanAbs (a : nparg).

(** The calls made to the collaborators, and the entries of
    [optimize_policy], in the order they happen. *)
Inductive Event : Type :=
| ObtainEpisodes (itr : Z) (total_env_steps : Z)
    (agent : agent_update ExplorationPolicy)
| AddEpisodeBatch (stored : Z)
| OptimizePolicy (stored : Z)
| SampleTransitions (n : Z) (transitions : Transitions)
| TargetPolicy (next_inputs out : list float)
| RandomNormal (scale : float) (draws : list float)
| TargetQf (next_inputs target_actions out : list float)
| TrainQf (ys inputs acts : list float) (loss : float) (qval : list float)
| TrainPolicy (inputs : list float) (loss : float)
| UpdateTarget
| EvaluationEpisodes (itr : Z) (returns : list float)
| LoggerLog (msg : string)
| TabularRecord (key : string) (value : LogValue).

(** The state a method runs in: the instance, the runner, the memory of
    the numpy arrays, the outside world, and the calls made so far (the
    most recent first). *)
Record State : Type := mk_State {
  self : DDPG;
  runner : Runner;
  mem : heap;
  world : World;
  log : list Event
}.

(** *** The monad of methods: state, and exceptions that keep the state *)

Definition M (A : Type) : Type := State -> result A * State.

Definition ret {A : Type} (a : A) : M A := fun st => (Ok a, st).

Definition bind {A B : Type} (m : M A) (f : A -> M B) : M B :=
  fun st =>
    match m st with
    | (Ok a, st') => f a st'
    | (Raise e, st') => (Raise e, st')
    end.

Definition raise {A : Type} (e : exn) : M A := fun st => (Raise e, st).

Definition lift {A : Type} (r : result A) : M A := fun st => (r, st).

Definition gets {A : Type} (f : State -> A) : M A := fun st => (Ok (f st), st).

Definition modify (f : State -> State) : M unit := fun st => (Ok tt, f st).

End Algo.

Declare Scope py_scope.
Delimit Scope py_scope with py.

Notation "x <- m ;; k" := (bind m (fun x => k))
  (at level 100, m at next level, right associativity) : py_scope.
Notation "m ;; k" := (bind m (fun _ => k))
  (at level 100, right associativity) : py_scope.

Section Methods.

Context `{C : Collaborators}.

Local Open Scope py_scope.

(** *** Assignments *)

Definition set_self (f : DDPG -> DDPG) (st : State) : State :=
  mk_State (f (self st)) (runner st) (mem st) (world st) (log st).

Definition set_runner (f : Runner -> Runner) (st : State) : State :=
  mk_State (self st) (f (runner st)) (mem st) (world st) (log st).

Definition set_mem (h : heap) (st : State) : State :=
  mk_State (self st) (runner st) h (world st) (log st).

Definition set_world (w : World) (st : State) : State :=
  mk_State (self st) (runner st) (mem st) w (log st).

Definition emit (e : Event) : M unit :=
  modify (fun st =>
    mk_State (self st) (runner st) (mem st) (world st) (e :: log st)).

Definition set_replay_buffer (b : ReplayBuffer) (d : DDPG) : DDPG :=
  mk_DDPG (hyper d) (_episode_policy_losses d) (_episode_qf_losses d)
    (_epoch_ys d) (_epoch_qs d) (_target_policy d) (_target_qf d) (_qf d)
    (_eval_env d) b (policy d) (exploration_policy d).

Definition set_eval_env (e : option Environment) (d : DDPG) : DDPG :=
  mk_DDPG (hyper d) (_episode_policy_losses d) (_episode_qf_losses d)
    (_epoch_ys d) (_epoch_qs d) (_target_policy d) (_target_qf d) (_qf d)
    e (replay_buffer d) (policy d) (exploration_policy d).

(** The four [append]s of [train_once]. *)
Definition append_policy_loss (x : float) (d : DDPG) : DDPG :=
  mk_DDPG (hyper d) (_episode_policy_losses d ++ [x]) (_episode_qf_losses d)
    (_epoch_ys d) (_epoch_qs d) (_target_policy d) (_target_qf d) (_qf d)
    (_eval_env d) (replay_buffer d) (policy d) (exploration_policy d).

Definition append_qf_loss (x : float) (d : DDPG) : DDPG :=
  mk_DDPG (hyper d) (_episode_policy_losses d) (_episode_qf_losses d ++ [x])
    (_epoch_ys d) (_epoch_qs d) (_target_policy d) (_target_qf d) (_qf d)
    (_eval_env d) (replay_buffer d) (policy d) (exploration_policy d).

Definition append_ys (x : list float) (d : DDPG) : DDPG :=
  mk_DDPG (hyper d) (_episode_policy_losses d) (_episode_qf_losses d)
    (_epoch_ys d ++ [x]) (_epoch_qs d) (_target_policy d) (_target_qf d)
    (_qf d) (_eval_env d) (replay_buffer d) (policy d) (exploration_policy d).

Definition append_qs (x : list float) (d : DDPG) : DDPG :=
  mk_DDPG (hyper d) (_episode_policy_losses d) (_episode_qf_losses d)
    (_epoch_ys d) (_epoch_qs d ++ [x]) (_target_policy d) (_target_qf d)
    (_qf d) (_eval_env d) (replay_buffer d) (policy d) (exploration_policy d).

Definition set_step_itr (i : Z) (r : Runner) : Runner :=
  mk_Runner i (total_env_steps r) (enable_logging r) (step_path r).

Definition set_enable_logging (b : bool) (r : Runner) : Runner :=
  mk_Runner (step_itr r) (total_env_steps r) b (step_path r).

Definition set_step_path (p : EpisodeBatch) (total : Z) (r : Runner)
  : Runner :=
  mk_Runner (step_itr r) total (enable_logging r) (Some p).

(** *** Reads *)

(** [self._x] for an attribute of [Hyper]. *)
Definition attr {A : Type} (f : Hyper -> A) : M A :=
  gets (fun st => f (hyper (self st))).

(** The entries of an array, read when a collaborator is handed it. *)
Definition load (a : ndarray) : M (list float) :=
  gets (fun st => read (mem st) a).

(** [self.replay_buffer.n_transitions_stored]. *)
Definition stored_now : M Z :=
  gets (fun st => n_transitions_stored (replay_buffer (self st))).

(** A collaborator that reads and changes the world only. *)
Definition call {A : Type} (f : World -> A * World) : M A :=
  fun st => (Ok (fst (f (world st))), set_world (snd (f (world st))) st).

(** *** Loops *)

(** [range(n)]. *)
Definition range (n : Z) : list Z := map Z.of_nat (seq 0 (Z.to_nat n)).

(** [for x in xs: body], with the local names the body assigns as the
    carried value. *)
Fixpoint for_each {X L : Type} (xs : list X) (body : X -> L -> M L) (l : L)
  : M L :=
  match xs with
  | [] => ret l
  | x :: xs' => l' <- body x l ;; for_each xs' body l'
  end.

(** *** [__init__] (lines 60-136)

    The result is the instance, the world after the two [clone]s and
    [init_opt], and the object bound to the local name
    [exploration_policy_clip] when the body ends: line 124 rebinds that
    name to the tuple [(0.5,)], after line 123 has stored the argument. *)
Definition __init__
  (a : Args.t Network ExplorationPolicy ReplayBuffer) (w : World)
  : DDPG * pyobj * World :=
  let action_bound := action_space_high_0 (Args.env_spec a) in
  let '(target_policy, w) :=
    clone (Args.policy a) "target_policy" w in
  let '(target_qf, w) := clone (Args.qf a) "target_qf" w in
  let self_exploration_policy_clip := Args.exploration_policy_clip a in
  let exploration_policy_clip := PyTuple [0.5%float] in
  let h :=
    {| env_spec := Args.env_spec a;
       _max_action :=
         match Args.max_action a with
         | None => action_bound
         | Some max_action => max_action
         end;
       _tau := Args.target_update_tau a;
       _policy_weight_decay := Args.policy_weight_decay a;
       _qf_weight_decay := Args.qf_weight_decay a;
       _name := Args.name a;
       _clip_pos_returns := Args.clip_pos_returns a;
       _clip_return := Args.clip_return a;
       _policy_lr := Args.policy_lr a;
       _qf_lr := Args.qf_lr a;
       _min_buffer_size := Args.min_buffer_size a;
       _start_steps := Args.start_steps a;
       _steps_per_epoch := Args.steps_per_epoch a;
       _n_train_steps := Args.n_train_steps a;
       _buffer_batch_size := Args.buffer_batch_size a;
       _discount := Args.discount a;
       _reward_scale := Args.reward_scale a;
       _num_evaluation_episodes := Args.num_evaluation_episodes a;
       max_episode_length := spec_max_episode_length (Args.env_spec a);
       _max_episode_length_eval :=
         spec_max_episode_length (Args.env_spec a);
       _exploration_policy_sigma := Args.exploration_policy_sigma a;
       _exploration_policy_clip := self_exploration_policy_clip;
       _act_dim := action_space_flat_dim (Args.env_spec a);
       _obs_dim := observation_space_flat_dim (Args.env_spec a) |} in
  let d :=
    {| hyper := h;
       _episode_policy_losses := [];
       _episode_qf_losses := [];
       _epoch_ys := [];
       _epoch_qs := [];
       _target_policy := target_policy;
       _target_qf := target_qf;
       _qf := Args.qf a;
       _eval_env := None;
       replay_buffer := Args.replay_buffer a;
       policy := Args.policy a;
       exploration_policy := Args.exploration_policy a |} in
  (d, exploration_policy_clip, build_graph w).

(** *** [optimize_policy] (lines 356-397) *)

(** [np.random.normal(loc, scale, size)]: [size] draws. *)
Fixpoint np_random_normal (loc scale : float) (size : nat) (w : World)
  : list float * World :=
  match size with
  | O => ([], w)
  | S size' =>
      let (x, w1) := normal_draw loc scale w in
      let (xs, w2) := np_random_normal loc scale size' w1 in
      (x :: xs, w2)
  end.

(** Line 390:
    [rewards + (1.0 - terminals) * self._discount * target_qvals]. *)
Definition regression_target
  (rewards terminals : list float) (discount : float)
  (target_qvals : list float) : result (list float) :=
  let not_done :=
    map (fun t => ((1.0 - t) * discount)%float) terminals in
  match broadcast2 PrimFloat.mul not_done target_qvals with
  | Ok bootstrap => broadcast2 PrimFloat.add rewards bootstrap
  | Raise e => Raise e
  end.

(** [self.replay_buffer.sample_transitions(n)]. *)
Definition sample (n : Z) : M Transitions :=
  fun st =>
    let r :=
      sample_transitions (replay_buffer (self st)) n (mem st) (world st) in
    (Ok (fst (fst r)), set_world (snd r) (set_mem (snd (fst r)) st)).

Definition optimize_policy
  : M (float * list float * list float * float) :=
  stored <- stored_now ;;
  emit (OptimizePolicy stored) ;;
  (* transitions = self.replay_buffer.sample_transitions(...) *)
  batch_size <- attr _buffer_batch_size ;;
  transitions <- sample batch_size ;;
  emit (SampleTransitions batch_size transitions) ;;
  let observations_ := observations transitions in
  let next_observations_ := next_observations transitions in
  let rewards_ := reshape_col (rewards transitions) in
  let actions_ := actions transitions in
  let terminals_ := reshape_col (terminals transitions) in
  (* rewards *= self._reward_scale *)
  reward_scale <- attr _reward_scale ;;
  modify (fun st => set_mem (imul (mem st) rewards_ reward_scale) st) ;;
  let next_inputs := next_observations_ in
  let inputs := observations_ in
  (* target_actions = self.target_policy_f_prob_online(next_inputs) *)
  next_inputs_v <- load next_inputs ;;
  target_actions <-
    gets (fun st => target_policy_f_prob_online next_inputs_v (world st)) ;;
  emit (TargetPolicy next_inputs_v target_actions) ;;
  (* noise = np.random.normal(0.0, sigma, target_actions.shape) *)
  sigma <- attr _exploration_policy_sigma ;;
  noise <- call (np_random_normal 0%float sigma (length target_actions)) ;;
  emit (RandomNormal sigma noise) ;;
  (* noise = np.clip(noise, -clip, clip) *)
  noise_clip <- attr _exploration_policy_clip ;;
  let noise := clip noise (- noise_clip)%float noise_clip in
  (* target_actions += noise *)
  target_actions <- lift (iadd target_actions noise) ;;
  (* target_qvals = self.target_qf_f_prob_online(next_inputs, ...) *)
  next_inputs_v <- load next_inputs ;;
  target_qvals <-
    gets (fun st =>
      target_qf_f_prob_online next_inputs_v target_actions (world st)) ;;
  emit (TargetQf next_inputs_v target_actions target_qvals) ;;
  (* ys = rewards + (1.0 - terminals) * discount * target_qvals *)
  rewards_v <- load rewards_ ;;
  terminals_v <- load terminals_ ;;
  discount <- attr _discount ;;
  ys <- lift (regression_target rewards_v terminals_v discount target_qvals) ;;
  (* _, qval_loss, qval = self.f_train_qf(ys, inputs, actions) *)
  inputs_v <- load inputs ;;
  actions_v <- load actions_ ;;
  trained <- call (f_train_qf ys inputs_v actions_v) ;;
  let '(qval_loss, qval) := trained in
  emit (TrainQf ys inputs_v actions_v qval_loss qval) ;;
  (* _, action_loss = self.f_train_policy(inputs) *)
  inputs_v <- load inputs ;;
  action_loss <- call (f_train_policy inputs_v) ;;
  emit (TrainPolicy inputs_v action_loss) ;;
  (* self.f_update_target() *)
  call (fun w => (tt, f_update_target w)) ;;
  emit UpdateTarget ;;
  ret (qval_loss, ys, qval, action_loss).

(** *** [train_once] (lines 318-354) *)

(** [np.max] has no value on an argument without entries: it raises
    [ValueError]. *)
Definition np_max (a : nparg) : M LogValue :=
  if Nat.eqb (size a) 0 then raise ValueError else ret (Max a).

(** The body of [for _ in range(self._n_train_steps)]. *)
Definition train_step : M unit :=
  stored <- stored_now ;;
  min_buffer_size <- attr _min_buffer_size ;;
  if stored >=? min_buffer_size then
    out <- optimize_policy ;;
    let '(qf_loss, y_s, qval, policy_loss) := out in
    modify (set_self (append_policy_loss policy_loss)) ;;
    modify (set_self (append_qf_loss qf_loss)) ;;
    modify (set_self (append_ys y_s)) ;;
    modify (set_self (append_qs qval))
  else ret tt.

(** The records of lines 342-354. *)
Definition record_statistics (itr : Z) : M unit :=
  steps_per_epoch <- attr _steps_per_epoch ;;
  emit (TabularRecord "Epoch" (Epoch itr steps_per_epoch)) ;;
  policy_losses <- gets (fun st => _episode_policy_losses (self st)) ;;
  emit (TabularRecord "Policy/AveragePolicyLoss"
          (Mean (Scalars policy_losses))) ;;
  qf_losses <- gets (fun st => _episode_qf_losses (self st)) ;;
  emit (TabularRecord "QFunction/AverageQFunctionLoss"
          (Mean (Scalars qf_losses))) ;;
  qs <- gets (fun st => _epoch_qs (self st)) ;;
  emit (TabularRecord "QFunction/AverageQ" (Mean (Arrays qs))) ;;
  max_q <- np_max (Arrays qs) ;;
  emit (TabularRecord "QFunction/MaxQ" max_q) ;;
  emit (TabularRecord "QFunction/AverageAbsQ" (MeanAbs (Arrays qs))) ;;
  ys <- gets (fun st => _epoch_ys (self st)) ;;
  emit (TabularRecord "QFunction/AverageY" (Mean (Arrays ys))) ;;
  max_y <- np_max (Arrays ys) ;;
  emit (TabularRecord "QFunction/MaxY" max_y) ;;
  emit (TabularRecord "QFunction/AverageAbsY" (MeanAbs (Arrays ys))).

Definition train_once (itr : Z) : M unit :=
  (* epoch = itr / self._steps_per_epoch *)
  steps_per_epoch <- attr _steps_per_epoch ;;
  (if steps_per_epoch =? 0 then raise ZeroDivisionError else ret tt) ;;
  n_train_steps <- attr _n_train_steps ;;
  for_each (range n_train_steps) (fun _ _ => train_step) tt ;;
  if itr mod steps_per_epoch =? 0 then
    emit (LoggerLog "Training finished") ;;
    stored <- stored_now ;;
    min_buffer_size <- attr _min_buffer_size ;;
    if stored >=? min_buffer_size then record_statistics itr else ret tt
  else ret tt.

(** *** [train] (lines 269-316) *)

(** Modelled from the spec: [runner.step_epochs()], a generator of
    garage's trainer, which is not among the sources. The trainer
    "sequences epochs" and [run(num_epochs, steps_per_epoch)] drives
    [num_epochs * steps_per_epoch] sampling cycles: the generator yields
    once per epoch, [num_epochs] times. *)
Definition step_epochs (num_epochs : nat) : list nat := seq 0 num_epochs.

(** [np.mean(last_returns)]. On [None], numpy makes a 0-d object array,
    its sum is [None], and [None / 1] raises [TypeError]. *)
Definition np_mean_returns (last_returns : option (list float))
  : result float :=
  match last_returns with
  | None => Raise TypeError
  | Some returns => Ok (np_mean returns)
  end.

(** [runner.step_path = runner.obtain_episodes(itr, agent_update=...)]. *)
Definition obtain (agent : agent_update ExplorationPolicy) : M unit :=
  fun st =>
    let itr := step_itr (runner st) in
    let total := total_env_steps (runner st) in
    let r := obtain_episodes itr agent total (world st) in
    (Ok tt,
     mk_State (self st)
       (set_step_path (fst (fst r)) (snd (fst r)) (runner st)) (mem st)
       (snd r) (ObtainEpisodes itr total agent :: log st)).

(** [self.replay_buffer.add_episode_batch(runner.step_path)]. *)
Definition store_step_path : M unit :=
  fun st =>
    match step_path (runner st) with
    | None => (Raise TypeError, st)
    | Some path =>
        let r := add_episode_batch (replay_buffer (self st)) path (mem st) in
        (Ok tt,
         mk_State (set_replay_buffer (fst r) (self st)) (runner st) (snd r)
           (world st) (AddEpisodeBatch (n_transitions_stored (fst r)) :: log st))
    end.

(** Lines 306-313: the evaluation, whose returns become
    [last_returns]. *)
Definition evaluate : M (list float) :=
  modify (set_runner (set_enable_logging true)) ;;
  num_eps <- attr _num_evaluation_episodes ;;
  policy_ <- gets (fun st => policy (self st)) ;;
  eval_env <- gets (fun st => _eval_env (self st)) ;;
  eval_episodes <-
    call (obtain_evaluation_episodes policy_ eval_env num_eps) ;;
  itr <- gets (fun st => step_itr (runner st)) ;;
  discount <- attr _discount ;;
  returns <- call (log_performance itr eval_episodes discount) ;;
  emit (EvaluationEpisodes itr returns) ;;
  ret returns.

(** The body of [for cycle in range(self._steps_per_epoch)]; the local
    name it assigns is [last_returns]. *)
Definition cycle_body (cycle : Z) (last_returns : option (list float))
  : M (option (list float)) :=
  itr <- gets (fun st => step_itr (runner st)) ;;
  start_steps <- attr _start_steps ;;
  (if itr >=? start_steps then
     exploration <- gets (fun st => exploration_policy (self st)) ;;
     obtain (Given exploration)
   else
     spec <- attr env_spec ;;
     obtain (UniformRandomPolicy spec)) ;;
  store_step_path ;;
  total <- gets (fun st => total_env_steps (runner st)) ;;
  (if total >=? start_steps then
     itr <- gets (fun st => step_itr (runner st)) ;;
     train_once itr
   else ret tt) ;;
  stored <- stored_now ;;
  min_buffer_size <- attr _min_buffer_size ;;
  last_returns' <-
    (if (cycle =? 0) && (stored >=? min_buffer_size) then
       returns <- evaluate ;; ret (Some returns)
     else ret last_returns) ;;
  modify (set_runner (fun r => set_step_itr (step_itr r + 1) r)) ;;
  ret last_returns'.

(** The two nested loops of [train]. *)
Definition epochs (num_epochs : nat) : M (option (list float)) :=
  for_each (step_epochs num_epochs)
    (fun _ last_returns =>
       steps_per_epoch <- attr _steps_per_epoch ;;
       for_each (range steps_per_epoch) cycle_body last_returns)
    None.

Definition train (num_epochs : nat) : M float :=
  eval_env <- gets (fun st => _eval_env (self st)) ;;
  match eval_env with
  | None =>
      env <- call get_env_copy ;;
      modify (set_self (set_eval_env (Some env)))
  | Some _ => ret tt
  end ;;
  modify (set_runner (set_enable_logging false)) ;;
  last_returns <- epochs num_epochs ;;
  lift (np_mean_returns last_returns).

(** *** Reasoning on a method

    [wp m Q st]: running [m] from [st] ends, with a value or with an
    exception, in a state that satisfy [Q]. *)
Definition wp {A : Type} (m : M A) (Q : result A -> State -> Prop)
  (st : State) : Prop :=
  Q (fst (m st)) (snd (m st)).

End Methods.

(** ** What the log shows *)

Section Observations.

Context `{C : Collaborators}.

(** [n_transitions_stored] at each call of [optimize_policy]. *)
Fixpoint optimize_calls (l : list Event) : list Z :=
  match l with
  | [] => []
  | OptimizePolicy stored :: l' => stored :: optimize_calls l'
  | _ :: l' => optimize_calls l'
  end.

(** [n_transitions_stored] after each [add_episode_batch]. *)
Fixpoint stores (l : list Event) : list Z :=
  match l with
  | [] => []
  | AddEpisodeBatch stored :: l' => stored :: stores l'
  | _ :: l' => stores l'
  end.

(** The calls of [runner.obtain_episodes]: iteration, environment steps
    taken before the call, acting policy. *)
Fixpoint samplings (l : list Event)
  : list (Z * Z * agent_update ExplorationPolicy) :=
  match l with
  | [] => []
  | ObtainEpisodes itr total agent :: l' => (itr, total, agent) :: samplings l'
  | _ :: l' => samplings l'
  end.

(** The gradient steps on the Q-function: loss, targets, Q-values. *)
Fixpoint qf_updates (l : list Event)
  : list (float * list float * list float) :=
  match l with
  | [] => []
  | TrainQf ys _ _ loss qval :: l' => (loss, ys, qval) :: qf_updates l'
  | _ :: l' => qf_updates l'
  end.

(** The gradient steps on the policy: loss. *)
Fixpoint policy_updates (l : list Event) : list float :=
  match l with
  | [] => []
  | TrainPolicy _ loss :: l' => loss :: policy_updates l'
  | _ :: l' => policy_updates l'
  end.

(** The returns of the evaluations. *)
Fixpoint evaluations (l : list Event) : list (list float) :=
  match l with
  | [] => []
  | EvaluationEpisodes _ returns :: l' => returns :: evaluations l'
  | _ :: l' => evaluations l'
  end.

(** The four accumulators as the log gives them: one entry per
    optimization step made so far, the oldest first. *)
Definition policy_loss_history (l : list Event) : list float :=
  rev (policy_updates l).

Definition qf_loss_history (l : list Event) : list float :=
  rev (map (fun u => fst (fst u)) (qf_updates l)).

Definition ys_history (l : list Event) : list (list float) :=
  rev (map (fun u => snd (fst u)) (qf_updates l)).

Definition qs_history (l : list Event) : list (list float) :=
  rev (map (fun u => snd u) (qf_updates l)).

(** A recorded value is computed over every optimization step that
    [before] holds. *)
Definition over_all_steps (before : list Event) (v : LogValue) : Prop :=
  match v with
  | Epoch _ _ => True
  | Mean a | Max a | MeanAbs a =>
      a = Scalars (policy_loss_history before) \/
      a = Scalars (qf_loss_history before) \/
      a = Arrays (ys_history before) \/
      a = Arrays (qs_history before)
  end.

(** Every record of the log is computed over every optimization step made
    before it. *)
Fixpoint records_over_all_steps (l : list Event) : Prop :=
  match l with
  | [] => True
  | TabularRecord _ v :: l' => over_all_steps l' v /\ records_over_all_steps l'
  | _ :: l' => records_over_all_steps l'
  end.

(** The arguments of the records of one key that are means of Python
    floats, the most recent first. *)
Fixpoint mean_records (key : string) (l : list Event) : list (list float) :=
  match l with
  | [] => []
  | TabularRecord k (Mean (Scalars xs)) :: l' =>
      if String.eqb k key then xs :: mean_records key l'
      else mean_records key l'
  | _ :: l' => mean_records key l'
  end.

(** The acting policy the loop of [train] chooses at iteration [itr]. *)
Definition acting_policy (d : DDPG) (itr : Z)
  : agent_update ExplorationPolicy :=
  if itr >=? _start_steps (hyper d) then Given (exploration_policy d)
  else UniformRandomPolicy (env_spec (hyper d)).

(** A state as [__init__] leaves it, before any call is made. *)
Definition fresh
  (a : Args.t Network ExplorationPolicy ReplayBuffer) (r : Runner)
  (h : heap) (w : World) : State :=
  let '(d, _, w') := __init__ a w in mk_State d r h w' [].

(** The most recent answers of the collaborators of [optimize_policy]. *)
Fixpoint last_sample (l : list Event) : option Transitions :=
  match l with
  | [] => None
  | SampleTransitions _ tr :: _ => Some tr
  | _ :: l' => last_sample l'
  end.

Fixpoint last_target_policy (l : list Event) : option (list float) :=
  match l with
  | [] => None
  | TargetPolicy _ out :: _ => Some out
  | _ :: l' => last_target_policy l'
  end.

Fixpoint last_draws (l : list Event) : option (list float) :=
  match l with
  | [] => None
  | RandomNormal _ draws :: _ => Some draws
  | _ :: l' => last_draws l'
  end.

(** The target actions handed to the target Q-function, and its answer. *)
Fixpoint last_target_qf (l : list Event) : option (list float * list float) :=
  match l with
  | [] => None
  | TargetQf _ target_actions out :: _ => Some (target_actions, out)
  | _ :: l' => last_target_qf l'
  end.

(** What the optimization steps leave as it is: the attributes of the
    instance other than the accumulators, the runner, and the calls to the
    sampler, to the buffer and to the evaluation. *)
Definition outside_optimization (st st' : State) : Prop :=
  hyper (self st') = hyper (self st) /\
  replay_buffer (self st') = replay_buffer (self st) /\
  exploration_policy (self st') = exploration_policy (self st) /\
  runner st' = runner st /\
  stores (log st') = stores (log st) /\
  samplings (log st') = samplings (log st) /\
  evaluations (log st') = evaluations (log st).

(** The calls of a log went through the gates of an instance with
    hyperparameters [h] and exploration policy [ep]: each call of
    [optimize_policy] saw [n_transitions_stored >= min_buffer_size], on a
    buffer as an [add_episode_batch] of the log left it; each sampling used
    the acting policy of its iteration; each gradient step belongs to a
    call of [optimize_policy]. *)
Definition gated (h : Hyper) (ep : option ExplorationPolicy)
  (l : list Event) : Prop :=
  Forall (fun s => _min_buffer_size h <= s /\ In s (stores l))
    (optimize_calls l) /\
  Forall (fun c =>
            snd c =
            if fst (fst c) >=? _start_steps h then Given ep
            else UniformRandomPolicy (env_spec h))
    (samplings l) /\
  (length (qf_updates l) <= length (optimize_calls l))%nat /\
  (length (policy_updates l) <= length (optimize_calls l))%nat.

(** The accumulators hold one entry per optimization step of the log, and
    every record of the log was computed over all the steps before it. *)
Definition accumulated (st : State) : Prop :=
  _episode_policy_losses (self st) = policy_loss_history (log st) /\
  _episode_qf_losses (self st) = qf_loss_history (log st) /\
  _epoch_ys (self st) = ys_history (log st) /\
  _epoch_qs (self st) = qs_history (log st) /\
  records_over_all_steps (log st).

(** [last_returns] is [None] unless some [add_episode_batch] left at
    least [min_buffer_size] transitions. *)
Definition none_unless_warm (h : Hyper) (last_returns : option (list float))
  (l : list Event) : Prop :=
  last_returns = None \/
  exists s, In s (stores l) /\ _min_buffer_size h <= s.

(** Two logs with the same calls to the collaborators: they differ by
    messages and records only. *)
Definition same_calls (l l' : list Event) : Prop :=
  optimize_calls l' = optimize_calls l /\
  stores l' = stores l /\
  samplings l' = samplings l /\
  qf_updates l' = qf_updates l /\
  policy_updates l' = policy_updates l /\
  evaluations l' = evaluations l.

End Observations.

(** ** Collaborators to run the model with

    One-dimensional observations and actions; a sampler that hands out
    prepared episodes; networks that answer with constants; a replay buffer
    that keeps one array per key, and samples either as garage's buffers do
    (indexing with an index array, which copies) or by slicing (views on
    the stored arrays). *)

Module Doubles.

Local Open Scope nat_scope.

(** One transition: observation, action, reward, next observation,
    terminal. *)
Definition Row : Type := float * float * float * float * float.

Record world : Type := mk_world {
  draws : list float;            (* what np.random.normal will draw *)
  batches : list (list Row);     (* what the sampler will return *)
  target_q : float;              (* the answer of the target Q-function *)
  policy_losses : list float     (* what f_train_policy will return *)
}.

Record buffer : Type := mk_buffer {
  by_reference : bool;
  storage : Transitions
}.

Definition column (f : Row -> float) (rows : list Row) : list float :=
  map f rows.

Definition obs_of (r : Row) : float := fst (fst (fst (fst r))).
Definition act_of (r : Row) : float := snd (fst (fst (fst r))).
Definition reward_of (r : Row) : float := snd (fst (fst r)).
Definition next_obs_of (r : Row) : float := snd (fst r).
Definition terminal_of (r : Row) : float := snd r.

(** Appending a column to a stored array. *)
Definition extend (a : ndarray) (col : list float) (h : heap)
  : ndarray * heap :=
  (mk_ndarray (base a) (start a) (len a + length col),
   alter (fun buf => buf ++ col) (base a) h).

Definition add (b : buffer) (rows : list Row) (h : heap) : buffer * heap :=
  let t := storage b in
  let '(o, h) := extend (observations t) (column obs_of rows) h in
  let '(n, h) := extend (next_observations t) (column next_obs_of rows) h in
  let '(r, h) := extend (rewards t) (column reward_of rows) h in
  let '(a, h) := extend (actions t) (column act_of rows) h in
  let '(d, h) := extend (terminals t) (column terminal_of rows) h in
  (mk_buffer (by_reference b) (mk_Transitions o n r a d), h).

(** [buf[:n]], a view. *)
Definition slice (a : ndarray) (n : nat) : ndarray :=
  mk_ndarray (base a) (start a) (Nat.min n (len a)).

(** [buf[idx]] with [idx = arange(n)], a copy. *)
Definition take_copy (a : ndarray) (n : nat) (h : heap) : ndarray * heap :=
  let (h', a') := alloc h (read h (slice a n)) in (a', h').

(** Modelled from the spec: [ReplayBuffer.sample_transitions], whose
    implementation is not among the sources. With [by_reference] the batch
    is "referenced (not copied) during sampling"; without it the batch is
    made of fresh arrays. *)
Definition sample (b : buffer) (n : Z) (h : heap) (w : world)
  : Transitions * heap * world :=
  let t := storage b in
  let k := Z.to_nat n in
  if by_reference b then
    (mk_Transitions (slice (observations t) k) (slice (next_observations t) k)
       (slice (rewards t) k) (slice (actions t) k) (slice (terminals t) k),
     h, w)
  else
    let '(o, h) := take_copy (observations t) k h in
    let '(n, h) := take_copy (next_observations t) k h in
    let '(r, h) := take_copy (rewards t) k h in
    let '(a, h) := take_copy (actions t) k h in
    let '(d, h) := take_copy (terminals t) k h in
    (mk_Transitions o n r a d, h, w).

(** An empty buffer: five empty arrays, at the start of the memory. *)
Definition empty_heap : heap := [[]; []; []; []; []].

Definition empty_buffer (by_ref : bool) : buffer :=
  mk_buffer by_ref
    (mk_Transitions (mk_ndarray 0 0 0) (mk_ndarray 1 0 0) (mk_ndarray 2 0 0)
       (mk_ndarray 3 0 0) (mk_ndarray 4 0 0)).

Definition draw (w : world) : float * world :=
  match draws w with
  | [] => (0%float, w)
  | x :: xs => (x, mk_world xs (batches w) (target_q w) (policy_losses w))
  end.

Definition next_batch (total : Z) (w : world) : (list Row * Z) * world :=
  match batches w with
  | [] => (([], total), w)
  | b :: bs =>
      ((b, (total + Z.of_nat (length b))%Z),
       mk_world (draws w) bs (target_q w) (policy_losses w))
  end.

Definition next_policy_loss (w : world) : float * world :=
  match policy_losses w with
  | [] => (0%float, w)
  | x :: xs => (x, mk_world (draws w) (batches w) (target_q w) xs)
  end.

Definition mean (xs : list float) : float :=
  (fold_left PrimFloat.add xs 0
   / PrimFloat.of_uint63 (Uint63.of_Z (Z.of_nat (length xs))))%float.

#[export] Instance collaborators : Collaborators := {|
  World := world;
  Network := unit;
  ExplorationPolicy := unit;
  Environment := unit;
  EpisodeBatch := list Row;
  ReplayBuffer := buffer;
  clone := fun _ _ w => (tt, w);
  build_graph := fun w => w;
  target_policy_f_prob_online := fun next_inputs _ => map (fun _ => 0%float) next_inputs;
  target_qf_f_prob_online :=
    fun next_inputs _ w => map (fun _ => target_q w) next_inputs;
  f_train_qf := fun ys _ _ w => ((0%float, ys), w);
  f_train_policy := fun _ w => next_policy_loss w;
  f_update_target := fun w => w;
  normal_draw := fun _ _ w => draw w;
  np_mean := mean;
  n_transitions_stored := fun b => Z.of_nat (len (rewards (storage b)));
  add_episode_batch := add;
  sample_transitions := sample;
  get_env_copy := fun w => (tt, w);
  obtain_episodes := fun _ _ total w => next_batch total w;
  obtain_evaluation_episodes := fun _ _ _ w => ([], w);
  log_performance := fun _ _ _ w => ([1%float], w)
|}.

End Doubles.

(** ** Scenarios *)

Module Scenario.

Import Doubles.

Definition spec : EnvSpec := mk_EnvSpec 1 1 1 None.

(** The arguments of a scenario: the defaults of [__init__] but for the
    cadence, the gates, [target_update_tau] and [reward_scale]. *)
Definition args (steps_per_epoch n_train_steps start_steps
  buffer_batch_size min_buffer_size : Z) (tau reward_scale : float)
  (b : buffer) : Args.t unit unit buffer :=
  let a := Args.defaults (P := unit) spec tt tt b in
  Args.mk (Args.env_spec a) (Args.policy a) (Args.qf a)
    (Args.replay_buffer a) steps_per_epoch n_train_steps start_steps
    buffer_batch_size min_buffer_size (Args.exploration_policy a) tau
    (Args.discount a) (Args.policy_weight_decay a) (Args.qf_weight_decay a)
    (Args.num_evaluation_episodes a) (Args.policy_lr a) (Args.qf_lr a)
    (Args.clip_pos_returns a) (Args.clip_return a) (Args.max_action a)
    reward_scale (Args.exploration_policy_sigma a)
    (Args.exploration_policy_clip a) (Args.name a).

Definition runner0 : Runner := mk_Runner 0 0 false None.

(** A new instance on a buffer that holds [rows]. *)
Definition state (by_ref : bool) (rows : list Row)
  (a : buffer -> Args.t unit unit buffer) (w : world) : State :=
  let (b, h) := add (empty_buffer by_ref) rows empty_heap in
  fresh (a b) runner0 h w.

Definition quiet (target_q : float) : world :=
  mk_world [0.7; -0.9]%float [] target_q [10; 20]%float.

Definition sampler (batches : list (list Row)) : world :=
  mk_world [] batches 5%float [10; 20]%float.

Definition row (reward terminal : float) : Row :=
  (0.1, 0.2, reward, 0.3, terminal)%float.

(** One stored transition [(r = 1.0, terminal = 0)], [discount = 0.99],
    [reward_scale = 2.0], a target Q-value of [5.0]. *)
Definition scaled_reward : State :=
  state false [row 1 0] (args 1 1 0 1 1 0.01 2) (quiet 5).

(** One stored terminal transition with reward [3.0], and a target
    Q-value of [5.0], or an infinite one. *)
Definition terminal_finite : State :=
  state false [row 3 1] (args 1 1 0 1 1 0.01 2) (quiet 5).

Definition terminal_infinite : State :=
  state false [row 3 1] (args 1 1 0 1 1 0.01 2) (quiet infinity).

(** The same stored transition, sampled by reference. *)
Definition by_view : State :=
  state true [row 1 0] (args 1 1 0 1 1 0.01 2) (quiet 5).

(** Two cycles of one transition each, far below [min_buffer_size = 10]. *)
Definition cold : State :=
  state false [] (args 2 2 0 1 10 0.01 1) (sampler [[row 1 0]; [row 1 0]]).

(** One cycle on a warm buffer, past [start_steps = 0]. *)
Definition warm : State :=
  state false [] (args 1 2 0 1 1 0.01 1) (sampler [[row 1 0]]).

(** One cycle on a warm buffer, before [start_steps = 1000] environment
    steps. *)
Definition warm_before_start : State :=
  state false [] (args 1 2 1000 1 1 0.01 1) (sampler [[row 1 0]]).

(** Two cycles of five environment steps each, with [start_steps = 2]. *)
Definition five_steps : list Row :=
  [row 1 0; row 1 0; row 1 0; row 1 0; row 1 1].

Definition long_episodes : State :=
  state false [] (args 2 1 2 1 100 0.01 1)
    (sampler [five_steps; five_steps]).

(** [min_buffer_size = 1] below [buffer_batch_size = 64], and
    [target_update_tau = 2.0]. *)
Definition invalid_args (b : buffer) : Args.t unit unit buffer :=
  args 1 1 0 64 1 2 1 b.

Definition invalid : State :=
  state false [] invalid_args (sampler [[row 1 0]]).

(** Two epochs of one cycle and one optimization step each. *)
Definition two_epochs : State :=
  state false [] (args 1 1 0 1 1 0.01 1) (sampler [[row 1 0]; [row 1 0]]).

End Scenario.

(** ** What the log shows of the logger and of the cadence of [train] *)

Section Cadence.

Context `{C : Collaborators}.

(** The messages given to [logger.log], the most recent first. *)
Fixpoint messages (l : list Event) : list string :=
  match l with
  | [] => []
  | LoggerLog msg :: l' => msg :: messages l'
  | _ :: l' => messages l'
  end.

(** The keys given to [tabular.record], the most recent first. *)
Fixpoint record_keys (l : list Event) : list string :=
  match l with
  | [] => []
  | TabularRecord key _ :: l' => key :: record_keys l'
  | _ :: l' => record_keys l'
  end.

(** The keys of lines 342-354, in the order of the calls. *)
Definition statistics_keys : list string :=
  ["Epoch"; "Policy/AveragePolicyLoss"; "QFunction/AverageQFunctionLoss";
   "QFunction/AverageQ"; "QFunction/MaxQ"; "QFunction/AverageAbsQ";
   "QFunction/AverageY"; "QFunction/MaxY"; "QFunction/AverageAbsY"]%string.

(** The number of calls of [f_update_target]. *)
Fixpoint target_updates (l : list Event) : nat :=
  match l with
  | [] => O
  | UpdateTarget :: l' => S (target_updates l')
  | _ :: l' => target_updates l'
  end.

(** The iterations given to [runner.obtain_episodes], the most recent
    first. *)
Definition sampled_iterations (l : list Event) : list Z :=
  map (fun s => fst (fst s)) (samplings l).

(** The iterations given to [log_performance], the most recent first. *)
Fixpoint evaluation_iterations (l : list Event) : list Z :=
  match l with
  | [] => []
  | EvaluationEpisodes itr _ :: l' => itr :: evaluation_iterations l'
  | _ :: l' => evaluation_iterations l'
  end.

(** [n] consecutive iterations from [first], and the first iterations of
    [n] consecutive epochs of [steps_per_epoch] cycles, the most recent
    first as in the log. *)
Definition iterations_from (first : Z) (n : nat) : list Z :=
  rev (map (fun k => first + Z.of_nat k) (seq 0 n)).

Definition epoch_starts (first steps_per_epoch : Z) (n : nat) : list Z :=
  rev (map (fun e => first + Z.of_nat e * steps_per_epoch) (seq 0 n)).

(** The attributes of an instance that are neither an accumulator, nor
    the replay buffer, nor the evaluation environment. *)
Definition configuration (d : DDPG)
  : Hyper * Network * Network * Network * Network * option ExplorationPolicy :=
  (hyper d, _target_policy d, _target_qf d, _qf d, policy d,
   exploration_policy d).

(** The state of [train] between two cycles, on a log that was empty
    when the loops were entered in [st0]: before the cycle [c] of the
    epoch [e], with [lr] bound to [last_returns]. *)
Definition between_cycles (st0 : State) (e c : nat)
  (lr : option (list float)) (s : State) : Prop :=
  let first := step_itr (runner st0) in
  let spe := _steps_per_epoch (hyper (self st0)) in
  let k := (e * Z.to_nat spe + c)%nat in
  configuration (self s) = configuration (self st0) /\
  _eval_env (self s) = _eval_env (self st0) /\
  step_itr (runner s) = first + Z.of_nat k /\
  sampled_iterations (log s) = iterations_from first k /\
  length (stores (log s)) = k /\
  sublist (evaluation_iterations (log s))
    (epoch_starts first spe (e + Nat.min c 1)) /\
  head (evaluations (log s)) = lr /\
  enable_logging (runner s) = bool_decide (is_Some lr).

(** The state of [train] within the cycle [c] of the epoch [e], from the
    store to the evaluation. *)
Definition within_cycle (st0 : State) (e c : nat)
  (lr : option (list float)) (s : State) : Prop :=
  let first := step_itr (runner st0) in
  let spe := _steps_per_epoch (hyper (self st0)) in
  let k := (e * Z.to_nat spe + c)%nat in
  (c < Z.to_nat spe)%nat /\
  configuration (self s) = configuration (self st0) /\
  _eval_env (self s) = _eval_env (self st0) /\
  step_itr (runner s) = first + Z.of_nat k /\
  sampled_iterations (log s) = iterations_from first (S k) /\
  length (stores (log s)) = S k /\
  sublist (evaluation_iterations (log s))
    (epoch_starts first spe (e + Nat.min c 1)) /\
  head (evaluations (log s)) = lr /\
  enable_logging (runner s) = bool_decide (is_Some lr).

End Cadence.

(** ** More scenarios *)

Module Cases.

Import Doubles.

(** A buffer whose arrays do not have the same number of rows: three
    observations, actions and next observations, two rewards and
    terminals; the batch is a view on the stored arrays. *)
Definition ragged : State :=
  let h : list (list float) :=
    [[0.1; 0.2; 0.3]; [0.4; 0.5; 0.6]; [1; 1]; [0.7; 0.8; 0.9]; [0; 0]]%float
  in
  let b :=
    mk_buffer true
      (mk_Transitions (mk_ndarray 0 0 3) (mk_ndarray 1 0 3)
         (mk_ndarray 2 0 2) (mk_ndarray 3 0 3) (mk_ndarray 4 0 2)) in
  fresh (Scenario.args 1 1 0 3 1 0.01 2 b) Scenario.runner0 h
    (Scenario.quiet 5).

(** One stored transition, on a warm buffer, and no training step per
    cycle: [n_train_steps = 0]. *)
Definition no_steps : State :=
  Scenario.state false [Scenario.row 1 0] (Scenario.args 1 0 0 1 1 0.01 1)
    (Scenario.quiet 5).

(** Two epochs of two cycles of one transition each, with
    [min_buffer_size = 2]: the buffer is warm from the second cycle of
    the first epoch. *)
Definition late_warm_up : State :=
  Scenario.state false [] (Scenario.args 2 1 0 1 2 0.01 1)
    (Scenario.sampler
       [[Scenario.row 1 0]; [Scenario.row 1 0]; [Scenario.row 1 0];
        [Scenario.row 1 0]]).

End Cases.

(** ** The instance as a dictionary of attributes

    [__getstate__] and [__setstate__] (lines 243-267) work on
    [self.__dict__], and the trainer reads an attribute of the algorithm
    by name. Here an instance is the dictionary of its attributes, and
    [__init__] and [init_opt] are followed assignment by assignment; what
    the attributes hold is kept abstract. *)

Declare Scope attr_scope.
Delimit Scope attr_scope with attr.

Module Instance.

(** The objects that attributes hold, and what the constructor does with
    them. *)
Class Objects : Type := {
  object : Type;
  (* None, and the test [x is None] *)
  none : object;
  is_none : object -> bool;
  (* a new empty list *)
  empty_list : object;
  (* the classes garage.sampler.LocalSampler and FragmentWorker *)
  LocalSampler : object;
  FragmentWorker : object;
  (* [x.path], for a path of attributes and indices such as
     [action_space.high[0]] *)
  member : object -> string -> object;
  (* [network.clone(name)] *)
  cloned : object -> string -> object;
  (* [tensor_utils.compile_function(inputs, outputs)]: the function
     compiled for the attribute of the given name, from the graph that
     [init_opt] builds out of the given attributes *)
  compile_function : string -> list object -> object
}.

Inductive error : Type :=
| KeyError (key : string)
| AttributeError (name : string).

Inductive attempt (A : Type) : Type :=
| Returns (a : A)
| Raises (e : error).

Arguments Returns {A} a.
Arguments Raises {A} e.

(** [self.__dict__]: the attributes by name. *)
Abbreviation dict := (gmap string object) (only parsing).

Section Dict.

Context `{O : Objects}.

(** A method: it reads and assigns the attributes of [self], and returns
    or raises; what it has assigned before it raises stays assigned. *)
Definition Method (A : Type) : Type := dict -> attempt A * dict.

Definition ret {A : Type} (a : A) : Method A := fun self => (Returns a, self).

Definition bind {A B : Type} (m : Method A) (f : A -> Method B) : Method B :=
  fun self =>
    match m self with
    | (Returns a, self') => f a self'
    | (Raises e, self') => (Raises e, self')
    end.

(** [self.name] *)
Definition getattr (name : string) : Method object :=
  fun self =>
    match self !! name with
    | Some v => (Returns v, self)
    | None => (Raises (AttributeError name), self)
    end.

(** [self.name = v] *)
Definition setattr (name : string) (v : object) : Method unit :=
  fun self => (Returns tt, <[name := v]> self).

(** [data = self.__dict__.copy()] *)
Definition copy_dict : Method dict := fun self => (Returns self, self).

(** [self.__dict__.update(state)] *)
Definition update_dict (state : dict) : Method unit :=
  fun self => (Returns tt, state ∪ self).

(** [del data[key]] on a local dictionary. *)
Definition del (key : string) (data : dict) : Method dict :=
  fun self =>
    match data !! key with
    | Some _ => (Returns (delete key data), self)
    | None => (Raises (KeyError key), self)
    end.

End Dict.

Notation "x <- m ;; k" := (bind m (fun x => k))
  (at level 100, m at next level, right associativity) : attr_scope.
Notation "m ;; k" := (bind m (fun _ => k))
  (at level 100, right associativity) : attr_scope.

Section Methods.

Context `{O : Objects}.

Local Open Scope string_scope.
Local Open Scope attr_scope.

(** *** [init_opt] (lines 139-241)

    The attributes are read in the order of the source, and the six
    compiled functions are assigned where the source assigns them: two
    before the target operations are made, four when the method ends.
    The two tests on the weight decays (lines 197 and 220) choose what the
    graph holds, and read no attribute that was not read before them. *)
Definition init_opt : Method unit :=
  name <- getattr "_name" ;;
  obs_dim <- getattr "_obs_dim" ;;
  act_dim <- getattr "_act_dim" ;;
  target_policy <- getattr "_target_policy" ;;
  target_qf <- getattr "_target_qf" ;;
  setattr "target_policy_f_prob_online"
    (compile_function "target_policy_f_prob_online"
       [name; obs_dim; target_policy]) ;;
  setattr "target_qf_f_prob_online"
    (compile_function "target_qf_f_prob_online"
       [name; obs_dim; act_dim; target_qf]) ;;
  (* setup_target *)
  policy <- getattr "policy" ;;
  target_policy <- getattr "_target_policy" ;;
  tau <- getattr "_tau" ;;
  qf <- getattr "_qf" ;;
  target_qf <- getattr "_target_qf" ;;
  tau <- getattr "_tau" ;;
  let targets := [name; policy; target_policy; tau; qf; target_qf] in
  let f_init_target := compile_function "f_init_target" targets in
  let f_update_target := compile_function "f_update_target" targets in
  obs_dim <- getattr "_obs_dim" ;;
  act_dim <- getattr "_act_dim" ;;
  (* the policy training function *)
  policy <- getattr "policy" ;;
  qf <- getattr "_qf" ;;
  policy_weight_decay <- getattr "_policy_weight_decay" ;;
  policy_optimizer <- getattr "_policy_optimizer" ;;
  policy_lr <- getattr "_policy_lr" ;;
  policy <- getattr "policy" ;;
  let f_train_policy :=
    compile_function "f_train_policy"
      [name; obs_dim; policy; qf; policy_weight_decay; policy_optimizer;
       policy_lr] in
  (* the Q-function training function *)
  qf <- getattr "_qf" ;;
  qf_weight_decay <- getattr "_qf_weight_decay" ;;
  qf_optimizer <- getattr "_qf_optimizer" ;;
  qf_lr <- getattr "_qf_lr" ;;
  qf <- getattr "_qf" ;;
  let f_train_qf :=
    compile_function "f_train_qf"
      [name; obs_dim; act_dim; qf; qf_weight_decay; qf_optimizer; qf_lr] in
  setattr "f_train_policy" f_train_policy ;;
  setattr "f_train_qf" f_train_qf ;;
  setattr "f_init_target" f_init_target ;;
  setattr "f_update_target" f_update_target.

(** The attributes [init_opt] reads, and those it assigns. *)
Definition init_opt_reads : list string :=
  ["_name"; "_obs_dim"; "_act_dim"; "_target_policy"; "_target_qf";
   "policy"; "_tau"; "_qf"; "_policy_weight_decay"; "_policy_optimizer";
   "_policy_lr"; "_qf_weight_decay"; "_qf_optimizer"; "_qf_lr"].

Definition compiled_functions : list string :=
  ["target_policy_f_prob_online"; "target_qf_f_prob_online";
   "f_train_policy"; "f_train_qf"; "f_init_target"; "f_update_target"].

(** *** [__getstate__] and [__setstate__] (lines 243-267) *)

Definition __getstate__ : Method dict :=
  data <- copy_dict ;;
  data <- del "target_policy_f_prob_online" data ;;
  data <- del "target_qf_f_prob_online" data ;;
  data <- del "f_train_policy" data ;;
  data <- del "f_train_qf" data ;;
  data <- del "f_init_target" data ;;
  data <- del "f_update_target" data ;;
  ret data.

Definition __setstate__ (state : dict) : Method unit :=
  update_dict state ;;
  init_opt.

(** *** [__init__] (lines 60-136), assignment by assignment

    [arg] gives the object bound to each parameter when the body starts,
    the default where the caller gave none. *)
Definition __init__ (arg : string -> object) : Method unit :=
  setattr "env_spec" (arg "env_spec") ;;
  let action_bound := member (arg "env_spec") "action_space.high[0]" in
  setattr "_max_action"
    (if is_none (arg "max_action") then action_bound
     else arg "max_action") ;;
  setattr "_tau" (arg "target_update_tau") ;;
  setattr "_policy_weight_decay" (arg "policy_weight_decay") ;;
  setattr "_qf_weight_decay" (arg "qf_weight_decay") ;;
  setattr "_name" (arg "name") ;;
  setattr "_clip_pos_returns" (arg "clip_pos_returns") ;;
  setattr "_clip_return" (arg "clip_return") ;;
  setattr "_episode_policy_losses" empty_list ;;
  setattr "_episode_qf_losses" empty_list ;;
  setattr "_epoch_ys" empty_list ;;
  setattr "_epoch_qs" empty_list ;;
  setattr "_target_policy" (cloned (arg "policy") "target_policy") ;;
  setattr "_target_qf" (cloned (arg "qf") "target_qf") ;;
  setattr "_policy_optimizer" (arg "policy_optimizer") ;;
  setattr "_qf_optimizer" (arg "qf_optimizer") ;;
  setattr "_policy_lr" (arg "policy_lr") ;;
  setattr "_qf_lr" (arg "qf_lr") ;;
  setattr "_min_buffer_size" (arg "min_buffer_size") ;;
  setattr "_qf" (arg "qf") ;;
  setattr "_start_steps" (arg "start_steps") ;;
  setattr "_steps_per_epoch" (arg "steps_per_epoch") ;;
  setattr "_n_train_steps" (arg "n_train_steps") ;;
  setattr "_buffer_batch_size" (arg "buffer_batch_size") ;;
  setattr "_discount" (arg "discount") ;;
  setattr "_reward_scale" (arg "reward_scale") ;;
  setattr "_num_evaluation_episodes" (arg "num_evaluation_episodes") ;;
  setattr "max_episode_length"
    (member (arg "env_spec") "max_episode_length") ;;
  setattr "_max_episode_length_eval"
    (member (arg "env_spec") "max_episode_length") ;;
  setattr "_exploration_policy_sigma" (arg "exploration_policy_sigma") ;;
  setattr "_exploration_policy_clip" (arg "exploration_policy_clip") ;;
  (* line 124 binds the local name exploration_policy_clip to (0.5,) *)
  setattr "_eval_env" none ;;
  env_spec <- getattr "env_spec" ;;
  setattr "_act_dim" (member env_spec "action_space.flat_dim") ;;
  env_spec <- getattr "env_spec" ;;
  setattr "_obs_dim" (member env_spec "observation_space.flat_dim") ;;
  setattr "replay_buffer" (arg "replay_buffer") ;;
  setattr "policy" (arg "policy") ;;
  setattr "exploration_policy" (arg "exploration_policy") ;;
  setattr "sampler_cls" LocalSampler ;;
  setattr "worker_cls" FragmentWorker ;;
  init_opt.

(** The attributes assigned by lines 89-134, before [init_opt]. *)
Definition init_attributes : list string :=
  ["env_spec"; "_max_action"; "_tau"; "_policy_weight_decay";
   "_qf_weight_decay"; "_name"; "_clip_pos_returns"; "_clip_return";
   "_episode_policy_losses"; "_episode_qf_losses"; "_epoch_ys"; "_epoch_qs";
   "_target_policy"; "_target_qf"; "_policy_optimizer"; "_qf_optimizer";
   "_policy_lr"; "_qf_lr"; "_min_buffer_size"; "_qf"; "_start_steps";
   "_steps_per_epoch"; "_n_train_steps"; "_buffer_batch_size"; "_discount";
   "_reward_scale"; "_num_evaluation_episodes"; "max_episode_length";
   "_max_episode_length_eval"; "_exploration_policy_sigma";
   "_exploration_policy_clip"; "_eval_env"; "_act_dim"; "_obs_dim";
   "replay_buffer"; "policy"; "exploration_policy"; "sampler_cls";
   "worker_cls"].

End Methods.

End Instance.

(** ** The trainer for TensorFlow algorithms (garage/trainer/tf_trainer.py) *)

Module Trainer.

(** TensorFlow, as the trainer calls it. [Tf] is the state of the
    runtime: the default sessions, the variables and their values. *)
Class TensorFlow : Type := {
  Session : Type;
  Session_eq_dec :: EqDecision Session;
  TfVariable : Type;
  Tf : Type;
  (* tf.compat.v1.Session() *)
  new_session : Tf -> Session * Tf;
  (* tf.compat.v1.get_default_session() *)
  get_default_session : Tf -> option Session;
  (* sess.__enter__() and sess.__exit__(exc_type, exc_val, exc_tb) *)
  session_enter : Session -> Tf -> Tf;
  session_exit : Session -> Tf -> Tf;
  (* tf.compat.v1.global_variables(), and v.name *)
  global_variables : Tf -> list TfVariable;
  variable_name : TfVariable -> string;
  (* sess.run(tf.compat.v1.report_uninitialized_variables()), decoded *)
  report_uninitialized_variables : Session -> Tf -> list string;
  (* sess.run(tf.compat.v1.variables_initializer(vars)) *)
  variables_initializer : Session -> list TfVariable -> Tf -> Tf
}.

(** The classes of garage.sampler that [make_sampler] names. *)
Class Workers `{O : Instance.Objects} : Type := {
  DefaultWorker : Instance.object;
  TFWorkerClassWrapper : Instance.object -> Instance.object
}.

Section TFTrainer.

Context `{T : TensorFlow}.

(** The attributes the class assigns itself; those of the base class
    [Trainer] are left out. *)
Record TFTrainer : Type := mk_TFTrainer {
  sess : Session;
  sess_entered : bool
}.

(** The calls made on [self.sess]. *)
Inductive SessionCall : Type :=
| Entered
| Exited.

(** The trainer in its process: the runtime, and the calls the trainer
    has made on its session, the most recent first. *)
Record Process : Type := mk_Process {
  trainer : TFTrainer;
  tf : Tf;
  session_calls : list SessionCall
}.

(** [__init__] (lines 76-79): [sess or tf.compat.v1.Session()]; a session
    object is true. *)
Definition __init__ (sess : option Session) (tf : Tf) : Process :=
  let '(s, tf') :=
    match sess with
    | Some s => (s, tf)
    | None => new_session tf
    end in
  mk_Process (mk_TFTrainer s false) tf' [].

(** [__enter__] (lines 81-91); it returns [self]. *)
Definition __enter__ (p : Process) : Process :=
  let self := trainer p in
  if bool_decide (get_default_session (tf p) <> Some (sess self)) then
    mk_Process (mk_TFTrainer (sess self) true)
      (session_enter (sess self) (tf p)) (Entered :: session_calls p)
  else p.

(** [__exit__] (lines 93-105). *)
Definition __exit__ (p : Process) : Process :=
  let self := trainer p in
  if bool_decide (get_default_session (tf p) = Some (sess self))
     && sess_entered self
  then
    mk_Process (mk_TFTrainer (sess self) false)
      (session_exit (sess self) (tf p)) (Exited :: session_calls p)
  else p.

(** [name.split(':')[0]]: what comes before the first colon, or the whole
    string when it has none. *)
Fixpoint before_colon (name : string) : string :=
  match name with
  | EmptyString => EmptyString
  | String c rest =>
      if Ascii.eqb c ":" then EmptyString else String c (before_colon rest)
  end.

(** The variables that [initialize_tf_vars] (lines 191-202) gives to
    [variables_initializer]. *)
Definition uninitialized_global_variables (p : Process) : list TfVariable :=
  let uninited_set :=
    report_uninitialized_variables (sess (trainer p)) (tf p) in
  List.filter
    (fun v =>
       existsb (String.eqb (before_colon (variable_name v))) uninited_set)
    (global_variables (tf p)).

Definition initialize_tf_vars (p : Process) : Process :=
  mk_Process (trainer p)
    (variables_initializer (sess (trainer p))
       (uninitialized_global_variables p) (tf p))
    (session_calls p).

(** What the program does with a trainer: it enters it, leaves it, or
    does anything else to the runtime in between. *)
Inductive Step : Type :=
| Enter
| Exit
| Elsewhere (f : Tf -> Tf).

Definition step (p : Process) (s : Step) : Process :=
  match s with
  | Enter => __enter__ p
  | Exit => __exit__ p
  | Elsewhere f => mk_Process (trainer p) (f (tf p)) (session_calls p)
  end.

Definition steps (p : Process) (l : list Step) : Process :=
  fold_left step l p.

(** How many times the session has been entered and not yet left, as
    the calls tell, or [None] when it was left more often than
    entered. *)
Fixpoint depth (calls : list SessionCall) : option nat :=
  match calls with
  | [] => Some O
  | Entered :: calls' => S <$> depth calls'
  | Exited :: calls' =>
      match depth calls' with
      | Some (S n) => Some n
      | _ => None
      end
  end.

End TFTrainer.

Section MakeSampler.

Context `{W : Workers}.

(** What [make_sampler] (lines 107-144) hands to [Trainer.make_sampler]. *)
Record SamplerArguments : Type := mk_SamplerArguments {
  sampler_cls : Instance.object;
  seed : Instance.object;
  n_workers : Instance.object;
  max_episode_length : Instance.object;
  worker_class : Instance.object;
  sampler_args : Instance.object;
  worker_args : Instance.object
}.

(** [getattr(obj, name, default)] on an object with attributes
    [attrs]. *)
Definition getattr_default (attrs : Instance.dict) (name : string)
  (default : Instance.object) : Instance.object :=
  match attrs !! name with
  | Some v => v
  | None => default
  end.

(** [make_sampler], with [_algo] the attributes of the object held in
    [self._algo]. *)
Definition make_sampler (_algo : Instance.dict)
  (sampler_cls seed n_workers max_episode_length worker_class
     sampler_args worker_args : Instance.object) : SamplerArguments :=
  let worker_class :=
    if Instance.is_none worker_class then
      getattr_default _algo "worker_cls" DefaultWorker
    else worker_class in
  mk_SamplerArguments sampler_cls seed n_workers max_episode_length
    (TFWorkerClassWrapper worker_class) sampler_args worker_args.

End MakeSampler.

End Trainer.

(** ** Objects and a runtime to run the attribute-level model with

    Objects are their printed form; the runtime keeps the default
    sessions as a stack and the variables with a flag. *)

Module Stubs.

Local Open Scope string_scope.

#[export] Instance objects : Instance.Objects := {|
  Instance.object := string;
  Instance.none := "None";
  Instance.is_none := String.eqb "None";
  Instance.empty_list := "[]";
  Instance.LocalSampler := "LocalSampler";
  Instance.FragmentWorker := "FragmentWorker";
  Instance.member := fun x path => x ++ "." ++ path;
  Instance.cloned := fun x name => x ++ ".clone(" ++ name ++ ")";
  Instance.compile_function := fun name _ => "<function " ++ name ++ ">"
|}.

#[export] Instance workers : Trainer.Workers := {|
  Trainer.DefaultWorker := "DefaultWorker";
  Trainer.TFWorkerClassWrapper := fun c => "TFWorkerClassWrapper(" ++ c ++ ")"
|}.

(** Every parameter bound to an object printed as its name, but
    [max_action], left to its default [None]. *)
Definition arg (name : string) : string :=
  if String.eqb name "max_action" then "None" else name.

Record runtime : Type := mk_runtime {
  default_sessions : list nat;
  variables : list (string * bool)
}.

Definition initialize (vars : list (string * bool)) (v : string * bool)
  : string * bool :=
  if existsb (fun u => String.eqb (fst u) (fst v)) vars then (fst v, true)
  else v.

#[export] Instance tensorflow : Trainer.TensorFlow := {|
  Trainer.Session := nat;
  Trainer.TfVariable := string * bool;
  Trainer.Tf := runtime;
  Trainer.new_session :=
    fun r => (S (list_max (default_sessions r)), r);
  Trainer.get_default_session := fun r => head (default_sessions r);
  Trainer.session_enter :=
    fun s r => mk_runtime (s :: default_sessions r) (variables r);
  Trainer.session_exit :=
    fun s r => mk_runtime (tail (default_sessions r)) (variables r);
  Trainer.global_variables := variables;
  Trainer.variable_name := fst;
  Trainer.report_uninitialized_variables :=
    fun _ r =>
      map (fun v => Trainer.before_colon (fst v))
        (List.filter (fun v => negb (snd v)) (variables r));
  Trainer.variables_initializer :=
    fun _ vars r =>
      mk_runtime (default_sessions r) (map (initialize vars) (variables r))
|}.

End Stubs.

(** * Properties *)

(** ** float64: the predicates of [PrimFloat] on the specification floats *)

Section FloatFacts.

Local Open Scope float_scope.

Lemma SFcompare_refl (s : spec_float) :
  s <> S754_nan -> SFcompare s s = Some Eq.
Proof.
  destruct s as [sg | sg | | sg m e]; simpl; intros H; try congruence.
  - destruct sg; reflexivity.
  - rewrite Z.compare_refl, Pos.compare_cont_refl. destruct sg; reflexivity.
Qed.

Lemma is_nan_spec (x : float) :
  is_nan x = true <-> Prim2SF x = S754_nan.
Proof.
  unfold is_nan. rewrite FloatAxioms.eqb_spec. unfold SFeqb. split.
  - intros H. destruct (Prim2SF x) eqn:E; try reflexivity;
      rewrite SFcompare_refl in H by congruence; discriminate.
  - intros ->. reflexivity.
Qed.

Lemma is_nan_false_spec (x : float) :
  is_nan x = false <-> Prim2SF x <> S754_nan.
Proof.
  rewrite <- is_nan_spec. destruct (is_nan x); split; congruence.
Qed.

Lemma is_infinity_spec (x : float) :
  is_infinity x = true <-> exists sg, Prim2SF x = S754_infinity sg.
Proof.
  unfold is_infinity. rewrite FloatAxioms.eqb_spec, abs_spec.
  change (Prim2SF infinity) with (S754_infinity false).
  destruct (Prim2SF x) as [sg | sg | | sg m e]; simpl; split;
    try discriminate; try (intros [? ?]; discriminate); eauto.
Qed.

Lemma is_finite_spec (x : float) :
  is_finite x = true <->
  (exists sg, Prim2SF x = S754_zero sg) \/
  (exists sg m e, Prim2SF x = S754_finite sg m e).
Proof.
  unfold is_finite. rewrite negb_true_iff, orb_false_iff.
  rewrite is_nan_false_spec.
  split.
  - intros [Hn Hi]. destruct (Prim2SF x) as [sg | sg | | sg m e] eqn:E;
      eauto 6; try congruence.
    assert (is_infinity x = true) by (apply is_infinity_spec; eauto).
    congruence.
  - intros H. split.
    + destruct H as [[? ->] | (? & ? & ? & ->)]; discriminate.
    + destruct (is_infinity x) eqn:E; [|reflexivity].
      apply is_infinity_spec in E as [? E].
      destruct H as [[? H] | (? & ? & ? & H)]; congruence.
Qed.

(** A zero factor: [0 * finite] is a zero, and adding a zero keeps the
    value. *)
Lemma mul_zero_finite (z x : float) :
  (exists sg, Prim2SF z = S754_zero sg) -> is_finite x = true ->
  exists sg, Prim2SF (z * x) = S754_zero sg.
Proof.
  intros [sz Hz] Hx. apply is_finite_spec in Hx.
  rewrite mul_spec, Hz. unfold SF64mul.
  destruct Hx as [[sx ->] | (sx & m & e & ->)]; simpl; eauto.
Qed.

Lemma same_value_add_zero (r z : float) :
  (exists sg, Prim2SF z = S754_zero sg) ->
  Float64.same_value (r + z) r = true.
Proof.
  intros [sz Hz]. unfold Float64.same_value.
  destruct (is_nan r) eqn:Hr.
  - apply is_nan_spec in Hr as Hr'.
    assert (is_nan (r + z) = true) as ->.
    { apply is_nan_spec. rewrite add_spec, Hr'. reflexivity. }
    apply orb_true_r.
  - apply is_nan_false_spec in Hr.
    rewrite FloatAxioms.eqb_spec, add_spec, Hz. unfold SF64add, SFeqb.
    destruct (Prim2SF r) as [sg | sg | | sg m e] eqn:E; try congruence.
    + destruct sg, sz; reflexivity.
    + destruct sg; reflexivity.
    + simpl. rewrite Z.compare_refl, Pos.compare_cont_refl.
      destruct sg; reflexivity.
Qed.

Lemma one_minus_one : exists sg, Prim2SF (1 - 1) = S754_zero sg.
Proof. exists false. reflexivity. Qed.

(** With a terminal flag of one the bootstrap term is a zero, whatever
    finite discount and target value it multiplies. *)
Lemma terminal_bootstrap (r d q : float) :
  is_finite d = true -> is_finite q = true ->
  Float64.same_value (r + (1 - 1) * d * q) r = true.
Proof.
  intros Hd Hq. apply same_value_add_zero.
  apply mul_zero_finite; [|exact Hq].
  apply mul_zero_finite; [|exact Hd].
  apply one_minus_one.
Qed.

(** Order facts used for [np.clip]. *)
Lemma ltb_leb (x y : float) : (x <? y) = true -> (x <=? y) = true.
Proof.
  rewrite FloatAxioms.ltb_spec, FloatAxioms.leb_spec. unfold SFltb, SFleb.
  destruct (SFcompare _ _) as [[]|]; congruence.
Qed.

Lemma leb_refl (x : float) : is_nan x = false -> (x <=? x) = true.
Proof.
  intros H. apply is_nan_false_spec in H.
  rewrite FloatAxioms.leb_spec. unfold SFleb.
  rewrite SFcompare_refl by assumption. reflexivity.
Qed.

Lemma leb_not_nan_r (x y : float) : (x <=? y) = true -> is_nan y = false.
Proof.
  rewrite FloatAxioms.leb_spec. intros H. apply is_nan_false_spec. intros E.
  rewrite E in H. unfold SFleb in H.
  destruct (Prim2SF x); simpl in H; discriminate.
Qed.

Lemma opp_not_nan (x : float) : is_nan x = false -> is_nan (- x) = false.
Proof.
  rewrite !is_nan_false_spec, opp_spec.
  destruct (Prim2SF x); simpl; congruence.
Qed.

Lemma opp_leb_of_nonneg (c : float) : (0 <=? c) = true -> (- c <=? c) = true.
Proof.
  rewrite !FloatAxioms.leb_spec, opp_spec.
  change (Prim2SF 0) with (S754_zero false).
  unfold SFleb.
  destruct (Prim2SF c) as [sg | sg | | sg m e]; simpl; try discriminate.
  - reflexivity.
  - destruct sg; simpl; congruence.
  - destruct sg; simpl; congruence.
Qed.

(** [np.clip] of a number (not NaN) into [[-c, c]] with [0 <= c]. *)
Lemma npy_clip_bounds (x c : float) :
  is_nan x = false -> (0 <=? c) = true ->
  (- c <=? Float64.npy_clip x (- c) c) = true /\
  (Float64.npy_clip x (- c) c <=? c) = true.
Proof.
  intros Hx Hc.
  pose proof (leb_not_nan_r _ _ Hc) as Hcn.
  pose proof (opp_not_nan _ Hcn) as Hon.
  pose proof (opp_leb_of_nonneg _ Hc) as Hoc.
  unfold Float64.npy_clip, Float64.npy_max. rewrite Hx.
  destruct (- c <? x) eqn:E1; unfold Float64.npy_min.
  - rewrite Hx. destruct (x <? c) eqn:E2.
    + split; apply ltb_leb; assumption.
    + split; [assumption | apply leb_refl; assumption].
  - rewrite Hon. destruct (- c <? c) eqn:E2.
    + split; [apply leb_refl; assumption | assumption].
    + split; [assumption | apply leb_refl; assumption].
Qed.

End FloatFacts.

(** ** numpy: views, in-place scaling, broadcasting *)

Section NumpyFacts.

Local Open Scope nat_scope.

Lemma lookup_map {A B : Type} (f : A -> B) (l : list A) (i : nat) :
  map f l !! i = option_map f (l !! i).
Proof.
  revert i. induction l as [|a l IH]; intros [|i]; simpl; auto.
Qed.

Lemma buffer_of_alter_ne (f : list float -> list float) (h : heap)
  (l l' : loc) :
  l <> l' -> buffer_of (alter f l h) l' = buffer_of h l'.
Proof.
  intros Hne. unfold buffer_of. rewrite list_lookup_alter_ne by assumption.
  reflexivity.
Qed.

Lemma buffer_of_alter_eq (f : list float -> list float) (h : heap) (l : loc) :
  f [] = [] -> buffer_of (alter f l h) l = f (buffer_of h l).
Proof.
  intros Hf. unfold buffer_of. rewrite list_lookup_alter_eq.
  destruct (h !! l); simpl; congruence.
Qed.

Lemma scale_window_nil (s : float) (st ln : nat) : scale_window s st ln [] = [].
Proof.
  unfold scale_window. rewrite !drop_nil, !take_nil. reflexivity.
Qed.

(** An array on another buffer reads the same after [a *= s]. *)
Lemma read_imul_other (h : heap) (a b : ndarray) (s : float) :
  base b <> base a -> read (imul h a s) b = read h b.
Proof.
  intros Hne. unfold read, imul.
  rewrite buffer_of_alter_ne by congruence. reflexivity.
Qed.

(** The array itself reads scaled. *)
Lemma read_imul_same (h : heap) (a : ndarray) (s : float) :
  read (imul h a s) a = map (fun x => (x * s)%float) (read h a).
Proof.
  unfold read, imul.
  rewrite buffer_of_alter_eq by apply scale_window_nil.
  generalize (buffer_of h (base a)) as buf. intros buf.
  unfold scale_window.
  destruct (decide (start a <= length buf)) as [Hle | Hgt].
  - rewrite drop_app_length'; [| rewrite length_take; lia].
    destruct (decide (start a + len a <= length buf)) as [Hin | Hout].
    + rewrite take_app_length'; [reflexivity |].
      rewrite length_map, length_take, length_drop. lia.
    + rewrite (drop_ge buf (start a + len a)) by lia.
      rewrite app_nil_r. apply take_ge.
      rewrite length_map, length_take. lia.
  - rewrite (drop_ge buf (start a)) by lia.
    rewrite take_nil. simpl.
    rewrite (take_ge buf (start a)) by lia.
    rewrite (drop_ge buf (start a + len a)) by lia.
    rewrite app_nil_r, (drop_ge buf (start a)) by lia.
    rewrite take_nil. reflexivity.
Qed.

Lemma iadd_same_length (xs ys : list float) :
  length xs = length ys -> iadd xs ys = Ok (zip_with PrimFloat.add xs ys).
Proof.
  intros H. unfold iadd. rewrite H, Nat.eqb_refl. reflexivity.
Qed.

Lemma length_clip (xs : list float) (lo hi : float) :
  length (clip xs lo hi) = length xs.
Proof. unfold clip. apply length_map. Qed.

Lemma broadcast2_lookup (f : float -> float -> float) (xs ys zs : list float)
  (i : nat) (x y : float) :
  broadcast2 f xs ys = Ok zs ->
  xs !! i = Some x -> ys !! i = Some y -> zs !! i = Some (f x y).
Proof.
  unfold broadcast2. intros H Hx Hy.
  destruct (Nat.eqb (length xs) (length ys)) eqn:E.
  - inversion H; subst. rewrite lookup_zip_with, Hx, Hy. reflexivity.
  - destruct xs as [|x0 [|x1 xs]]; [discriminate | |].
    + destruct i; [|discriminate]. inversion Hx; subst.
      inversion H; subst. rewrite lookup_map, Hy. reflexivity.
    + destruct ys as [|y0 [|y1 ys]]; [discriminate | | discriminate].
      destruct i; [|discriminate]. inversion Hy; subst.
      remember (x0 :: x1 :: xs) as l eqn:El.
      inversion H; subst zs. rewrite lookup_map, Hx. reflexivity.
Qed.

Lemma broadcast2_same_length (f : float -> float -> float)
  (xs ys : list float) :
  length xs = length ys -> broadcast2 f xs ys = Ok (zip_with f xs ys).
Proof.
  intros H. unfold broadcast2. rewrite H, Nat.eqb_refl. reflexivity.
Qed.

End NumpyFacts.

(** ** Rules for [wp] *)

Section Rules.

Context `{C : Collaborators}.

Lemma wp_ret {A : Type} (a : A) (Q : result A -> State -> Prop) (st : State) :
  Q (Ok a) st -> wp (ret a) Q st.
Proof. exact (fun H => H). Qed.

Lemma wp_raise {A : Type} (e : exn) (Q : result A -> State -> Prop)
  (st : State) :
  Q (Raise e) st -> wp (raise e) Q st.
Proof. exact (fun H => H). Qed.

Lemma wp_lift {A : Type} (r : result A) (Q : result A -> State -> Prop)
  (st : State) :
  Q r st -> wp (lift r) Q st.
Proof. exact (fun H => H). Qed.

Lemma wp_gets {A : Type} (f : State -> A) (Q : result A -> State -> Prop)
  (st : State) :
  Q (Ok (f st)) st -> wp (gets f) Q st.
Proof. exact (fun H => H). Qed.

Lemma wp_attr {A : Type} (f : Hyper -> A) (Q : result A -> State -> Prop)
  (st : State) :
  Q (Ok (f (hyper (self st)))) st -> wp (attr f) Q st.
Proof. exact (fun H => H). Qed.

Lemma wp_load (a : ndarray) (Q : result (list float) -> State -> Prop)
  (st : State) :
  Q (Ok (read (mem st) a)) st -> wp (load a) Q st.
Proof. exact (fun H => H). Qed.

Lemma wp_stored_now (Q : result Z -> State -> Prop) (st : State) :
  Q (Ok (n_transitions_stored (replay_buffer (self st)))) st ->
  wp stored_now Q st.
Proof. exact (fun H => H). Qed.

Lemma wp_modify (f : State -> State) (Q : result unit -> State -> Prop)
  (st : State) :
  Q (Ok tt) (f st) -> wp (modify f) Q st.
Proof. exact (fun H => H). Qed.

Lemma wp_emit (e : Event) (Q : result unit -> State -> Prop) (st : State) :
  Q (Ok tt) (mk_State (self st) (runner st) (mem st) (world st) (e :: log st)) ->
  wp (emit e) Q st.
Proof. exact (fun H => H). Qed.

Lemma wp_call {A : Type} (f : World -> A * World)
  (Q : result A -> State -> Prop) (st : State) :
  Q (Ok (fst (f (world st)))) (set_world (snd (f (world st))) st) ->
  wp (call f) Q st.
Proof. exact (fun H => H). Qed.

Lemma wp_sample (n : Z) (Q : result Transitions -> State -> Prop)
  (st : State) :
  (let r :=
     sample_transitions (replay_buffer (self st)) n (mem st) (world st) in
   Q (Ok (fst (fst r))) (set_world (snd r) (set_mem (snd (fst r)) st))) ->
  wp (sample n) Q st.
Proof. exact (fun H => H). Qed.

Lemma wp_bind {A B : Type} (m : M A) (f : A -> M B)
  (Q : result B -> State -> Prop) (st : State) :
  wp m (fun r st' =>
          match r with
          | Ok a => wp (f a) Q st'
          | Raise e => Q (Raise e) st'
          end) st ->
  wp (bind m f) Q st.
Proof.
  unfold wp, bind. destruct (m st) as [[a | e] st']; simpl; auto.
Qed.

Lemma wp_mono {A : Type} (m : M A) (Q Q' : result A -> State -> Prop)
  (st : State) :
  wp m Q st -> (forall r st', Q r st' -> Q' r st') -> wp m Q' st.
Proof. unfold wp. auto. Qed.

Lemma wp_conj {A : Type} (m : M A) (Q Q' : result A -> State -> Prop)
  (st : State) :
  wp m Q st -> wp m Q' st -> wp m (fun r st' => Q r st' /\ Q' r st') st.
Proof. unfold wp. auto. Qed.

Lemma wp_np_max (a : nparg) (Q : result LogValue -> State -> Prop)
  (st : State) :
  Q (Raise ValueError) st -> Q (Ok (Max a)) st -> wp (np_max a) Q st.
Proof. unfold wp, np_max. destruct (Nat.eqb (size a) 0); simpl; auto. Qed.

(** A loop keeps what its body keeps: [I] after each completed
    iteration, [E] where an exception leaves it. *)
Lemma wp_for_each {X L : Type} (I : L -> State -> Prop) (E : State -> Prop)
  (xs : list X) (body : X -> L -> M L) :
  (forall x l st, In x xs -> I l st ->
     wp (body x l)
       (fun r st' =>
          match r with Ok l' => I l' st' | Raise _ => E st' end) st) ->
  forall l st, I l st ->
    wp (for_each xs body l)
      (fun r st' => match r with Ok l' => I l' st' | Raise _ => E st' end) st.
Proof.
  induction xs as [|x xs IH]; intros Hbody l st HI; simpl.
  - apply wp_ret. exact HI.
  - apply wp_bind.
    eapply wp_mono; [apply Hbody; [left; reflexivity | exact HI] |].
    intros [l' | e] st' H; [| exact H].
    apply IH; [| exact H].
    intros x' l0 st0 Hin. apply Hbody. right. exact Hin.
Qed.

End Rules.

Ltac wp_simpl :=
  cbv beta iota;
  cbn [self runner mem world log set_self set_runner set_mem set_world
       fst snd].

Ltac wp_step :=
  lazymatch goal with
  | |- wp (bind _ _) _ _ => apply wp_bind
  | |- wp (ret _) _ _ => apply wp_ret
  | |- wp (raise _) _ _ => apply wp_raise
  | |- wp (lift _) _ _ => apply wp_lift
  | |- wp (gets _) _ _ => apply wp_gets
  | |- wp (attr _) _ _ => apply wp_attr
  | |- wp (load _) _ _ => apply wp_load
  | |- wp stored_now _ _ => apply wp_stored_now
  | |- wp (modify _) _ _ => apply wp_modify
  | |- wp (emit _) _ _ => apply wp_emit
  | |- wp (call _) _ _ => apply wp_call
  | |- wp (sample _) _ _ => apply wp_sample
  | |- wp (np_max _) _ _ => apply wp_np_max
  | |- wp (match ?x with (_, _) => _ end) _ _ => destruct x eqn:?
  end; wp_simpl.

Ltac wp_steps := repeat wp_step.

(** A conjunction of closed equations, each settled by evaluation. *)
Ltac by_computation :=
  repeat lazymatch goal with |- _ /\ _ => split end;
  vm_compute; reflexivity.

(** ** [optimize_policy] *)

Section OptimizePolicy.

Context `{C : Collaborators}.

Lemma np_random_normal_length (loc scale : float) (n : nat) (w : World) :
  length (fst (np_random_normal loc scale n w)) = n.
Proof.
  revert w. induction n as [|n IH]; intros w; simpl; [reflexivity |].
  destruct (normal_draw loc scale w) as [x w1].
  specialize (IH w1). destruct (np_random_normal loc scale n w1) as [xs w2].
  simpl in *. congruence.
Qed.

(** The run of [optimize_policy], step by step: what is sampled, what is
    written, which collaborator is called with what, and what comes back. *)
Lemma optimize_policy_run (st : State) :
  let h := hyper (self st) in
  let s :=
    sample_transitions (replay_buffer (self st)) (_buffer_batch_size h)
      (mem st) (world st) in
  let tr := fst (fst s) in
  let m := imul (snd (fst s)) (rewards tr) (_reward_scale h) in
  let nin := read m (next_observations tr) in
  let ta0 := target_policy_f_prob_online nin (snd s) in
  let d :=
    np_random_normal 0%float (_exploration_policy_sigma h) (length ta0)
      (snd s) in
  let c := _exploration_policy_clip h in
  let ta := zip_with PrimFloat.add ta0 (clip (fst d) (- c)%float c) in
  let tq := target_qf_f_prob_online nin ta (snd d) in
  let first :=
    [TargetQf nin ta tq;
     RandomNormal (_exploration_policy_sigma h) (fst d);
     TargetPolicy nin ta0;
     SampleTransitions (_buffer_batch_size h) tr;
     OptimizePolicy (n_transitions_stored (replay_buffer (self st)))] in
  let target :=
    regression_target (read m (rewards tr)) (read m (terminals tr))
      (_discount h) tq in
  wp optimize_policy
    (fun r st' =>
       self st' = self st /\ runner st' = runner st /\ mem st' = m /\
       match r with
       | Ok (ql, ys, qv, al) =>
           target = Ok ys /\
           log st' =
             [UpdateTarget;
              TrainPolicy (read m (observations tr)) al;
              TrainQf ys (read m (observations tr)) (read m (actions tr))
                ql qv]
             ++ first ++ log st
       | Raise e => target = Raise e /\ log st' = first ++ log st
       end) st.
Proof.
  cbv zeta. unfold optimize_policy, reshape_col. wp_steps.
  rewrite iadd_same_length
    by (rewrite length_clip, np_random_normal_length; reflexivity).
  wp_steps.
  destruct (regression_target _ _ _ _) as [ys | e]; wp_steps; auto.
Qed.

(** What a call adds to the log, and what it leaves. *)
Lemma optimize_policy_log (st : State) :
  wp optimize_policy
    (fun r st' =>
       self st' = self st /\
       outside_optimization st st' /\
       optimize_calls (log st') =
         n_transitions_stored (replay_buffer (self st))
         :: optimize_calls (log st) /\
       (records_over_all_steps (log st) -> records_over_all_steps (log st')) /\
       match r with
       | Ok (ql, ys, qv, al) =>
           qf_updates (log st') = (ql, ys, qv) :: qf_updates (log st) /\
           policy_updates (log st') = al :: policy_updates (log st)
       | Raise _ =>
           qf_updates (log st') = qf_updates (log st) /\
           policy_updates (log st') = policy_updates (log st)
       end) st.
Proof.
  eapply wp_mono; [apply optimize_policy_run |].
  cbv zeta. intros r st' (Hs & Hr & _ & H).
  unfold outside_optimization. rewrite Hs, Hr.
  destruct r as [[[[ql ys] qv] al] | e]; destruct H as [_ ->]; simpl;
    repeat split; auto.
Qed.

End OptimizePolicy.

(** ** [train_once] *)

Section TrainOnce.

Context `{C : Collaborators}.

Lemma outside_optimization_refl (st : State) : outside_optimization st st.
Proof. unfold outside_optimization. repeat split; reflexivity. Qed.

Lemma outside_optimization_trans (st1 st2 st3 : State) :
  outside_optimization st1 st2 -> outside_optimization st2 st3 ->
  outside_optimization st1 st3.
Proof.
  unfold outside_optimization.
  intros (?&?&?&?&?&?&?) (?&?&?&?&?&?&?). repeat split; congruence.
Qed.

(** One iteration of the loop of [train_once]: behind the gate, a call
    of [optimize_policy] and four appends; before it, nothing. *)
Lemma train_step_run (st : State) :
  wp train_step
    (fun r st' =>
       outside_optimization st st' /\
       if n_transitions_stored (replay_buffer (self st))
          >=? _min_buffer_size (hyper (self st))
       then
         optimize_calls (log st') =
           n_transitions_stored (replay_buffer (self st))
           :: optimize_calls (log st) /\
         (records_over_all_steps (log st) ->
          records_over_all_steps (log st')) /\
         match r with
         | Ok _ =>
             exists ql ys qv al,
               qf_updates (log st') = (ql, ys, qv) :: qf_updates (log st) /\
               policy_updates (log st') = al :: policy_updates (log st) /\
               _episode_policy_losses (self st') =
                 _episode_policy_losses (self st) ++ [al] /\
               _episode_qf_losses (self st') =
                 _episode_qf_losses (self st) ++ [ql] /\
               _epoch_ys (self st') = _epoch_ys (self st) ++ [ys] /\
               _epoch_qs (self st') = _epoch_qs (self st) ++ [qv]
         | Raise _ =>
             qf_updates (log st') = qf_updates (log st) /\
             policy_updates (log st') = policy_updates (log st) /\
             self st' = self st
         end
       else r = Ok tt /\ st' = st) st.
Proof.
  unfold train_step. wp_steps.
  destruct (_ >=? _) eqn:Hg; [| wp_steps; split; [apply outside_optimization_refl | auto]].
  apply wp_bind. eapply wp_mono; [apply optimize_policy_log |].
  intros r st' (Hs & Ho & Hc & Hrec & H).
  destruct r as [[[[ql ys] qv] al] | e]; wp_steps.
  - destruct H as [Hq Hp]. unfold outside_optimization in *. simpl.
    destruct Ho as (? & ? & ? & ? & ? & ? & ?).
    rewrite Hs. repeat split; eauto 10.
  - destruct H as [Hq Hp]. split; [exact Ho | repeat split; auto].
Qed.

Lemma train_step_outside (st : State) :
  wp train_step (fun _ st' => outside_optimization st st') st.
Proof.
  eapply wp_mono; [apply train_step_run |]. intros r st' [H _]. exact H.
Qed.

(** The gates: an iteration adds a call of [optimize_policy] only behind
    [n_transitions_stored >= min_buffer_size]. *)
Lemma train_step_gated (h : Hyper) (ep : option ExplorationPolicy)
  (st : State) :
  hyper (self st) = h ->
  gated h ep (log st) ->
  In (n_transitions_stored (replay_buffer (self st))) (stores (log st)) ->
  wp train_step (fun _ st' => gated h ep (log st')) st.
Proof.
  intros Hh (Go & Gs & Gq & Gp) Hin.
  eapply wp_mono; [apply train_step_run |].
  intros r st' [(_ & _ & _ & _ & Hst & Hsa & _) H].
  destruct (_ >=? _) eqn:Hg.
  - destruct H as (Hc & _ & H). unfold gated.
    rewrite Hc, Hst, Hsa. simpl.
    assert (length (qf_updates (log st')) <= S (length (qf_updates (log st)))
            /\ length (policy_updates (log st'))
               <= S (length (policy_updates (log st))))%nat as [Hq Hp].
    { destruct r as [[] | e].
      - destruct H as (ql & ys & qv & al & -> & -> & _). simpl. lia.
      - destruct H as (-> & -> & _). lia. }
    repeat split; try lia; try assumption.
    constructor; [| exact Go].
    split; [| exact Hin]. subst h. apply Z.geb_le in Hg. exact Hg.
  - destruct H as [_ ->]. repeat split; assumption.
Qed.

(** The accumulators: an iteration that completes appends to each the
    values of its optimization step. *)
Lemma train_step_accumulated (st : State) :
  accumulated st -> wp train_step (fun _ st' => accumulated st') st.
Proof.
  intros (Hpl & Hql & Hys & Hqs & Hrec).
  eapply wp_mono; [apply train_step_run |].
  intros r st' [_ H].
  destruct (_ >=? _).
  - destruct H as (_ & Hrec' & H). unfold accumulated.
    unfold policy_loss_history, qf_loss_history, ys_history, qs_history in *.
    destruct r as [[] | e].
    + destruct H as (ql & ys & qv & al & -> & -> & -> & -> & -> & ->).
      simpl. rewrite Hpl, Hql, Hys, Hqs. repeat split; auto.
    + destruct H as (-> & -> & ->). repeat split; auto.
  - destruct H as [_ ->]. repeat split; assumption.
Qed.

(** The records: nine entries, or fewer when [np.max] raises, and no
    call. *)
Lemma record_statistics_run (itr : Z) (st : State) :
  wp (record_statistics itr)
    (fun _ st' =>
       self st' = self st /\ runner st' = runner st /\
       same_calls (log st) (log st') /\
       (accumulated st -> accumulated st')) st.
Proof.
  unfold record_statistics. wp_steps;
    (split; [reflexivity |]; split; [reflexivity |];
     split; [unfold same_calls; simpl; repeat split; reflexivity |]);
    unfold accumulated; simpl;
    intros (Hpl & Hql & Hys & Hqs & Hrec);
    unfold policy_loss_history, qf_loss_history, ys_history, qs_history in *;
    simpl; rewrite Hpl, Hql, Hys, Hqs; repeat split; auto.
Qed.

(** The loop of [train_once] keeps what one iteration keeps. *)
Lemma train_steps_keep (P : State -> Prop) (xs : list Z) :
  (forall st, P st -> wp train_step (fun _ st' => P st') st) ->
  forall st, P st ->
    wp (for_each xs (fun _ _ => train_step) tt) (fun _ st' => P st') st.
Proof.
  intros Hstep st HP.
  eapply wp_mono.
  - apply (wp_for_each (fun _ => P) P); [| exact HP].
    intros x l st0 _ HP0. eapply wp_mono; [apply Hstep; exact HP0 |].
    intros [l' | e] st' H; exact H.
  - intros [l' | e] st' H; exact H.
Qed.

(** [train_once] keeps what an iteration, the message and the records
    keep. *)
Lemma train_once_keeps (P : State -> Prop) (itr : Z) (st : State) :
  (forall st, P st -> wp train_step (fun _ st' => P st') st) ->
  (forall st msg, P st ->
     P (mk_State (self st) (runner st) (mem st) (world st)
          (LoggerLog msg :: log st))) ->
  (forall st, P st -> wp (record_statistics itr) (fun _ st' => P st') st) ->
  P st -> wp (train_once itr) (fun _ st' => P st') st.
Proof.
  intros Hstep Hmsg Hrec HP. unfold train_once. wp_steps.
  destruct (_ =? 0); wp_steps; [exact HP |].
  eapply wp_mono; [apply train_steps_keep; eassumption |].
  intros [[] | e] st1 HP1; [| exact HP1].
  destruct (_ =? 0); wp_steps; [| exact HP1].
  destruct (_ >=? _); wp_steps; [| apply Hmsg; exact HP1].
  apply Hrec. apply Hmsg. exact HP1.
Qed.

Lemma train_once_outside (itr : Z) (st : State) :
  wp (train_once itr) (fun _ st' => outside_optimization st st') st.
Proof.
  apply (train_once_keeps (outside_optimization st)).
  - intros st1 H1. eapply wp_mono; [apply train_step_outside |].
    intros r st2 H2. eapply outside_optimization_trans; eassumption.
  - intros st1 msg H1. exact H1.
  - intros st1 H1. eapply wp_mono; [apply record_statistics_run |].
    intros r st2 (Hs & Hr & (_ & Hst & Hsa & _ & _ & Hev) & _).
    unfold outside_optimization in *. rewrite Hs, Hr, Hst, Hsa, Hev.
    exact H1.
  - apply outside_optimization_refl.
Qed.

Lemma gated_same_calls (h : Hyper) (ep : option ExplorationPolicy)
  (l l' : list Event) :
  same_calls l l' -> gated h ep l -> gated h ep l'.
Proof.
  unfold same_calls, gated.
  intros (-> & -> & -> & -> & -> & _) H. exact H.
Qed.

Lemma train_once_gated (h : Hyper) (ep : option ExplorationPolicy)
  (itr : Z) (st : State) :
  hyper (self st) = h ->
  gated h ep (log st) ->
  In (n_transitions_stored (replay_buffer (self st))) (stores (log st)) ->
  wp (train_once itr) (fun _ st' => gated h ep (log st')) st.
Proof.
  intros Hh Hg Hin.
  eapply wp_mono.
  - apply (train_once_keeps
             (fun s => hyper (self s) = h /\ gated h ep (log s) /\
                In (n_transitions_stored (replay_buffer (self s)))
                  (stores (log s)))).
    + intros st1 (H1 & H2 & H3).
      eapply wp_mono;
        [apply wp_conj;
         [apply (train_step_gated h ep); assumption
         | apply train_step_outside] |].
      intros r st2 [Hg2 (Hh2 & Hb2 & _ & _ & Hs2 & _)].
      rewrite Hh2, Hb2, Hs2. auto.
    + intros st1 msg H1. exact H1.
    + intros st1 (H1 & H2 & H3).
      eapply wp_mono; [apply record_statistics_run |].
      intros r st2 (Hs & _ & Hc & _). rewrite Hs.
      split; [exact H1 |]. split; [eapply gated_same_calls; eassumption |].
      destruct Hc as (_ & -> & _). exact H3.
    + auto.
  - intros r st' (_ & H & _). exact H.
Qed.

Lemma train_once_accumulated (itr : Z) (st : State) :
  accumulated st -> wp (train_once itr) (fun _ st' => accumulated st') st.
Proof.
  apply (train_once_keeps accumulated).
  - apply train_step_accumulated.
  - intros st1 msg H1. exact H1.
  - intros st1 H1. eapply wp_mono; [apply record_statistics_run |].
    intros r st2 (_ & _ & _ & H). auto.
Qed.

(** The loop of [train_once], when it completes: one call of
    [optimize_policy] per iteration behind an open gate, none behind a
    closed one. *)
Lemma train_steps_count (xs : list Z) (st : State) :
  wp (for_each xs (fun _ _ => train_step) tt)
    (fun r st' =>
       outside_optimization st st' /\
       (forall u, r = Ok u ->
          length (optimize_calls (log st')) =
          (length (optimize_calls (log st)) +
           if n_transitions_stored (replay_buffer (self st))
              >=? _min_buffer_size (hyper (self st))
           then length xs else 0)%nat)) st.
Proof.
  revert st. induction xs as [|x xs IH]; intros st; simpl.
  - apply wp_ret. split; [apply outside_optimization_refl |].
    intros _ _. destruct (_ >=? _); lia.
  - apply wp_bind. eapply wp_mono; [apply train_step_run |].
    intros r st1 [Ho H].
    destruct r as [[] | e].
    + eapply wp_mono; [apply IH |].
      intros r2 st2 [Ho2 H2].
      split; [eapply outside_optimization_trans; eassumption |].
      intros u Hu. rewrite (H2 u Hu).
      destruct Ho as (-> & -> & _).
      destruct (_ >=? _).
      * destruct H as (-> & _). simpl. lia.
      * destruct H as [_ ->]. lia.
    + split; [exact Ho | discriminate].
Qed.

Lemma length_range (n : Z) : length (range n) = Z.to_nat n.
Proof. unfold range. rewrite length_map, length_seq. reflexivity. Qed.

(** [train_once], when it completes: [n_train_steps] calls of
    [optimize_policy] behind an open gate, none behind a closed one. *)
Lemma train_once_count (itr : Z) (st : State) :
  wp (train_once itr)
    (fun r st' =>
       forall u, r = Ok u ->
         length (optimize_calls (log st')) =
         (length (optimize_calls (log st)) +
          if n_transitions_stored (replay_buffer (self st))
             >=? _min_buffer_size (hyper (self st))
          then Z.to_nat (_n_train_steps (hyper (self st))) else 0)%nat) st.
Proof.
  unfold train_once. wp_steps.
  destruct (_ =? 0); wp_steps; [discriminate |].
  eapply wp_mono; [apply train_steps_count |].
  intros r st1 [Ho H1]. rewrite length_range in H1.
  destruct r as [[] | e]; [| discriminate].
  specialize (H1 tt eq_refl).
  destruct (_ =? 0); wp_steps; [| intros; exact H1].
  destruct (n_transitions_stored (replay_buffer (self st1)) >=? _);
    wp_steps; [| intros; exact H1].
  eapply wp_mono; [apply record_statistics_run |].
  intros r st2 (_ & _ & (Hc & _) & _) u _.
  rewrite Hc. simpl. exact H1.
Qed.

(** The loop of [train_once] raises only behind an open gate. *)
Lemma train_steps_raise (xs : list Z) (st : State) :
  wp (for_each xs (fun _ _ => train_step) tt)
    (fun r st' =>
       outside_optimization st st' /\
       (forall e, r = Raise e ->
          _min_buffer_size (hyper (self st))
          <= n_transitions_stored (replay_buffer (self st)))) st.
Proof.
  revert st. induction xs as [|x xs IH]; intros st; simpl.
  - apply wp_ret.
    split; [apply outside_optimization_refl | intros e He; discriminate He].
  - apply wp_bind. eapply wp_mono; [apply train_step_run |].
    intros r st1 [Ho H].
    destruct r as [[] | e].
    + eapply wp_mono; [apply IH |].
      intros r2 st2 [Ho2 H2].
      split; [eapply outside_optimization_trans; eassumption |].
      destruct Ho as (<- & <- & _). exact H2.
    + split; [exact Ho |]. intros _ _.
      destruct (_ >=? _) eqn:Hg; [apply Z.geb_le in Hg; exact Hg |].
      destruct H as [H _]. discriminate H.
Qed.

(** [train_once] raises only behind an open gate, unless
    [steps_per_epoch] is zero. *)
Lemma train_once_raises_warm (itr : Z) (st : State) :
  _steps_per_epoch (hyper (self st)) <> 0 ->
  wp (train_once itr)
    (fun r st' =>
       forall e, r = Raise e ->
         _min_buffer_size (hyper (self st))
         <= n_transitions_stored (replay_buffer (self st))) st.
Proof.
  intros Hspe. unfold train_once. wp_steps.
  destruct (_ =? 0) eqn:Hz; [apply Z.eqb_eq in Hz; contradiction |].
  wp_steps.
  eapply wp_mono; [apply train_steps_raise |].
  intros r st1 [(Hh & Hb & _) H1].
  destruct r as [[] | e]; [| exact H1].
  destruct (itr mod _ =? 0); wp_steps; [| intros e He; discriminate He].
  destruct (n_transitions_stored (replay_buffer (self st1)) >=? _) eqn:Hg;
    wp_steps; [| intros e He; discriminate He].
  eapply wp_mono; [apply record_statistics_run |].
  intros r st2 _ e _. rewrite <- Hh, <- Hb. apply Z.geb_le in Hg. exact Hg.
Qed.

End TrainOnce.

(** ** [train] *)

Section Train.

Context `{C : Collaborators}.

Lemma wp_obtain (agent : agent_update ExplorationPolicy)
  (Q : result unit -> State -> Prop) (st : State) :
  (let r :=
     obtain_episodes (step_itr (runner st)) agent
       (total_env_steps (runner st)) (world st) in
   Q (Ok tt)
     (mk_State (self st)
        (set_step_path (fst (fst r)) (snd (fst r)) (runner st)) (mem st)
        (snd r)
        (ObtainEpisodes (step_itr (runner st)) (total_env_steps (runner st))
           agent :: log st))) ->
  wp (obtain agent) Q st.
Proof. exact (fun H => H). Qed.

Lemma wp_store_step_path (path : EpisodeBatch)
  (Q : result unit -> State -> Prop) (st : State) :
  step_path (runner st) = Some path ->
  (let r := add_episode_batch (replay_buffer (self st)) path (mem st) in
   Q (Ok tt)
     (mk_State (set_replay_buffer (fst r) (self st)) (runner st) (snd r)
        (world st)
        (AddEpisodeBatch (n_transitions_stored (fst r)) :: log st))) ->
  wp store_step_path Q st.
Proof.
  intros Hp H. unfold wp, store_step_path. rewrite Hp. exact H.
Qed.

(** The evaluation: it completes, with the returns it logs. *)
Lemma evaluate_run (st : State) :
  wp evaluate
    (fun r st' =>
       exists returns,
         r = Ok returns /\
         self st' = self st /\
         runner st' = set_enable_logging true (runner st) /\
         mem st' = mem st /\
         log st' = EvaluationEpisodes (step_itr (runner st)) returns :: log st)
    st.
Proof.
  unfold evaluate. wp_steps. eexists. repeat split; reflexivity.
Qed.

End Train.

Ltac wp_train_step :=
  first
    [ wp_step
    | apply wp_obtain; cbv zeta; wp_simpl
    | eapply wp_store_step_path; [reflexivity |]; cbv zeta; wp_simpl ].

Section TrainKeeps.

Context `{C : Collaborators}.

(** A cycle: [P] holds between cycles, with the value of
    [last_returns]; [P2] holds from the store to the evaluation; [E] holds
    where [train_once] raises. *)
Lemma cycle_body_keeps
  (P : option (list float) -> State -> Prop) (P2 E : State -> Prop)
  (cycle : Z) (lr : option (list float)) (st : State) :
  P lr st ->
  (* the sampling, with the acting policy of the iteration, and the store *)
  (forall st, P lr st ->
     let agent := acting_policy (self st) (step_itr (runner st)) in
     let o :=
       obtain_episodes (step_itr (runner st)) agent
         (total_env_steps (runner st)) (world st) in
     let a :=
       add_episode_batch (replay_buffer (self st)) (fst (fst o)) (mem st) in
     P2 (mk_State (set_replay_buffer (fst a) (self st))
           (set_step_path (fst (fst o)) (snd (fst o)) (runner st)) (snd a)
           (snd o)
           (AddEpisodeBatch (n_transitions_stored (fst a))
            :: ObtainEpisodes (step_itr (runner st))
                 (total_env_steps (runner st)) agent
            :: log st))) ->
  (* the optimization *)
  (forall itr st, P2 st ->
     wp (train_once itr)
       (fun r st' => match r with Ok _ => P2 st' | Raise _ => E st' end) st) ->
  (* the evaluation, behind its gate *)
  (forall st returns r w,
     P2 st ->
     _min_buffer_size (hyper (self st))
       <= n_transitions_stored (replay_buffer (self st)) ->
     P (Some returns)
       (mk_State (self st) r (mem st) w
          (EvaluationEpisodes (step_itr (runner st)) returns :: log st))) ->
  (* no evaluation *)
  (forall st r, P2 st -> P lr (mk_State (self st) r (mem st) (world st) (log st))) ->
  wp (cycle_body cycle lr)
    (fun r st' => match r with Ok lr' => P lr' st' | Raise _ => E st' end)
    st.
Proof.
  intros HP Hcollect Htrain Heval Hskip.
  (* the evaluation and the end of the cycle, from any state *)
  assert (forall st3, P2 st3 ->
    wp (stored <- stored_now ;;
        min_buffer_size <- attr _min_buffer_size ;;
        last_returns' <-
          (if (cycle =? 0) && (stored >=? min_buffer_size) then
             returns <- evaluate ;; ret (Some returns)
           else ret lr) ;;
        modify (set_runner (fun r => set_step_itr (step_itr r + 1) r)) ;;
        ret last_returns')%py
      (fun r st' => match r with Ok lr' => P lr' st' | Raise _ => E st' end)
      st3) as Hrest.
  { intros st3 H3. wp_steps.
    destruct (cycle =? 0); simpl andb; [| wp_steps; apply Hskip; exact H3].
    destruct (n_transitions_stored (replay_buffer (self st3)) >=? _) eqn:Hg;
      [| wp_steps; apply Hskip; exact H3].
    wp_steps. eapply wp_mono; [apply evaluate_run |].
    intros r st4 (returns & -> & Hs & Hr & Hm & Hl). wp_steps.
    unfold set_runner. rewrite Hs, Hm, Hl. apply Heval; [exact H3 |].
    apply Z.geb_le in Hg. exact Hg. }
  specialize (Hcollect st HP). cbv zeta in Hcollect.
  unfold acting_policy in Hcollect.
  unfold cycle_body. do 5 wp_train_step.
  destruct (step_itr _ >=? _) eqn:Hi; repeat wp_train_step;
    (destruct (total_env_steps _ >=? _) eqn:Ht;
     [ wp_steps; eapply wp_mono; [apply Htrain; exact Hcollect |];
       intros [[] | e] st3 H3; [apply Hrest; exact H3 | exact H3]
     | apply wp_ret; apply Hrest; exact Hcollect ]).
Qed.

(** The two loops of [train] keep what a cycle keeps. *)
Lemma epochs_keeps
  (P : option (list float) -> State -> Prop) (E : State -> Prop)
  (num_epochs : nat) (st : State) :
  (forall cycle lr st, P lr st ->
     wp (cycle_body cycle lr)
       (fun r st' => match r with Ok lr' => P lr' st' | Raise _ => E st' end)
       st) ->
  P None st ->
  wp (epochs num_epochs)
    (fun r st' => match r with Ok lr' => P lr' st' | Raise _ => E st' end) st.
Proof.
  intros Hcycle HP. unfold epochs.
  apply (wp_for_each P E); [| exact HP].
  intros epoch lr st1 _ H1. wp_steps.
  apply (wp_for_each P E); [| exact H1].
  intros cycle lr2 st2 _ H2. apply Hcycle. exact H2.
Qed.

End TrainKeeps.

(** ** The gates of [train] *)

Section TrainGates.

Context `{C : Collaborators}.

Lemma gated_nil (h : Hyper) (ep : option ExplorationPolicy) : gated h ep [].
Proof. unfold gated. simpl. repeat split; auto. Qed.

Lemma cycle_body_gated (h : Hyper) (ep : option ExplorationPolicy)
  (cycle : Z) (lr : option (list float)) (st : State) :
  hyper (self st) = h /\ exploration_policy (self st) = ep /\
  gated h ep (log st) ->
  wp (cycle_body cycle lr)
    (fun _ st' =>
       hyper (self st') = h /\ exploration_policy (self st') = ep /\
       gated h ep (log st')) st.
Proof.
  intros HP.
  eapply wp_mono.
  - apply (cycle_body_keeps
             (fun _ s =>
                hyper (self s) = h /\ exploration_policy (self s) = ep /\
                gated h ep (log s))
             (fun s =>
                (hyper (self s) = h /\ exploration_policy (self s) = ep /\
                 gated h ep (log s)) /\
                In (n_transitions_stored (replay_buffer (self s)))
                  (stores (log s)))
             (fun s =>
                hyper (self s) = h /\ exploration_policy (self s) = ep /\
                gated h ep (log s))).
    + exact HP.
    + intros st1 (Hh & Hep & Go & Gs & Gq & Gp). cbv zeta. simpl.
      split; [| left; reflexivity].
      split; [exact Hh |]. split; [exact Hep |].
      unfold gated. simpl. repeat split; try assumption.
      * eapply Forall_impl; [exact Go |]. simpl. intros s [? ?]. auto.
      * constructor; [| exact Gs]. unfold acting_policy. simpl.
        rewrite Hh, Hep. reflexivity.
    + intros itr st1 [(Hh & Hep & Hg) Hin].
      eapply wp_mono;
        [apply wp_conj;
         [apply (train_once_gated h ep); assumption
         | apply train_once_outside] |].
      intros r st2 [Hg2 (Hh2 & Hb2 & He2 & _ & Hs2 & _)].
      rewrite <- Hh2, <- Hb2, <- He2, <- Hs2 in *.
      destruct r; auto.
    + intros st1 returns r w [H1 _] _. exact H1.
    + intros st1 r [H1 _]. exact H1.
  - intros [lr' | e] st' H; exact H.
Qed.

Lemma epochs_gated (h : Hyper) (ep : option ExplorationPolicy)
  (num_epochs : nat) (st : State) :
  hyper (self st) = h /\ exploration_policy (self st) = ep /\
  gated h ep (log st) ->
  wp (epochs num_epochs)
    (fun _ st' =>
       hyper (self st') = h /\ exploration_policy (self st') = ep /\
       gated h ep (log st')) st.
Proof.
  intros HP.
  eapply wp_mono.
  - apply (epochs_keeps
             (fun _ s =>
                hyper (self s) = h /\ exploration_policy (self s) = ep /\
                gated h ep (log s))
             (fun s =>
                hyper (self s) = h /\ exploration_policy (self s) = ep /\
                gated h ep (log s))); [| exact HP].
    intros cycle lr st1 H1.
    eapply wp_mono; [apply cycle_body_gated; exact H1 |].
    intros [lr' | e] st2 H2; exact H2.
  - intros [lr' | e] st' H; exact H.
Qed.

(** The whole run keeps the gates. *)
Lemma train_gated (num_epochs : nat) (st : State) :
  gated (hyper (self st)) (exploration_policy (self st)) (log st) ->
  wp (train num_epochs)
    (fun _ st' =>
       gated (hyper (self st)) (exploration_policy (self st)) (log st')) st.
Proof.
  intros Hg. unfold train. wp_steps.
  destruct (_eval_env (self st)) as [env |]; wp_steps;
    (eapply wp_mono;
     [apply (epochs_gated (hyper (self st)) (exploration_policy (self st)));
      simpl; auto |];
     intros [lr | e] st' (_ & _ & H); wp_steps; exact H).
Qed.

End TrainGates.

(** ** The accumulators through [train] *)

Section TrainAccumulators.

Context `{C : Collaborators}.

Lemma cycle_body_accumulated (cycle : Z) (lr : option (list float))
  (st : State) :
  accumulated st ->
  wp (cycle_body cycle lr) (fun _ st' => accumulated st') st.
Proof.
  intros HP.
  eapply wp_mono.
  - apply (cycle_body_keeps (fun _ s => accumulated s) accumulated
             accumulated).
    + exact HP.
    + intros st1 H1. cbv zeta. exact H1.
    + intros itr st1 H1.
      eapply wp_mono; [apply train_once_accumulated; exact H1 |].
      intros [[] | e] st2 H2; exact H2.
    + intros st1 returns r w H1 _. exact H1.
    + intros st1 r H1. exact H1.
  - intros [lr' | e] st' H; exact H.
Qed.

Lemma epochs_accumulated (num_epochs : nat) (st : State) :
  accumulated st ->
  wp (epochs num_epochs) (fun _ st' => accumulated st') st.
Proof.
  intros HP.
  eapply wp_mono.
  - apply (epochs_keeps (fun _ s => accumulated s) accumulated); [| exact HP].
    intros cycle lr st1 H1.
    eapply wp_mono; [apply cycle_body_accumulated; exact H1 |].
    intros [lr' | e] st2 H2; exact H2.
  - intros [lr' | e] st' H; exact H.
Qed.

Lemma train_accumulated (num_epochs : nat) (st : State) :
  accumulated st ->
  wp (train num_epochs) (fun _ st' => accumulated st') st.
Proof.
  intros Ha. unfold train. wp_steps.
  destruct (_eval_env (self st)) as [env |]; wp_steps;
    (eapply wp_mono; [apply epochs_accumulated; exact Ha |];
     intros [lr | e] st' H; wp_steps; exact H).
Qed.

Lemma fresh_accumulated
  (a : Args.t Network ExplorationPolicy ReplayBuffer) (r : Runner)
  (h : heap) (w : World) :
  accumulated (fresh a r h w).
Proof.
  unfold fresh, __init__.
  destruct (clone (Args.policy a) "target_policy" w) as [tp w1].
  destruct (clone (Args.qf a) "target_qf" w1) as [tq w2].
  unfold accumulated. simpl. repeat split; reflexivity.
Qed.

End TrainAccumulators.

(** ** The value [train] returns *)

Section TrainReturns.

Context `{C : Collaborators}.

Lemma cycle_body_none_unless_warm (h : Hyper) (cycle : Z)
  (lr : option (list float)) (st : State) :
  hyper (self st) = h /\ none_unless_warm h lr (log st) ->
  wp (cycle_body cycle lr)
    (fun r st' =>
       match r with
       | Ok lr' => hyper (self st') = h /\ none_unless_warm h lr' (log st')
       | Raise _ => True
       end) st.
Proof.
  intros HP.
  eapply wp_mono.
  - apply (cycle_body_keeps
             (fun l s => hyper (self s) = h /\ none_unless_warm h l (log s))
             (fun s =>
                hyper (self s) = h /\ none_unless_warm h lr (log s) /\
                In (n_transitions_stored (replay_buffer (self s)))
                  (stores (log s)))
             (fun _ => True)).
    + exact HP.
    + intros st1 [Hh Hn]. cbv zeta. simpl.
      split; [exact Hh |]. split; [| left; reflexivity].
      destruct Hn as [-> | (s & Hs & Hle)]; [left; reflexivity |].
      right. exists s. simpl. auto.
    + intros itr st1 (Hh & Hn & Hin).
      eapply wp_mono; [apply train_once_outside |].
      intros r st2 (Hh2 & Hb2 & _ & _ & Hs2 & _).
      destruct r; [| exact I].
      unfold none_unless_warm. rewrite Hh2, Hb2, Hs2. auto.
    + intros st1 returns r w (Hh & _ & Hin) Hle. simpl.
      split; [exact Hh |]. right.
      exists (n_transitions_stored (replay_buffer (self st1))).
      simpl. rewrite <- Hh. auto.
    + intros st1 r (Hh & Hn & _). auto.
  - intros [lr' | e] st' H; [exact H | exact I].
Qed.

Lemma epochs_none_unless_warm (num_epochs : nat) (st : State) :
  wp (epochs num_epochs)
    (fun r st' =>
       match r with
       | Ok lr' => none_unless_warm (hyper (self st)) lr' (log st')
       | Raise _ => True
       end) st.
Proof.
  eapply wp_mono.
  - apply (epochs_keeps
             (fun l s =>
                hyper (self s) = hyper (self st) /\
                none_unless_warm (hyper (self st)) l (log s))
             (fun _ => True)).
    + intros cycle lr st1 H1. apply cycle_body_none_unless_warm. exact H1.
    + split; [reflexivity | left; reflexivity].
  - intros [lr' | e] st' H; [destruct H as [_ H]; exact H | exact I].
Qed.

(** Past the store of a cycle, an exception means a warm buffer. *)
Lemma cycle_body_raises_warm (h : Hyper) (cycle : Z)
  (lr : option (list float)) (st : State) :
  _steps_per_epoch h <> 0 ->
  hyper (self st) = h ->
  wp (cycle_body cycle lr)
    (fun r st' =>
       match r with
       | Ok _ => hyper (self st') = h
       | Raise _ => exists s, In s (stores (log st')) /\ _min_buffer_size h <= s
       end) st.
Proof.
  intros Hspe Hh.
  apply (cycle_body_keeps
           (fun _ s => hyper (self s) = h)
           (fun s =>
              hyper (self s) = h /\
              In (n_transitions_stored (replay_buffer (self s)))
                (stores (log s)))
           (fun s =>
              exists s0, In s0 (stores (log s)) /\ _min_buffer_size h <= s0)).
  - exact Hh.
  - intros st1 H1. cbv zeta. simpl. auto.
  - intros itr st1 [H1 Hin].
    eapply wp_mono;
      [apply wp_conj;
       [apply train_once_raises_warm; rewrite H1; exact Hspe
       | apply train_once_outside] |].
    intros r st2 [Hr (Hh2 & Hb2 & _ & _ & Hs2 & _)].
    destruct r as [[] | e].
    + rewrite Hh2, Hb2, Hs2. auto.
    + exists (n_transitions_stored (replay_buffer (self st1))).
      rewrite Hs2, <- H1. eauto.
  - intros st1 returns r w [H1 _] _. exact H1.
  - intros st1 r [H1 _]. exact H1.
Qed.

Lemma epochs_raises_warm (num_epochs : nat) (st : State) :
  wp (epochs num_epochs)
    (fun r st' =>
       forall e, r = Raise e ->
         exists s,
           In s (stores (log st')) /\
           _min_buffer_size (hyper (self st)) <= s) st.
Proof.
  set (h := hyper (self st)).
  set (E := fun s : State =>
              exists s0, In s0 (stores (log s)) /\ _min_buffer_size h <= s0).
  eapply wp_mono.
  - unfold epochs.
    apply (wp_for_each (fun _ s => hyper (self s) = h) E);
      [| reflexivity].
    intros epoch lr st1 _ H1. wp_steps. rewrite H1.
    destruct (Z.eq_dec (_steps_per_epoch h) 0) as [Hz | Hnz].
    + rewrite Hz. simpl. apply wp_ret. exact H1.
    + apply (wp_for_each (fun _ s => hyper (self s) = h) E); [| exact H1].
      intros cycle lr2 st2 _ H2.
      apply cycle_body_raises_warm; assumption.
  - intros [lr | e] st' H e' He; [discriminate | exact H].
Qed.

(** [last_returns] holds the returns of the most recent evaluation. *)
Lemma epochs_last_evaluation (num_epochs : nat) (st : State) :
  evaluations (log st) = [] ->
  wp (epochs num_epochs)
    (fun r st' =>
       forall lr, r = Ok lr -> lr = head (evaluations (log st'))) st.
Proof.
  intros Hnone.
  eapply wp_mono.
  - apply (epochs_keeps
             (fun l s => l = head (evaluations (log s))) (fun _ => True)).
    + intros cycle lr st1 H1.
      apply (cycle_body_keeps
               (fun l s => l = head (evaluations (log s)))
               (fun s => lr = head (evaluations (log s)))
               (fun _ => True)).
      * exact H1.
      * intros st2 H2. cbv zeta. simpl. exact H2.
      * intros itr st2 H2.
        eapply wp_mono; [apply train_once_outside |].
        intros r st3 (_ & _ & _ & _ & _ & _ & Hev).
        destruct r; [| exact I]. rewrite Hev. exact H2.
      * intros st2 returns r w _ _. reflexivity.
      * intros st2 r H2. exact H2.
    + rewrite Hnone. reflexivity.
  - intros [lr | e] st' H lr' Hr; [| discriminate].
    injection Hr as <-. exact H.
Qed.

End TrainReturns.

(** ** The regression target *)

Section Target.

Context `{C : Collaborators}.

Local Open Scope float_scope.

Lemma regression_target_lookup (rs ts : list float) (d : float)
  (qs ys : list float) (i : nat) (r t q : float) :
  regression_target rs ts d qs = Ok ys ->
  rs !! i = Some r -> ts !! i = Some t -> qs !! i = Some q ->
  ys !! i = Some (r + (1 - t) * d * q).
Proof.
  unfold regression_target. intros H Hr Ht Hq.
  destruct (broadcast2 PrimFloat.mul _ qs) as [bs | e] eqn:Hb;
    [| discriminate].
  eapply broadcast2_lookup; [exact H | exact Hr |].
  eapply broadcast2_lookup; [exact Hb | | exact Hq].
  rewrite lookup_map, Ht. reflexivity.
Qed.

Lemma regression_target_same_length (rs ts : list float) (d : float)
  (qs : list float) :
  length rs = length ts -> length ts = length qs ->
  exists ys, regression_target rs ts d qs = Ok ys.
Proof.
  intros H1 H2. unfold regression_target.
  rewrite broadcast2_same_length by (rewrite length_map; exact H2).
  rewrite broadcast2_same_length; [eauto |].
  rewrite length_zip_with, length_map. lia.
Qed.

(** What the collaborators answered during a call, read from the log
    after it. *)
Lemma optimize_policy_answers (st : State) :
  let h := hyper (self st) in
  let s :=
    sample_transitions (replay_buffer (self st)) (_buffer_batch_size h)
      (mem st) (world st) in
  let tr := fst (fst s) in
  let m := imul (snd (fst s)) (rewards tr) (_reward_scale h) in
  let nin := read m (next_observations tr) in
  let ta0 := target_policy_f_prob_online nin (snd s) in
  let d :=
    np_random_normal 0 (_exploration_policy_sigma h) (length ta0) (snd s) in
  let c := _exploration_policy_clip h in
  let ta := zip_with PrimFloat.add ta0 (clip (fst d) (- c) c) in
  let tq := target_qf_f_prob_online nin ta (snd d) in
  wp optimize_policy
    (fun r st' =>
       mem st' = m /\
       last_sample (log st') = Some tr /\
       last_target_policy (log st') = Some ta0 /\
       last_draws (log st') = Some (fst d) /\
       last_target_qf (log st') = Some (ta, tq) /\
       regression_target (read m (rewards tr)) (read m (terminals tr))
         (_discount h) tq
       = match r with
         | Ok (_, ys, _, _) => Ok ys
         | Raise e => Raise e
         end) st.
Proof.
  cbv zeta. eapply wp_mono; [apply optimize_policy_run |].
  cbv zeta. intros r st' (_ & _ & Hm & H).
  split; [exact Hm |].
  destruct r as [[[[ql ys] qv] al] | e]; destruct H as [Ht ->]; simpl;
    repeat split; auto.
Qed.

(** A call returns when the rewards, the terminals and the target
    Q-values of the batch have the same number of rows. *)
Lemma optimize_policy_returns (st : State) :
  let h := hyper (self st) in
  let s :=
    sample_transitions (replay_buffer (self st)) (_buffer_batch_size h)
      (mem st) (world st) in
  let tr := fst (fst s) in
  let m := imul (snd (fst s)) (rewards tr) (_reward_scale h) in
  let nin := read m (next_observations tr) in
  let ta0 := target_policy_f_prob_online nin (snd s) in
  let d :=
    np_random_normal 0 (_exploration_policy_sigma h) (length ta0) (snd s) in
  let c := _exploration_policy_clip h in
  let ta := zip_with PrimFloat.add ta0 (clip (fst d) (- c) c) in
  let tq := target_qf_f_prob_online nin ta (snd d) in
  length (read m (rewards tr)) = length (read m (terminals tr)) ->
  length (read m (terminals tr)) = length tq ->
  exists out, fst (optimize_policy st) = Ok out.
Proof.
  cbv zeta. intros H1 H2.
  pose proof (optimize_policy_answers st) as H. cbv zeta in H.
  unfold wp in H. destruct H as (_ & _ & _ & _ & _ & Ht).
  destruct (regression_target_same_length _ _
              (_discount (hyper (self st))) _ H1 H2) as [ys Hys].
  rewrite Hys in Ht.
  destruct (fst (optimize_policy st)) as [out | e]; [eauto | discriminate Ht].
Qed.

End Target.

Section TargetClaims.

Local Open Scope float_scope.

(** C1 (amended): when [optimize_policy] returns, the target [ys] it
    computed is, row by row, [reward + (1 - terminal) * discount * target_q],
    where the rewards are the sampled ones scaled by [reward_scale] and
    [target_q] is the answer of the target Q-function; on a row with
    [terminal = 1] the target has the value of the scaled reward provided
    the discount and [target_q] are finite. *)
Theorem optimize_policy_target `{C : Collaborators} (st : State)
  (ql : float) (ys qv : list float) (al : float) :
  fst (optimize_policy st) = Ok (ql, ys, qv, al) ->
  let st' := snd (optimize_policy st) in
  let h := hyper (self st) in
  let sampled :=
    sample_transitions (replay_buffer (self st)) (_buffer_batch_size h)
      (mem st) (world st) in
  exists tr ta tq,
    last_sample (log st') = Some tr /\
    last_target_qf (log st') = Some (ta, tq) /\
    read (mem st') (rewards tr) =
      map (fun r => r * _reward_scale h) (read (snd (fst sampled)) (rewards tr)) /\
    forall i r t q,
      read (mem st') (rewards tr) !! i = Some r ->
      read (mem st') (terminals tr) !! i = Some t ->
      tq !! i = Some q ->
      exists y,
        ys !! i = Some y /\
        y = r + (1 - t) * _discount h * q /\
        (t = 1 -> is_finite (_discount h) = true -> is_finite q = true ->
         Float64.same_value y r = true).
Proof.
  intros Hok. cbv zeta.
  pose proof (optimize_policy_answers st) as H. cbv zeta in H.
  unfold wp in H. rewrite Hok in H.
  destruct H as (Hm & Hs & _ & _ & Hq & Ht).
  eexists _, _, _. split; [exact Hs |]. split; [exact Hq |].
  rewrite Hm. split; [apply read_imul_same |].
  intros i r t q Hr Hte Hqi.
  eexists. split; [eapply regression_target_lookup; eassumption |].
  split; [reflexivity |].
  intros -> Hd Hf. apply terminal_bootstrap; assumption.
Qed.

Lemma optimize_policy_target_witness :
  let st := Scenario.terminal_finite in
  let st' := snd (optimize_policy st) in
  fst (optimize_policy st) = Ok (0, [6], [6], 10) /\
  exists tr ta tq,
    last_sample (log st') = Some tr /\
    last_target_qf (log st') = Some (ta, tq) /\
    read (mem st') (rewards tr) =
      map (fun r => r * _reward_scale (hyper (self st)))
        (read
           (snd (fst (sample_transitions (replay_buffer (self st))
                        (_buffer_batch_size (hyper (self st))) (mem st)
                        (world st))))
           (rewards tr)) /\
    forall i r t q,
      read (mem st') (rewards tr) !! i = Some r ->
      read (mem st') (terminals tr) !! i = Some t ->
      tq !! i = Some q ->
      exists y,
        [6] !! i = Some y /\
        y = r + (1 - t) * _discount (hyper (self st)) * q /\
        (t = 1 -> is_finite (_discount (hyper (self st))) = true ->
         is_finite q = true -> Float64.same_value y r = true).
Proof.
  cbv zeta.
  assert (fst (optimize_policy Scenario.terminal_finite)
          = Ok (0, [6], [6], 10)) as Hok by (vm_compute; reflexivity).
  split; [exact Hok |].
  exact (optimize_policy_target Scenario.terminal_finite 0 [6] [6] 10 Hok).
Defined.

(** C1, as stated, fails where the target Q-value is not finite: on a
    terminal transition with scaled reward [6.0] and an infinite target
    Q-value, the target is NaN. *)
Lemma terminal_target_with_infinite_target_q :
  let st := Scenario.terminal_infinite in
  let st' := snd (optimize_policy st) in
  exists tr ta ql qv al,
    last_sample (log st') = Some tr /\
    last_target_qf (log st') = Some (ta, [infinity]) /\
    read (mem st') (terminals tr) = [1] /\
    read (mem st') (rewards tr) = [6] /\
    fst (optimize_policy st) = Ok (ql, [nan], qv, al) /\
    Float64.same_value nan 6 = false.
Proof.
  cbv zeta.
  exists (mk_Transitions (mk_ndarray 5 0 1) (mk_ndarray 6 0 1)
            (mk_ndarray 7 0 1) (mk_ndarray 8 0 1) (mk_ndarray 9 0 1)),
    [0.5], 0, [nan], 10.
  by_computation.
Qed.

(** C2 (amended): with [discount = 0.99] and [reward_scale = 2.0], a
    single sampled transition with raw reward [1.0], [terminal = 0] and a
    target Q-value of [5.0] gives the target [2.0 + 0.99 * 5.0 = 6.95]: the
    scale multiplies the reward only, not the bootstrap term. *)
Theorem scaled_reward_target `{C : Collaborators} (st : State)
  (ql : float) (ys qv : list float) (al : float) :
  fst (optimize_policy st) = Ok (ql, ys, qv, al) ->
  let st' := snd (optimize_policy st) in
  let h := hyper (self st) in
  let sampled :=
    sample_transitions (replay_buffer (self st)) (_buffer_batch_size h)
      (mem st) (world st) in
  _discount h = 0.99 ->
  _reward_scale h = 2 ->
  forall tr ta,
    last_sample (log st') = Some tr ->
    last_target_qf (log st') = Some (ta, [5]) ->
    read (snd (fst sampled)) (rewards tr) = [1] ->
    read (mem st') (terminals tr) = [0] ->
    ys = [6.95].
Proof.
  intros Hok. cbv zeta. intros Hd Hsc tr ta Hs Hq Hr Ht.
  pose proof (optimize_policy_answers st) as H. cbv zeta in H.
  unfold wp in H. rewrite Hok in H.
  destruct H as (Hm & Hs' & _ & _ & Hq' & Htarget).
  rewrite Hs in Hs'. injection Hs' as Htr. subst tr.
  rewrite Hq in Hq'. injection Hq' as _ Htq.
  rewrite <- Htq, read_imul_same, Hr, <- Hm, Ht, Hd, Hsc in Htarget.
  vm_compute in Htarget. injection Htarget as <-. reflexivity.
Qed.

Lemma scaled_reward_target_witness :
  let st := Scenario.scaled_reward in
  let tr :=
    mk_Transitions (mk_ndarray 5 0 1) (mk_ndarray 6 0 1) (mk_ndarray 7 0 1)
      (mk_ndarray 8 0 1) (mk_ndarray 9 0 1) in
  fst (optimize_policy st) = Ok (0, [6.95], [6.95], 10) /\
  _discount (hyper (self st)) = 0.99 /\
  _reward_scale (hyper (self st)) = 2 /\
  last_sample (log (snd (optimize_policy st))) = Some tr /\
  last_target_qf (log (snd (optimize_policy st))) = Some ([0.5], [5]) /\
  read
    (snd (fst (sample_transitions (replay_buffer (self st))
                 (_buffer_batch_size (hyper (self st))) (mem st) (world st))))
    (rewards tr) = [1] /\
  read (mem (snd (optimize_policy st))) (terminals tr) = [0] /\
  [6.95] = [6.95].
Proof.
  cbv zeta.
  assert (fst (optimize_policy Scenario.scaled_reward)
          = Ok (0, [6.95], [6.95], 10)) as Hok by (vm_compute; reflexivity).
  assert (_discount (hyper (self Scenario.scaled_reward)) = 0.99) as Hd
    by (vm_compute; reflexivity).
  assert (_reward_scale (hyper (self Scenario.scaled_reward)) = 2) as Hsc
    by (vm_compute; reflexivity).
  assert (last_sample (log (snd (optimize_policy Scenario.scaled_reward)))
          = Some (mk_Transitions (mk_ndarray 5 0 1) (mk_ndarray 6 0 1)
                    (mk_ndarray 7 0 1) (mk_ndarray 8 0 1) (mk_ndarray 9 0 1)))
    as Hs by (vm_compute; reflexivity).
  assert (last_target_qf (log (snd (optimize_policy Scenario.scaled_reward)))
          = Some ([0.5], [5])) as Hq by (vm_compute; reflexivity).
  assert (read
            (snd (fst (sample_transitions
                         (replay_buffer (self Scenario.scaled_reward))
                         (_buffer_batch_size
                            (hyper (self Scenario.scaled_reward)))
                         (mem Scenario.scaled_reward)
                         (world Scenario.scaled_reward))))
            (mk_ndarray 7 0 1) = [1]) as Hr by (vm_compute; reflexivity).
  assert (read (mem (snd (optimize_policy Scenario.scaled_reward)))
            (mk_ndarray 9 0 1) = [0]) as Ht by (vm_compute; reflexivity).
  repeat (split; [assumption |]).
  exact (scaled_reward_target Scenario.scaled_reward 0 [6.95] [6.95] 10 Hok
           Hd Hsc _ _ Hs Hq Hr Ht).
Defined.

(** C2, as stated, fails: in that scenario the target is not [11.9]. *)
Lemma scaled_reward_target_is_not_11_9 :
  let st := Scenario.scaled_reward in
  _discount (hyper (self st)) = 0.99 /\
  _reward_scale (hyper (self st)) = 2 /\
  read (mem st) (rewards (Doubles.storage (replay_buffer (self st)))) = [1] /\
  read (mem st) (terminals (Doubles.storage (replay_buffer (self st)))) = [0] /\
  last_target_qf (log (snd (optimize_policy st))) = Some ([0.5], [5]) /\
  exists ql ys qv al,
    fst (optimize_policy st) = Ok (ql, ys, qv, al) /\ ys <> [11.9].
Proof.
  cbv zeta. do 5 (split; [vm_compute; reflexivity |]).
  exists 0, [6.95], [6.95], 10. split; [vm_compute; reflexivity |].
  intros H.
  apply (f_equal (fun l => match l with
                           | [y] => PrimFloat.eqb y 11.9
                           | _ => true
                           end)) in H.
  vm_compute in H. discriminate H.
Qed.

End TargetClaims.

(** ** The memory of the sampled batch *)

Section MemoryClaims.

Local Open Scope float_scope.

(** C6 (amended): [optimize_policy] writes to one array, the rewards of
    the sampled batch, which it scales in place by [reward_scale]; an
    array on another buffer (every stored array, when the batch is a copy)
    reads after the call as it read when the batch was sampled. *)
Theorem optimize_policy_writes_sampled_rewards `{C : Collaborators}
  (st : State) (a : ndarray) :
  let h := hyper (self st) in
  let sampled :=
    sample_transitions (replay_buffer (self st)) (_buffer_batch_size h)
      (mem st) (world st) in
  let batch_rewards := rewards (fst (fst sampled)) in
  base a <> base batch_rewards ->
  read (mem (snd (optimize_policy st))) a = read (snd (fst sampled)) a /\
  read (mem (snd (optimize_policy st))) batch_rewards =
    map (fun r => r * _reward_scale h) (read (snd (fst sampled)) batch_rewards).
Proof.
  cbv zeta. intros Hne.
  pose proof (optimize_policy_answers st) as H. cbv zeta in H.
  unfold wp in H. destruct H as (-> & _).
  split; [apply read_imul_other; exact Hne | apply read_imul_same].
Qed.

Lemma optimize_policy_writes_sampled_rewards_witness :
  let st := Scenario.scaled_reward in
  let stored := rewards (Doubles.storage (replay_buffer (self st))) in
  let sampled :=
    sample_transitions (replay_buffer (self st))
      (_buffer_batch_size (hyper (self st))) (mem st) (world st) in
  base stored <> base (rewards (fst (fst sampled))) /\
  read (mem st) stored = [1] /\
  read (mem (snd (optimize_policy st))) stored = [1].
Proof.
  cbv zeta.
  assert (base (rewards (Doubles.storage
                           (replay_buffer (self Scenario.scaled_reward))))
          <> base (rewards (fst (fst (sample_transitions
                     (replay_buffer (self Scenario.scaled_reward))
                     (_buffer_batch_size (hyper (self Scenario.scaled_reward)))
                     (mem Scenario.scaled_reward)
                     (world Scenario.scaled_reward))))))
    as Hne by (vm_compute; lia).
  split; [exact Hne |]. split; [vm_compute; reflexivity |].
  destruct (optimize_policy_writes_sampled_rewards Scenario.scaled_reward
              _ Hne) as [-> _].
  vm_compute. reflexivity.
Defined.

(** C6, as stated, fails: when the batch is a view on the stored arrays,
    the stored reward [1.0] reads [2.0] after one call with
    [reward_scale = 2.0]. *)
Lemma stored_reward_scaled_through_view :
  let st := Scenario.by_view in
  let stored := rewards (Doubles.storage (replay_buffer (self st))) in
  Doubles.by_reference (replay_buffer (self st)) = true /\
  _reward_scale (hyper (self st)) = 2 /\
  read (mem st) stored = [1] /\
  read (mem (snd (optimize_policy st))) stored = [2].
Proof. cbv zeta. by_computation. Qed.

End MemoryClaims.

(** ** The noise on the target actions *)

Section NoiseClaims.

Local Open Scope float_scope.

Lemma clip_lookup (raw : list float) (lo hi : float) (i : nat) (x : float) :
  raw !! i = Some x ->
  clip raw lo hi !! i = Some (Float64.npy_clip x lo hi).
Proof. intros H. unfold clip. rewrite lookup_map, H. reflexivity. Qed.



End NoiseClaims.

(** ** Warm-up *)

Section WarmUpClaims.

(** C3: in a run of [train] whose stores all leave fewer than
    [min_buffer_size] transitions in the buffer, [optimize_policy] is never
    called and no gradient step is made on the Q-function or on the
    policy. *)
Theorem no_optimization_below_min_buffer_size `{C : Collaborators}
  (num_epochs : nat) (st : State) :
  log st = [] ->
  let st' := snd (train num_epochs st) in
  (forall s, In s (stores (log st')) ->
     s < _min_buffer_size (hyper (self st))) ->
  optimize_calls (log st') = [] /\
  qf_updates (log st') = [] /\
  policy_updates (log st') = [].
Proof.
  intros Hlog. cbv zeta. intros Hcold.
  pose proof (train_gated num_epochs st) as H. unfold wp in H.
  rewrite Hlog in H. specialize (H (gated_nil _ _)).
  destruct H as (Ho & _ & Hq & Hp).
  assert (optimize_calls (log (snd (train num_epochs st))) = []) as Hnone.
  { destruct (optimize_calls _) as [|s l]; [reflexivity |].
    apply Forall_cons in Ho as [[Hle Hin] _].
    specialize (Hcold s Hin). lia. }
  rewrite Hnone in *. simpl in Hq, Hp.
  split; [reflexivity |].
  split; [destruct (qf_updates _) | destruct (policy_updates _)];
    simpl in *; (reflexivity || lia).
Qed.

Lemma no_optimization_below_min_buffer_size_witness :
  let st := Scenario.cold in
  let st' := snd (train 1 st) in
  log st = [] /\
  stores (log st') = [2; 1] /\
  _min_buffer_size (hyper (self st)) = 10 /\
  optimize_calls (log st') = [] /\
  qf_updates (log st') = [] /\
  policy_updates (log st') = [].
Proof.
  cbv zeta.
  assert (log Scenario.cold = []) as Hlog by (vm_compute; reflexivity).
  assert (stores (log (snd (train 1 Scenario.cold))) = [2; 1]) as Hst
    by (vm_compute; reflexivity).
  assert (_min_buffer_size (hyper (self Scenario.cold)) = 10) as Hmin
    by (vm_compute; reflexivity).
  repeat (split; [assumption |]).
  apply (no_optimization_below_min_buffer_size 1 Scenario.cold Hlog).
  rewrite Hst, Hmin. simpl. intros s [<- | [<- | []]]; lia.
Defined.

(** C5 (amended): in a run of [train], each call of
    [runner.obtain_episodes] is given [UniformRandomPolicy(env_spec)] when
    the iteration counter [runner.step_itr] is below [start_steps], and
    [self.exploration_policy] when it is at or past [start_steps]. *)
Theorem acting_policy_by_iteration `{C : Collaborators}
  (num_epochs : nat) (st : State) :
  log st = [] ->
  forall itr total agent,
    In (itr, total, agent) (samplings (log (snd (train num_epochs st)))) ->
    agent = acting_policy (self st) itr.
Proof.
  intros Hlog itr total agent Hin.
  pose proof (train_gated num_epochs st) as H. unfold wp in H.
  rewrite Hlog in H. specialize (H (gated_nil _ _)).
  destruct H as (_ & Hs & _).
  rewrite List.Forall_forall in Hs. apply (Hs _ Hin).
Qed.

Lemma acting_policy_by_iteration_witness :
  let st := Scenario.long_episodes in
  log st = [] /\
  In (1, 5, UniformRandomPolicy Scenario.spec)
    (samplings (log (snd (train 1 st)))) /\
  UniformRandomPolicy Scenario.spec = acting_policy (self st) 1.
Proof.
  cbv zeta.
  assert (log Scenario.long_episodes = []) as Hlog
    by (vm_compute; reflexivity).
  assert (In (1, 5, UniformRandomPolicy Scenario.spec)
            (samplings (log (snd (train 1 Scenario.long_episodes)))))
    as Hin by (vm_compute; left; reflexivity).
  split; [exact Hlog |]. split; [exact Hin |].
  exact (acting_policy_by_iteration 1 Scenario.long_episodes Hlog _ _ _ Hin).
Defined.

(** C5, as stated, fails: with [start_steps = 2] and five environment
    steps per cycle, the second cycle starts past [start_steps]
    environment steps and still samples with the uniform-random policy. *)
Lemma uniform_policy_past_start_steps :
  let st := Scenario.long_episodes in
  _start_steps (hyper (self st)) = 2 /\
  samplings (log (snd (train 1 st))) =
    [(1, 5, UniformRandomPolicy Scenario.spec);
     (0, 0, UniformRandomPolicy Scenario.spec)].
Proof. cbv zeta. by_computation. Qed.

End WarmUpClaims.

(** ** The number of optimization steps of a cycle *)

Section CadenceClaims.

Lemma cycle_body_count `{C : Collaborators} (cycle : Z)
  (lr : option (list float)) (st : State) :
  wp (cycle_body cycle lr)
    (fun r st' =>
       forall lr', r = Ok lr' ->
         length (optimize_calls (log st')) =
         (length (optimize_calls (log st)) +
          if (total_env_steps (runner st') >=? _start_steps (hyper (self st')))
             && (n_transitions_stored (replay_buffer (self st'))
                 >=? _min_buffer_size (hyper (self st')))
          then Z.to_nat (_n_train_steps (hyper (self st'))) else 0)%nat) st.
Proof.
  (* the evaluation and the end of the cycle call no optimization *)
  assert (forall st3,
    wp (stored <- stored_now ;;
        min_buffer_size <- attr _min_buffer_size ;;
        last_returns' <-
          (if (cycle =? 0) && (stored >=? min_buffer_size) then
             returns <- evaluate ;; ret (Some returns)
           else ret lr) ;;
        modify (set_runner (fun r => set_step_itr (step_itr r + 1) r)) ;;
        ret last_returns')%py
      (fun _ st' =>
         self st' = self st3 /\
         total_env_steps (runner st') = total_env_steps (runner st3) /\
         optimize_calls (log st') = optimize_calls (log st3)) st3) as Hrest.
  { intros st3. wp_steps.
    destruct ((cycle =? 0) && _); wp_steps; [| auto].
    eapply wp_mono; [apply evaluate_run |].
    intros r st4 (returns & -> & Hs & Hr & Hm & Hl). wp_steps.
    rewrite Hs, Hr, Hl. auto. }
  unfold cycle_body. do 5 wp_train_step.
  destruct (step_itr _ >=? _) eqn:Hi; repeat wp_train_step;
    (destruct (total_env_steps _ >=? _) eqn:Ht; simpl in Ht;
     [ wp_steps;
       eapply wp_mono;
         [apply wp_conj; [apply train_once_count | apply train_once_outside] |];
       intros [[] | e] st3 [Hn (Hh & Hb & _ & Hr & _)]; [| discriminate];
       eapply wp_mono; [apply Hrest |];
       intros r st' (Hs & Htot & Hc) lr' _;
       rewrite Hs, Htot, Hc, Hh, Hb, Hr; simpl; rewrite Ht; simpl;
       rewrite (Hn tt eq_refl); simpl; reflexivity
     | apply wp_ret;
       eapply wp_mono; [apply Hrest |];
       intros r st' (Hs & Htot & Hc) lr' _;
       rewrite Hs, Htot, Hc; simpl; rewrite Ht; simpl; lia ]).
Qed.

(** C4 (amended): a cycle that completes makes exactly [n_train_steps]
    calls of [optimize_policy] when [runner.total_env_steps >= start_steps]
    and the buffer holds at least [min_buffer_size] transitions, and none
    otherwise. *)
Theorem cycle_optimization_steps `{C : Collaborators} (cycle : Z)
  (lr lr' : option (list float)) (st : State) :
  fst (cycle_body cycle lr st) = Ok lr' ->
  let st' := snd (cycle_body cycle lr st) in
  let h := hyper (self st') in
  length (optimize_calls (log st')) =
  (length (optimize_calls (log st)) +
   if (total_env_steps (runner st') >=? _start_steps h)
      && (n_transitions_stored (replay_buffer (self st'))
          >=? _min_buffer_size h)
   then Z.to_nat (_n_train_steps h) else 0)%nat.
Proof.
  intros Hok. cbv zeta.
  pose proof (cycle_body_count cycle lr st) as H. unfold wp in H.
  apply (H lr' Hok).
Qed.

Lemma cycle_optimization_steps_witness :
  let st := Scenario.warm in
  let st' := snd (cycle_body 0 None st) in
  fst (cycle_body 0 None st) = Ok (Some [1%float]) /\
  _n_train_steps (hyper (self st')) = 2 /\
  optimize_calls (log st') = [1; 1] /\
  length (optimize_calls (log st')) =
  (length (optimize_calls (log st)) +
   if (total_env_steps (runner st') >=? _start_steps (hyper (self st')))
      && (n_transitions_stored (replay_buffer (self st'))
          >=? _min_buffer_size (hyper (self st')))
   then Z.to_nat (_n_train_steps (hyper (self st'))) else 0)%nat.
Proof.
  cbv zeta.
  assert (fst (cycle_body 0 None Scenario.warm) = Ok (Some [1%float]))
    as Hok by (vm_compute; reflexivity).
  split; [exact Hok |].
  split; [vm_compute; reflexivity |]. split; [vm_compute; reflexivity |].
  exact (cycle_optimization_steps 0 None _ Scenario.warm Hok).
Defined.

(** C4, as stated, fails: a cycle that leaves [min_buffer_size]
    transitions in the buffer, before [start_steps] environment steps,
    makes no optimization step although [n_train_steps = 2]. *)
Lemma warm_buffer_before_start_steps :
  let st := Scenario.warm_before_start in
  let st' := snd (cycle_body 0 None st) in
  fst (cycle_body 0 None st) = Ok (Some [1%float]) /\
  n_transitions_stored (replay_buffer (self st')) = 1 /\
  _min_buffer_size (hyper (self st')) = 1 /\
  _n_train_steps (hyper (self st')) = 2 /\
  total_env_steps (runner st') = 1 /\
  _start_steps (hyper (self st')) = 1000 /\
  optimize_calls (log st') = [].
Proof. cbv zeta. by_computation. Qed.

End CadenceClaims.

(** ** The constructor *)

Section ConstructorClaims.

Local Open Scope float_scope.

(** C7 (amended): the constructor checks no hyperparameter: whatever the
    arguments, it returns an instance that holds [min_buffer_size],
    [buffer_batch_size], [target_update_tau] and [reward_scale] as they
    were given, with empty accumulators. *)
Theorem init_keeps_arguments `{C : Collaborators}
  (a : Args.t Network ExplorationPolicy ReplayBuffer) (w : World) :
  let d := fst (fst (__init__ a w)) in
  _min_buffer_size (hyper d) = Args.min_buffer_size a /\
  _buffer_batch_size (hyper d) = Args.buffer_batch_size a /\
  _tau (hyper d) = Args.target_update_tau a /\
  _reward_scale (hyper d) = Args.reward_scale a /\
  replay_buffer d = Args.replay_buffer a /\
  _episode_policy_losses d = [] /\
  _episode_qf_losses d = [] /\
  _epoch_ys d = [] /\
  _epoch_qs d = [].
Proof.
  cbv zeta. unfold __init__.
  destruct (clone (Args.policy a) "target_policy" w) as [tp w1].
  destruct (clone (Args.qf a) "target_qf" w1) as [tq w2].
  simpl. repeat split; reflexivity.
Qed.

(** C7, as stated, fails: with [min_buffer_size = 1] below
    [buffer_batch_size = 64] and [target_update_tau = 2.0] outside
    [(0, 1]], the constructor returns an instance, and [train] runs on it
    and returns a value. *)
Lemma invalid_hyperparameters_accepted :
  let a := Scenario.invalid_args (Doubles.empty_buffer false) in
  let d :=
    fst (fst (__init__ (C := Doubles.collaborators) a
                (Scenario.sampler [[Scenario.row 1 0]]))) in
  (Args.min_buffer_size a < Args.buffer_batch_size a)%Z /\
  (0 <? Args.target_update_tau a) && (Args.target_update_tau a <=? 1)
  = false /\
  _min_buffer_size (hyper d) = 1%Z /\
  _buffer_batch_size (hyper d) = 64%Z /\
  _tau (hyper d) = 2 /\
  self Scenario.invalid = d /\
  fst (train 1 Scenario.invalid) = Ok 1.
Proof.
  cbv zeta. split; [vm_compute; reflexivity |]. by_computation.
Qed.

End ConstructorClaims.

(** ** The value returned by [train] *)

Section ReturnClaims.

Lemma train_returns_only_when_warm `{C : Collaborators}
  (num_epochs : nat) (st : State) :
  wp (train num_epochs)
    (fun r st' =>
       (forall s, In s (stores (log st')) ->
          s < _min_buffer_size (hyper (self st))) ->
       r = Raise TypeError) st.
Proof.
  unfold train. wp_steps.
  destruct (_eval_env (self st)) as [env |]; wp_steps;
    (eapply wp_mono;
     [apply wp_conj;
      [apply epochs_none_unless_warm | apply epochs_raises_warm] |];
     intros [lr | e] st' [H Hraise]; wp_steps; intros Hcold;
     [ destruct lr as [returns |]; [| reflexivity];
       destruct H as [H | (s & Hin & Hle)]; [discriminate H |];
       simpl in Hle; specialize (Hcold s Hin); lia
     | destruct (Hraise e eq_refl) as (s & Hin & Hle);
       simpl in Hle; specialize (Hcold s Hin); lia ]).
Qed.

(** When [train] returns, it returns the mean of the returns of the most
    recent evaluation. *)
Lemma train_returns_last_evaluation `{C : Collaborators}
  (num_epochs : nat) (st : State) (v : float) :
  evaluations (log st) = [] ->
  fst (train num_epochs st) = Ok v ->
  exists returns,
    head (evaluations (log (snd (train num_epochs st)))) = Some returns /\
    v = np_mean returns.
Proof.
  intros Hnone.
  assert (wp (train num_epochs)
            (fun r st' =>
               r = Ok v ->
               exists returns,
                 head (evaluations (log st')) = Some returns /\
                 v = np_mean returns) st) as H.
  { unfold train. wp_steps.
    destruct (_eval_env (self st)) as [env |]; wp_steps;
      (eapply wp_mono; [apply epochs_last_evaluation; exact Hnone |];
       intros [lr | e] st' H; wp_steps; [| intros He; discriminate He];
       intros Hv; rewrite <- (H lr eq_refl);
       destruct lr as [returns |]; simpl in Hv; [| discriminate Hv];
       injection Hv as <-; eauto). }
  exact H.
Qed.

(** C8: where the code departs from the claim. In a run of [train] whose
    stores all leave fewer than [min_buffer_size] transitions in the
    buffer, no evaluation runs and [train] does not return a value:
    [np.mean(None)] raises [TypeError]. *)
Theorem train_raises_when_never_warm `{C : Collaborators}
  (num_epochs : nat) (st : State) :
  (forall s, In s (stores (log (snd (train num_epochs st)))) ->
     s < _min_buffer_size (hyper (self st))) ->
  fst (train num_epochs st) = Raise TypeError.
Proof.
  intros Hcold.
  pose proof (train_returns_only_when_warm num_epochs st) as H.
  unfold wp in H. apply H. exact Hcold.
Qed.

Lemma train_raises_when_never_warm_witness :
  let st := Scenario.cold in
  stores (log (snd (train 1 st))) = [2; 1] /\
  _min_buffer_size (hyper (self st)) = 10 /\
  evaluations (log (snd (train 1 st))) = [] /\
  fst (train 1 st) = Raise TypeError.
Proof.
  cbv zeta.
  assert (stores (log (snd (train 1 Scenario.cold))) = [2; 1]) as Hst
    by (vm_compute; reflexivity).
  assert (_min_buffer_size (hyper (self Scenario.cold)) = 10) as Hmin
    by (vm_compute; reflexivity).
  split; [exact Hst |]. split; [exact Hmin |].
  split; [vm_compute; reflexivity |].
  apply (train_raises_when_never_warm 1 Scenario.cold).
  rewrite Hst, Hmin. simpl. intros s [<- | [<- | []]]; lia.
Defined.

End ReturnClaims.

(** ** The accumulators *)

Section AccumulatorClaims.

Local Open Scope float_scope.

(** C9 (amended): the accumulators are never reset. After any run of
    [train] on a new instance, each of the four lists holds one entry per
    optimization step made since the construction, in order, and every
    statistic recorded during the run was computed over all the
    optimization steps made before it, whatever their epoch. *)
Theorem accumulators_never_reset `{C : Collaborators}
  (a : Args.t Network ExplorationPolicy ReplayBuffer) (r : Runner)
  (h : heap) (w : World) (num_epochs : nat) :
  accumulated (snd (train num_epochs (fresh a r h w))).
Proof.
  pose proof (train_accumulated num_epochs (fresh a r h w)) as H.
  unfold wp in H. apply H. apply fresh_accumulated.
Qed.

(** C9, as stated, fails: with one optimization step per epoch, of policy
    loss [10.0] in the first epoch and [20.0] in the second, the mean
    policy loss recorded in the second epoch is computed over
    [[10.0, 20.0]]. *)
Lemma second_epoch_statistics_cover_first_epoch :
  let st := Scenario.two_epochs in
  policy_updates (log (snd (train 1 st))) = [10] /\
  policy_updates (log (snd (train 2 st))) = [20; 10] /\
  mean_records "Policy/AveragePolicyLoss" (log (snd (train 2 st))) =
    [[10; 20]; [10]] /\
  _episode_policy_losses (self (snd (train 2 st))) = [10; 20].
Proof. cbv zeta. by_computation. Qed.

End AccumulatorClaims.

(** ** Loops over [range] *)

Section IndexedLoops.

Context `{C : Collaborators}.

(** A loop over [f a, ..., f (a + n - 1)]: [I i] holds before the
    iteration of index [i], [E] where an exception leaves the loop. *)
Lemma wp_for_each_seq {X L : Type} (f : nat -> X)
  (I : nat -> L -> State -> Prop) (E : exn -> State -> Prop)
  (body : X -> L -> M L) (n : nat) :
  forall a : nat,
  (forall i l st, (a <= i < a + n)%nat -> I i l st ->
     wp (body (f i) l)
       (fun r st' =>
          match r with Ok l' => I (S i) l' st' | Raise e => E e st' end) st) ->
  forall l st, I a l st ->
    wp (for_each (map f (seq a n)) body l)
      (fun r st' =>
         match r with Ok l' => I (a + n)%nat l' st' | Raise e => E e st' end)
      st.
Proof.
  induction n as [|n IH]; intros a Hbody l st HI; simpl.
  - apply wp_ret. rewrite Nat.add_0_r. exact HI.
  - apply wp_bind.
    eapply wp_mono; [apply Hbody; [lia | exact HI] |].
    intros [l' | e] st' H; [| exact H].
    replace (a + S n)%nat with (S a + n)%nat by lia.
    apply IH; [| exact H].
    intros i l0 st0 Hi. apply Hbody. lia.
Qed.

Lemma wp_range {L : Type}
  (I : nat -> L -> State -> Prop) (E : exn -> State -> Prop)
  (body : Z -> L -> M L) (n : Z) :
  (forall i l st, (i < Z.to_nat n)%nat -> I i l st ->
     wp (body (Z.of_nat i) l)
       (fun r st' =>
          match r with Ok l' => I (S i) l' st' | Raise e => E e st' end) st) ->
  forall l st, I O l st ->
    wp (for_each (range n) body l)
      (fun r st' =>
         match r with
         | Ok l' => I (Z.to_nat n) l' st'
         | Raise e => E e st'
         end) st.
Proof.
  intros Hbody l st HI. unfold range.
  apply (wp_for_each_seq Z.of_nat I E body (Z.to_nat n) 0); [| exact HI].
  intros i l0 st0 Hi. apply Hbody. lia.
Qed.

End IndexedLoops.

Section OptimizePolicyWorld.

Context `{C : Collaborators}.

Lemma broadcast2_raises (f : float -> float -> float) (xs ys : list float)
  (e : exn) :
  broadcast2 f xs ys = Raise e -> e = ValueError.
Proof.
  unfold broadcast2. destruct (Nat.eqb _ _); [discriminate |].
  destruct xs as [|x [|x' xs]]; destruct ys as [|y [|y' ys]];
    intros H; try discriminate H; injection H as <-; reflexivity.
Qed.

Lemma regression_target_raises (rs ts : list float) (d : float)
  (qs : list float) (e : exn) :
  regression_target rs ts d qs = Raise e -> e = ValueError.
Proof.
  unfold regression_target.
  destruct (broadcast2 PrimFloat.mul _ qs) as [bs | e'] eqn:Hb.
  - apply broadcast2_raises.
  - intros H. injection H as <-. eapply broadcast2_raises. exact Hb.
Qed.

(** The session a call leaves: the one the draws left, after the step on
    the Q-function, then the step on the policy, then the update of the
    targets; or the one the draws left, when the target cannot be
    computed. *)
Lemma optimize_policy_world (st : State) :
  let h := hyper (self st) in
  let s :=
    sample_transitions (replay_buffer (self st)) (_buffer_batch_size h)
      (mem st) (world st) in
  let tr := fst (fst s) in
  let m := imul (snd (fst s)) (rewards tr) (_reward_scale h) in
  let nin := read m (next_observations tr) in
  let ta0 := target_policy_f_prob_online nin (snd s) in
  let d :=
    np_random_normal 0%float (_exploration_policy_sigma h) (length ta0)
      (snd s) in
  let obs := read m (observations tr) in
  let acts := read m (actions tr) in
  wp optimize_policy
    (fun r st' =>
       match r with
       | Ok (ql, ys, qv, al) =>
           let q := f_train_qf ys obs acts (snd d) in
           let p := f_train_policy obs (snd q) in
           fst q = (ql, qv) /\ fst p = al /\
           world st' = f_update_target (snd p)
       | Raise e => e = ValueError /\ world st' = snd d
       end) st.
Proof.
  cbv zeta. unfold optimize_policy, reshape_col. wp_steps.
  rewrite iadd_same_length
    by (rewrite length_clip, np_random_normal_length; reflexivity).
  wp_steps.
  destruct (regression_target _ _ _ _) as [ys | e] eqn:Ht; wp_steps.
  - clear Ht. repeat split; try reflexivity; assumption.
  - split; [eapply regression_target_raises; exact Ht | reflexivity].
Qed.

End OptimizePolicyWorld.

Section OptimizePolicyExtras.

Local Open Scope float_scope.

(** X1: when [optimize_policy] returns, it has made, in this order, one
    gradient step on the Q-function, one on the policy and one update of
    the target networks: the step on the policy runs in the session the
    step on the Q-function left, both on the sampled observations, and the
    session left by the call is the one left by the update of the targets;
    the two losses returned are those of these two steps. *)
Theorem optimize_policy_updates_in_order `{C : Collaborators} (st : State)
  (ql : float) (ys qv : list float) (al : float) :
  fst (optimize_policy st) = Ok (ql, ys, qv, al) ->
  let st' := snd (optimize_policy st) in
  let h := hyper (self st) in
  let s :=
    sample_transitions (replay_buffer (self st)) (_buffer_batch_size h)
      (mem st) (world st) in
  let tr := fst (fst s) in
  let obs := read (mem st') (observations tr) in
  let acts := read (mem st') (actions tr) in
  let ta0 :=
    target_policy_f_prob_online (read (mem st') (next_observations tr))
      (snd s) in
  let d :=
    np_random_normal 0 (_exploration_policy_sigma h) (length ta0) (snd s) in
  let q := f_train_qf ys obs acts (snd d) in
  let p := f_train_policy obs (snd q) in
  fst q = (ql, qv) /\
  fst p = al /\
  world st' = f_update_target (snd p) /\
  exists first,
    log st' =
      UpdateTarget :: TrainPolicy obs al :: TrainQf ys obs acts ql qv
      :: first ++ log st /\
    qf_updates first = [] /\ policy_updates first = [] /\
    target_updates first = O.
Proof.
  intros Hok. cbv zeta.
  pose proof (optimize_policy_run st) as Hrun.
  pose proof (optimize_policy_world st) as Hw.
  cbv zeta in Hrun, Hw. unfold wp in Hrun, Hw. rewrite Hok in Hrun, Hw.
  destruct Hrun as (_ & _ & Hm & _ & Hlog).
  destruct Hw as (Hq & Hp & Hworld).
  rewrite Hm. split; [exact Hq |]. split; [exact Hp |].
  split; [exact Hworld |].
  eexists. split; [rewrite Hlog; reflexivity |].
  repeat split; reflexivity.
Qed.

Lemma optimize_policy_updates_in_order_witness :
  let st := Scenario.scaled_reward in
  let st' := snd (optimize_policy st) in
  fst (optimize_policy st) = Ok (0, [6.95], [6.95], 10) /\
  policy_updates (log st') = [10] /\
  exists first,
    log st' =
      UpdateTarget :: TrainPolicy [0.1] 10
      :: TrainQf [6.95] [0.1] [0.2] 0 [6.95] :: first ++ log st /\
    qf_updates first = [].
Proof.
  cbv zeta.
  assert (fst (optimize_policy Scenario.scaled_reward)
          = Ok (0, [6.95], [6.95], 10)) as Hok by (vm_compute; reflexivity).
  split; [exact Hok |]. split; [vm_compute; reflexivity |].
  destruct (optimize_policy_updates_in_order Scenario.scaled_reward
              0 [6.95] [6.95] 10 Hok) as (_ & _ & _ & first & Hlog & Hq & _).
  exists first. split; [| exact Hq].
  rewrite Hlog. vm_compute. reflexivity.
Defined.



End OptimizePolicyExtras.

(** ** [train_once]: what it leaves, what it raises, what it logs *)

Ltac wp_step_but_max :=
  lazymatch goal with
  | |- wp (np_max _) _ _ => fail
  | _ => wp_step
  end.

Section TrainOnceFrame.

Context `{C : Collaborators}.

(** An iteration of the loop leaves the instance but for the
    accumulators, tells nothing to the logger, and raises nothing but
    [ValueError]. *)
Lemma train_step_frame (st : State) :
  wp train_step
    (fun r st' =>
       configuration (self st') = configuration (self st) /\
       _eval_env (self st') = _eval_env (self st) /\
       messages (log st') = messages (log st) /\
       record_keys (log st') = record_keys (log st) /\
       evaluation_iterations (log st') = evaluation_iterations (log st) /\
       forall e, r = Raise e -> e = ValueError) st.
Proof.
  unfold train_step. wp_steps.
  destruct (_ >=? _); [| wp_steps; repeat split; auto; discriminate].
  apply wp_bind.
  eapply wp_mono;
    [apply wp_conj; [apply optimize_policy_run | apply optimize_policy_world] |].
  cbv zeta. intros r st' [(Hs & _ & _ & H) Hw].
  destruct r as [[[[ql ys] qv] al] | e]; wp_steps.
  - destruct H as [_ ->]. rewrite Hs. simpl.
    repeat split; auto; discriminate.
  - destruct H as [_ ->]. destruct Hw as [-> _]. rewrite Hs. simpl.
    repeat split; auto. intros e' He. injection He as <-. reflexivity.
Qed.


Lemma wp_np_max_size (a : nparg) (Q : result LogValue -> State -> Prop)
  (st : State) :
  (size a = O -> Q (Raise ValueError) st) ->
  (size a <> O -> Q (Ok (Max a)) st) ->
  wp (np_max a) Q st.
Proof.
  intros H0 H1. unfold wp, np_max.
  destruct (Nat.eqb (size a) 0) eqn:Hs; simpl.
  - apply H0. apply Nat.eqb_eq. exact Hs.
  - apply H1. apply Nat.eqb_neq. exact Hs.
Qed.

(** The records: the nine keys in order, or the first four, or the first
    seven, where [np.max] finds no entry. *)
Lemma record_statistics_keys (itr : Z) (st : State) :
  wp (record_statistics itr)
    (fun r st' =>
       self st' = self st /\
       messages (log st') = messages (log st) /\
       evaluation_iterations (log st') = evaluation_iterations (log st) /\
       match r with
       | Ok _ =>
           record_keys (log st') = rev statistics_keys ++ record_keys (log st)
       | Raise e =>
           e = ValueError /\
           ((concat (_epoch_qs (self st)) = [] /\
             record_keys (log st') =
               rev (take 4 statistics_keys) ++ record_keys (log st)) \/
            (concat (_epoch_ys (self st)) = [] /\
             record_keys (log st') =
               rev (take 7 statistics_keys) ++ record_keys (log st)))
       end) st.
Proof.
  unfold record_statistics. repeat wp_step_but_max.
  apply wp_np_max_size; intros Hq.
  { apply length_zero_iff_nil in Hq. simpl. repeat split; auto. }
  repeat wp_step_but_max.
  apply wp_np_max_size; intros Hy.
  { apply length_zero_iff_nil in Hy. simpl. repeat split; auto. }
  wp_steps. repeat split; reflexivity.
Qed.

(** The loop of [train_once]. *)
Lemma train_steps_frame (n : Z) (st : State) :
  wp (for_each (range n) (fun _ _ => train_step) tt)
    (fun r st' =>
       configuration (self st') = configuration (self st) /\
       _eval_env (self st') = _eval_env (self st) /\
       messages (log st') = messages (log st) /\
       record_keys (log st') = record_keys (log st) /\
       evaluation_iterations (log st') = evaluation_iterations (log st) /\
       forall e, r = Raise e -> e = ValueError) st.
Proof.
  pose (P := fun s : State =>
    configuration (self s) = configuration (self st) /\
    _eval_env (self s) = _eval_env (self st) /\
    messages (log s) = messages (log st) /\
    record_keys (log s) = record_keys (log st) /\
    evaluation_iterations (log s) = evaluation_iterations (log st)).
  eapply wp_mono.
  - apply (wp_range (fun _ _ => P) (fun e s => P s /\ e = ValueError)).
    + intros i l s _ (H1 & H2 & H3 & H4 & H5).
      eapply wp_mono; [apply train_step_frame |].
      intros r s' (G1 & G2 & G3 & G4 & G5 & Ge).
      assert (P s') as HP
        by (unfold P; rewrite G1, G2, G3, G4, G5; auto).
      destruct r as [[] | e]; [exact HP | split; [exact HP | auto]].
    + unfold P. auto 6.
  - intros [[] | e] st' H.
    + destruct H as (H1 & H2 & H3 & H4 & H5). repeat split; auto.
      discriminate.
    + destruct H as [(H1 & H2 & H3 & H4 & H5) ->]. repeat split; auto.
      intros e He. injection He as <-. reflexivity.
Qed.

(** [train_once], step by step. *)
Lemma train_once_run (itr : Z) (st : State) :
  let h := hyper (self st) in
  wp (train_once itr)
    (fun r st' =>
       configuration (self st') = configuration (self st) /\
       _eval_env (self st') = _eval_env (self st) /\
       evaluation_iterations (log st') = evaluation_iterations (log st) /\
       if _steps_per_epoch h =? 0 then
         r = Raise ZeroDivisionError /\ st' = st
       else
         match r with
         | Ok _ =>
             messages (log st') =
               (if itr mod _steps_per_epoch h =? 0
                then ["Training finished"%string] else [])
               ++ messages (log st) /\
             record_keys (log st') =
               (if (itr mod _steps_per_epoch h =? 0)
                   && (n_transitions_stored (replay_buffer (self st))
                       >=? _min_buffer_size h)
                then rev statistics_keys else [])
               ++ record_keys (log st)
         | Raise e => e = ValueError
         end) st.
Proof.
  cbv zeta. unfold train_once. wp_steps.
  destruct (_ =? 0) eqn:Hz; wp_steps; [auto |].
  eapply wp_mono;
    [apply wp_conj; [apply train_steps_frame | apply train_steps_raise] |].
  intros r st1 [(H1 & H2 & H3 & H4 & H5 & He) [(Hh & Hb & _) _]].
  destruct r as [[] | e]; [| auto].
  destruct (itr mod _ =? 0) eqn:Hm; wp_steps.
  - destruct (n_transitions_stored (replay_buffer (self st1)) >=? _) eqn:Hg;
      wp_steps.
    + eapply wp_mono; [apply record_statistics_keys |].
      intros r st2 (Hs & Hmsg & Hev & Hk). rewrite Hs.
      simpl in Hmsg, Hk, Hev.
      split; [exact H1 |]. split; [exact H2 |].
      split; [congruence |].
      rewrite Hh, Hb in Hg.
      destruct r as [[] | e].
      * rewrite Hg, Hmsg, Hk. simpl. rewrite H3, H4. auto.
      * destruct Hk as [-> _]. reflexivity.
    + rewrite Hh, Hb in Hg. rewrite Hg. simpl. rewrite H3, H4. auto.
  - simpl. rewrite H3, H4. auto.
Qed.

End TrainOnceFrame.

Section TrainOnceExtras.

(** X3: [train_once] changes nothing of the instance but the four
    accumulators, nothing of the runner, and calls neither the sampler, nor
    [add_episode_batch], nor the evaluation, whether it returns or
    raises. *)
Theorem train_once_frame `{C : Collaborators} (itr : Z) (st : State) :
  let st' := snd (train_once itr st) in
  configuration (self st') = configuration (self st) /\
  _eval_env (self st') = _eval_env (self st) /\
  replay_buffer (self st') = replay_buffer (self st) /\
  runner st' = runner st /\
  stores (log st') = stores (log st) /\
  samplings (log st') = samplings (log st) /\
  evaluations (log st') = evaluations (log st).
Proof.
  cbv zeta.
  pose proof (train_once_run itr st) as H1.
  pose proof (train_once_outside itr st) as H2.
  cbv zeta in H1. unfold wp in H1, H2.
  destruct H1 as (Hc & He & _ & _).
  destruct H2 as (_ & Hb & _ & Hr & Hst & Hsa & Hev).
  repeat split; assumption.
Qed.

(** X4: the exceptions of [train_once]. With [steps_per_epoch = 0] the
    division of line 325 raises [ZeroDivisionError] before anything is
    done; otherwise the only exception is the [ValueError] of numpy (the
    broadcasting of the target, [np.max] of an empty argument), and only
    on a buffer that holds at least [min_buffer_size] transitions. *)
Theorem train_once_exceptions `{C : Collaborators} (itr : Z) (st : State) :
  let h := hyper (self st) in
  match fst (train_once itr st) with
  | Ok _ => _steps_per_epoch h <> 0
  | Raise ZeroDivisionError =>
      _steps_per_epoch h = 0 /\ snd (train_once itr st) = st
  | Raise ValueError =>
      _steps_per_epoch h <> 0 /\
      _min_buffer_size h <= n_transitions_stored (replay_buffer (self st))
  | Raise TypeError => False
  end.
Proof.
  cbv zeta.
  pose proof (train_once_run itr st) as H1. cbv zeta in H1. unfold wp in H1.
  destruct H1 as (_ & _ & _ & H1).
  destruct (_steps_per_epoch (hyper (self st)) =? 0) eqn:Hz.
  - destruct H1 as [-> ->]. apply Z.eqb_eq in Hz. auto.
  - apply Z.eqb_neq in Hz.
    pose proof (train_once_raises_warm itr st Hz) as H2. unfold wp in H2.
    destruct (fst (train_once itr st)) as [u | e]; [exact Hz |].
    subst e. split; [exact Hz | eapply H2; reflexivity].
Qed.

(** X5: what [train_once] tells the logger when it returns. The message
    [Training finished] is logged when [itr % steps_per_epoch == 0], and
    only then; the nine statistics are recorded, in the order of lines
    342-354, when moreover the buffer holds at least [min_buffer_size]
    transitions, and only then. *)
Theorem train_once_logging `{C : Collaborators} (itr : Z) (st : State) :
  fst (train_once itr st) = Ok tt ->
  let st' := snd (train_once itr st) in
  let h := hyper (self st) in
  let logging := itr mod _steps_per_epoch h =? 0 in
  let warm :=
    n_transitions_stored (replay_buffer (self st)) >=? _min_buffer_size h in
  messages (log st') =
    (if logging then ["Training finished"%string] else [])
    ++ messages (log st) /\
  record_keys (log st') =
    (if logging && warm then rev statistics_keys else [])
    ++ record_keys (log st).
Proof.
  intros Hok. cbv zeta.
  pose proof (train_once_run itr st) as H1. cbv zeta in H1. unfold wp in H1.
  destruct H1 as (_ & _ & _ & H1). rewrite Hok in H1.
  destruct (_steps_per_epoch (hyper (self st)) =? 0);
    [destruct H1 as [H1 _]; discriminate H1 | exact H1].
Qed.

Lemma train_once_logging_witness :
  let st := Scenario.scaled_reward in
  fst (train_once 0 st) = Ok tt /\
  messages (log (snd (train_once 0 st))) = ["Training finished"%string] /\
  record_keys (log (snd (train_once 0 st))) = rev statistics_keys.
Proof.
  cbv zeta.
  assert (fst (train_once 0 Scenario.scaled_reward) = Ok tt) as Hok
    by (vm_compute; reflexivity).
  split; [exact Hok |].
  destruct (train_once_logging 0 Scenario.scaled_reward Hok) as [-> ->].
  by_computation.
Defined.

(** X6: [train_once] at a logging iteration, on a buffer that holds at
    least [min_buffer_size] transitions, with no training step to make
    ([n_train_steps <= 0]) and no Q-value accumulated: the message and
    the first four statistics are recorded, then [np.max] of the empty
    accumulator raises [ValueError]. *)
Theorem train_once_raises_without_steps `{C : Collaborators}
  (itr : Z) (st : State) :
  let h := hyper (self st) in
  _steps_per_epoch h <> 0 ->
  itr mod _steps_per_epoch h = 0 ->
  _n_train_steps h <= 0 ->
  _min_buffer_size h <= n_transitions_stored (replay_buffer (self st)) ->
  concat (_epoch_qs (self st)) = [] ->
  let st' := snd (train_once itr st) in
  fst (train_once itr st) = Raise ValueError /\
  self st' = self st /\
  messages (log st') = "Training finished"%string :: messages (log st) /\
  record_keys (log st') =
    rev (take 4 statistics_keys) ++ record_keys (log st).
Proof.
  cbv zeta. intros Hspe Hitr Hn Hwarm Hqs.
  assert (wp (train_once itr)
            (fun r st' =>
               r = Raise ValueError /\ self st' = self st /\
               messages (log st') =
                 "Training finished"%string :: messages (log st) /\
               record_keys (log st') =
                 rev (take 4 statistics_keys) ++ record_keys (log st)) st)
    as H; [| exact H].
  unfold train_once. wp_steps.
  apply Z.eqb_neq in Hspe. rewrite Hspe. wp_steps.
  unfold range. replace (Z.to_nat _) with O by lia. simpl for_each.
  wp_steps.
  apply Z.eqb_eq in Hitr. rewrite Hitr. wp_steps.
  apply Z.geb_le in Hwarm. rewrite Hwarm.
  unfold record_statistics. repeat wp_step_but_max.
  apply wp_np_max_size; [intros _ | intros Hne].
  - simpl. auto.
  - exfalso. apply Hne. simpl. rewrite Hqs. reflexivity.
Qed.

Lemma train_once_raises_without_steps_witness :
  let st := Cases.no_steps in
  _n_train_steps (hyper (self st)) = 0 /\
  fst (train_once 0 st) = Raise ValueError /\
  record_keys (log (snd (train_once 0 st))) = rev (take 4 statistics_keys) /\
  fst (train 1 st) = Raise ValueError.
Proof.
  cbv zeta. split; [reflexivity |].
  assert (_steps_per_epoch (hyper (self Cases.no_steps)) <> 0) as H1
    by (vm_compute; discriminate).
  assert (0 mod _steps_per_epoch (hyper (self Cases.no_steps)) = 0) as H2
    by (vm_compute; reflexivity).
  assert (_n_train_steps (hyper (self Cases.no_steps)) <= 0) as H3
    by (vm_compute; discriminate).
  assert (_min_buffer_size (hyper (self Cases.no_steps))
          <= n_transitions_stored (replay_buffer (self Cases.no_steps)))
    as H4 by (vm_compute; discriminate).
  assert (concat (_epoch_qs (self Cases.no_steps)) = []) as H5
    by (vm_compute; reflexivity).
  destruct (train_once_raises_without_steps 0 Cases.no_steps H1 H2 H3 H4 H5)
    as (-> & _ & _ & ->).
  by_computation.
Defined.

End TrainOnceExtras.

(** ** [train]: the cycles, one by one *)

Section Cycles.

Context `{C : Collaborators}.

(** A cycle: [P2] holds from the store to the evaluation, [Q] when the
    cycle ends, [E] where [train_once] raises. The evaluation runs in the
    first cycle of an epoch only. *)
Lemma cycle_body_at
  (P2 : State -> Prop) (Q : option (list float) -> State -> Prop)
  (E : exn -> State -> Prop)
  (cycle : Z) (lr : option (list float)) (st : State) :
  (* the sampling, with the acting policy of the iteration, and the store *)
  (let agent := acting_policy (self st) (step_itr (runner st)) in
   let o :=
     obtain_episodes (step_itr (runner st)) agent
       (total_env_steps (runner st)) (world st) in
   let a :=
     add_episode_batch (replay_buffer (self st)) (fst (fst o)) (mem st) in
   P2 (mk_State (set_replay_buffer (fst a) (self st))
         (set_step_path (fst (fst o)) (snd (fst o)) (runner st)) (snd a)
         (snd o)
         (AddEpisodeBatch (n_transitions_stored (fst a))
          :: ObtainEpisodes (step_itr (runner st))
               (total_env_steps (runner st)) agent
          :: log st))) ->
  (* the optimization *)
  (forall st2, P2 st2 ->
     wp (train_once (step_itr (runner st2)))
       (fun r st' => match r with Ok _ => P2 st' | Raise e => E e st' end)
       st2) ->
  (* the evaluation, behind its gate *)
  (forall st3 returns w,
     P2 st3 -> cycle = 0 ->
     _min_buffer_size (hyper (self st3))
       <= n_transitions_stored (replay_buffer (self st3)) ->
     Q (Some returns)
       (mk_State (self st3)
          (set_step_itr (step_itr (runner st3) + 1)
             (set_enable_logging true (runner st3)))
          (mem st3) w
          (EvaluationEpisodes (step_itr (runner st3)) returns :: log st3))) ->
  (* no evaluation *)
  (forall st3,
     P2 st3 ->
     cycle <> 0 \/
     n_transitions_stored (replay_buffer (self st3))
       < _min_buffer_size (hyper (self st3)) ->
     Q lr (set_runner (fun r => set_step_itr (step_itr r + 1) r) st3)) ->
  wp (cycle_body cycle lr)
    (fun r st' => match r with Ok lr' => Q lr' st' | Raise e => E e st' end)
    st.
Proof.
  intros Hcollect Htrain Heval Hskip.
  assert (forall st3, P2 st3 ->
    wp (stored <- stored_now ;;
        min_buffer_size <- attr _min_buffer_size ;;
        last_returns' <-
          (if (cycle =? 0) && (stored >=? min_buffer_size) then
             returns <- evaluate ;; ret (Some returns)
           else ret lr) ;;
        modify (set_runner (fun r => set_step_itr (step_itr r + 1) r)) ;;
        ret last_returns')%py
      (fun r st' => match r with Ok lr' => Q lr' st' | Raise e => E e st' end)
      st3) as Hrest.
  { intros st3 H3. wp_steps.
    destruct (cycle =? 0) eqn:Hc; simpl andb;
      [| wp_steps; apply Hskip;
         [exact H3 | left; apply Z.eqb_neq; exact Hc]].
    destruct (n_transitions_stored (replay_buffer (self st3)) >=? _) eqn:Hg;
      [| wp_steps; apply Hskip; [exact H3 | right]].
    - wp_steps. eapply wp_mono; [apply evaluate_run |].
      intros r st4 (returns & -> & Hs & Hr & Hm & Hl). wp_steps.
      unfold set_runner. rewrite Hs, Hm, Hl, Hr. cbn [step_itr set_enable_logging].
      apply Heval; [exact H3 | apply Z.eqb_eq; exact Hc |].
      apply Z.geb_le in Hg. exact Hg.
    - rewrite Z.geb_leb in Hg. apply Z.leb_gt in Hg. exact Hg. }
  cbv zeta in Hcollect. unfold acting_policy in Hcollect.
  unfold cycle_body. do 5 wp_train_step.
  destruct (step_itr _ >=? _) eqn:Hi; repeat wp_train_step;
    (destruct (total_env_steps _ >=? _) eqn:Ht;
     [ wp_steps; eapply wp_mono; [apply (Htrain _ Hcollect) |];
       intros [[] | e] st3 H3; [apply Hrest; exact H3 | exact H3]
     | apply wp_ret; apply Hrest; exact Hcollect ]).
Qed.

(** The two loops of [train], by epoch and cycle: [P e c] holds before
    the cycle [c] of the epoch [e]. *)
Lemma epochs_at
  (P : nat -> nat -> option (list float) -> State -> Prop)
  (E : exn -> State -> Prop) (n num_epochs : nat) (st : State) :
  (forall e c lr st,
     P e c lr st -> Z.to_nat (_steps_per_epoch (hyper (self st))) = n) ->
  (forall e c lr st, (e < num_epochs)%nat -> (c < n)%nat -> P e c lr st ->
     wp (cycle_body (Z.of_nat c) lr)
       (fun r st' =>
          match r with Ok lr' => P e (S c) lr' st' | Raise x => E x st' end)
       st) ->
  (forall e lr st, P e n lr st -> P (S e) O lr st) ->
  P O O None st ->
  wp (epochs num_epochs)
    (fun r st' =>
       match r with Ok lr => P num_epochs O lr st' | Raise x => E x st' end)
    st.
Proof.
  intros Hn Hcycle Hnext HP. unfold epochs, step_epochs.
  rewrite <- (map_id (seq 0 num_epochs)).
  apply (wp_for_each_seq (fun e => e) (fun e => P e O) E _ num_epochs 0);
    [| exact HP].
  intros e lr st1 He H1. wp_steps.
  eapply wp_mono; [apply (wp_range (fun c => P e c) E) |].
  - intros c lr2 st2 Hc H2. apply Hcycle; [lia | | exact H2].
    rewrite (Hn _ _ _ _ H1) in Hc. exact Hc.
  - exact H1.
  - intros [lr' | x] st' H; [| exact H].
    apply Hnext. rewrite (Hn _ _ _ _ H1) in H. exact H.
Qed.

End Cycles.

Section TrainRun.

Context `{C : Collaborators}.

(** [train], around its loops: the copy of the environment is taken
    when the instance has none, logging is disabled, the loops run, and
    the mean of the last returns is taken. *)
Lemma train_run (num_epochs : nat) (st : State) :
  let st0 :=
    set_runner (set_enable_logging false)
      match _eval_env (self st) with
      | Some _ => st
      | None =>
          set_self (set_eval_env (Some (fst (get_env_copy (world st)))))
            (set_world (snd (get_env_copy (world st))) st)
      end in
  train num_epochs st =
  (match fst (epochs num_epochs st0) with
   | Ok lr => np_mean_returns lr
   | Raise e => Raise e
   end,
   snd (epochs num_epochs st0)).
Proof.
  cbv zeta. unfold train, bind, gets, call, modify, lift, ret.
  destruct (_eval_env (self st)) as [env |]; simpl;
    match goal with
    | |- context [epochs num_epochs ?s] =>
        destruct (epochs num_epochs s) as [[lr | e] st']
    end; reflexivity.
Qed.

End TrainRun.

Section TrainCycles.

Context `{C : Collaborators}.

Lemma iterations_from_S (first : Z) (k : nat) :
  iterations_from first (S k) = (first + Z.of_nat k) :: iterations_from first k.
Proof.
  unfold iterations_from. rewrite seq_S, map_app, rev_app_distr. reflexivity.
Qed.

Lemma length_iterations_from (first : Z) (k : nat) :
  length (iterations_from first k) = k.
Proof.
  unfold iterations_from. rewrite length_rev, length_map, length_seq.
  reflexivity.
Qed.

Lemma epoch_starts_S (first spe : Z) (e : nat) :
  epoch_starts first spe (S e) =
  (first + Z.of_nat e * spe) :: epoch_starts first spe e.
Proof.
  unfold epoch_starts. rewrite seq_S, map_app, rev_app_distr. reflexivity.
Qed.

Lemma length_epoch_starts (first spe : Z) (e : nat) :
  length (epoch_starts first spe e) = e.
Proof.
  unfold epoch_starts. rewrite length_rev, length_map, length_seq.
  reflexivity.
Qed.

Lemma configuration_hyper (d d' : DDPG) :
  configuration d' = configuration d -> hyper d' = hyper d.
Proof. unfold configuration. intros H. congruence. Qed.

Lemma length_evaluation_iterations (l : list Event) :
  length (evaluation_iterations l) = length (evaluations l).
Proof.
  induction l as [|ev l IH]; [reflexivity |].
  destruct ev; simpl; congruence.
Qed.

(** The loops of [train], entered on an empty log with logging
    disabled. *)
Lemma epochs_cycles (num_epochs : nat) (st0 : State) :
  log st0 = [] -> enable_logging (runner st0) = false ->
  wp (epochs num_epochs)
    (fun r st' =>
       match r with
       | Ok lr => between_cycles st0 num_epochs O lr st'
       | Raise x =>
           x = ValueError /\
           exists e c lr,
             (e < num_epochs)%nat /\ within_cycle st0 e c lr st'
       end) st0.
Proof.
  intros Hlog Hen0.
  apply (epochs_at (between_cycles st0)
           (fun x s =>
              x = ValueError /\
              exists e c lr,
                (e < num_epochs)%nat /\ within_cycle st0 e c lr s)
           (Z.to_nat (_steps_per_epoch (hyper (self st0))))).
  - intros e c lr s (Hconf & _). apply configuration_hyper in Hconf.
    rewrite Hconf. reflexivity.
  - intros e c lr s He Hc (Hconf & Henv & Hitr & Hsi & Hst & Hsub & Hhd & Hen).
    apply (cycle_body_at (within_cycle st0 e c lr)).
    + cbv zeta. unfold within_cycle. cbn [self runner log].
      split; [exact Hc |].
      split; [exact Hconf |]. split; [exact Henv |]. split; [exact Hitr |].
      unfold sampled_iterations in *. simpl.
      rewrite Hsi, Hitr, Hst, iterations_from_S. auto.
    + intros st2 (_ & Gconf & Genv & Gitr & Gsi & Gst & Gsub & Ghd & Gen).
      eapply wp_mono;
        [apply wp_conj; [apply train_once_run | apply train_once_outside] |].
      cbv zeta.
      intros r st3 [(G1 & G2 & G3 & G4) (_ & _ & _ & O4 & O5 & O6 & O7)].
      assert (within_cycle st0 e c lr st3) as H3.
      { unfold within_cycle, sampled_iterations in *.
        rewrite G1, G2, G3, O4, O5, O6, O7. auto 10. }
      destruct r as [[] | x]; [exact H3 |].
      rewrite (configuration_hyper _ _ Gconf) in G4.
      destruct (_ =? 0) eqn:Hz; [apply Z.eqb_eq in Hz; lia |].
      split; [exact G4 | eauto].
    + intros st3 returns w
        (_ & Gconf & Genv & Gitr & Gsi & Gst & Gsub & Ghd & Gen) Hc0 _.
      assert (c = O) as -> by lia.
      unfold between_cycles, sampled_iterations in *. cbn [self runner log].
      cbn [step_itr set_step_itr set_enable_logging enable_logging].
      simpl samplings. simpl stores. simpl evaluations.
      simpl evaluation_iterations.
      replace (e + Nat.min 0 1)%nat with e in * by lia.
      replace (e + Nat.min 1 1)%nat with (S e) by lia.
      rewrite Nat.add_0_r in *.
      replace (e * Z.to_nat (_steps_per_epoch (hyper (self st0))) + 1)%nat
        with (S (e * Z.to_nat (_steps_per_epoch (hyper (self st0)))))
        by lia.
      split; [exact Gconf |]. split; [exact Genv |].
      split; [rewrite Gitr; lia |]. split; [exact Gsi |].
      split; [exact Gst |].
      split; [| split; reflexivity].
      rewrite epoch_starts_S, Gitr.
      replace (Z.of_nat (e * Z.to_nat (_steps_per_epoch (hyper (self st0)))))
        with (Z.of_nat e * _steps_per_epoch (hyper (self st0))) by lia.
      apply sublist_skip. exact Gsub.
    + intros st3 (_ & Gconf & Genv & Gitr & Gsi & Gst & Gsub & Ghd & Gen) _.
      unfold between_cycles, set_runner. cbn [self runner log].
      cbn [step_itr set_step_itr enable_logging].
      replace (e * Z.to_nat (_steps_per_epoch (hyper (self st0))) + S c)%nat
        with (S (e * Z.to_nat (_steps_per_epoch (hyper (self st0))) + c))
        by lia.
      split; [exact Gconf |]. split; [exact Genv |].
      split; [rewrite Gitr; lia |]. split; [exact Gsi |].
      split; [exact Gst |].
      split; [| split; assumption].
      replace (e + Nat.min (S c) 1)%nat with (S e) by lia.
      destruct c as [|c].
      * replace (e + Nat.min 0 1)%nat with e in Gsub by lia.
        rewrite epoch_starts_S. apply sublist_cons. exact Gsub.
      * replace (e + Nat.min (S c) 1)%nat with (S e) in Gsub by lia.
        exact Gsub.
  - intros e lr s (Hconf & Henv & Hitr & Hsi & Hst & Hsub & Hhd & Hen).
    unfold between_cycles.
    replace (S e * Z.to_nat (_steps_per_epoch (hyper (self st0))) + 0)%nat
      with (e * Z.to_nat (_steps_per_epoch (hyper (self st0)))
            + Z.to_nat (_steps_per_epoch (hyper (self st0))))%nat by lia.
    repeat split; try assumption.
    replace (S e + Nat.min 0 1)%nat with (S e) by lia.
    destruct (Z.to_nat (_steps_per_epoch (hyper (self st0)))) as [|n].
    + replace (e + Nat.min 0 1)%nat with e in Hsub by lia.
      rewrite epoch_starts_S. apply sublist_cons. exact Hsub.
    + replace (e + Nat.min (S n) 1)%nat with (S e) in Hsub by lia.
      exact Hsub.
  - unfold between_cycles, sampled_iterations. rewrite Hlog, Hen0. simpl.
    repeat split; try reflexivity; lia.
Qed.

End TrainCycles.

Section TrainSummary.

Context `{C : Collaborators}.

(** A run of [train] on an empty log, by its result. *)
Lemma train_cycles (num_epochs : nat) (st : State) :
  log st = [] ->
  exists st0,
    configuration (self st0) = configuration (self st) /\
    step_itr (runner st0) = step_itr (runner st) /\
    let st' := snd (train num_epochs st) in
    match fst (train num_epochs st) with
    | Ok v =>
        exists returns,
          between_cycles st0 num_epochs O (Some returns) st' /\
          v = np_mean returns
    | Raise TypeError => between_cycles st0 num_epochs O None st'
    | Raise ValueError =>
        (exists e c lr,
           (e < num_epochs)%nat /\ within_cycle st0 e c lr st') /\
        exists s,
          In s (stores (log st')) /\ _min_buffer_size (hyper (self st)) <= s
    | Raise ZeroDivisionError => False
    end.
Proof.
  intros Hlog. rewrite train_run. cbv zeta.
  match goal with
  | |- context [epochs num_epochs ?s] => set (st0 := s)
  end.
  assert (configuration (self st0) = configuration (self st) /\
          step_itr (runner st0) = step_itr (runner st) /\
          log st0 = [] /\ enable_logging (runner st0) = false)
    as (Hconf & Hitr & Hlog0 & Hen0).
  { unfold st0. destruct (_eval_env (self st)); simpl; auto. }
  exists st0. split; [exact Hconf |]. split; [exact Hitr |].
  pose proof (epochs_cycles num_epochs st0 Hlog0 Hen0) as H1.
  pose proof (epochs_raises_warm num_epochs st0) as H2.
  unfold wp in H1, H2. cbn [fst snd].
  destruct (fst (epochs num_epochs st0)) as [[returns |] | x]; simpl.
  - eauto.
  - exact H1.
  - destruct H1 as [-> H1]. split; [exact H1 |].
    rewrite <- (configuration_hyper _ _ Hconf). apply (H2 ValueError).
    reflexivity.
Qed.

End TrainSummary.

Section TrainExtras.

Lemma epoch_starts_sublist (first spe : Z) (m n : nat) :
  (m <= n)%nat -> sublist (epoch_starts first spe m) (epoch_starts first spe n).
Proof.
  induction 1 as [|n Hle IH]; [reflexivity |].
  rewrite epoch_starts_S. apply sublist_cons. exact IH.
Qed.

Lemma length_sampled_iterations `{C : Collaborators} (l : list Event)
  (first : Z) (k : nat) :
  sampled_iterations l = iterations_from first k ->
  length (samplings l) = k.
Proof.
  intros H. apply (f_equal length) in H.
  unfold sampled_iterations in H.
  rewrite length_map, length_iterations_from in H. exact H.
Qed.



(** X8: the evaluations of [train]. An evaluation runs in the first cycle
    of an epoch only: the iterations at which [log_performance] is called
    are among [first, first + steps_per_epoch, ...], one per epoch at
    most, where [first] is [runner.step_itr] when [train] is entered. *)
Theorem train_evaluation_cadence `{C : Collaborators}
  (num_epochs : nat) (st : State) :
  log st = [] ->
  let st' := snd (train num_epochs st) in
  sublist (evaluation_iterations (log st'))
    (epoch_starts (step_itr (runner st))
       (_steps_per_epoch (hyper (self st))) num_epochs) /\
  (length (evaluations (log st')) <= num_epochs)%nat.
Proof.
  intros Hlog. cbv zeta.
  destruct (train_cycles num_epochs st Hlog) as (st0 & Hconf & Hitr & H).
  cbv zeta in H.
  pose proof (configuration_hyper _ _ Hconf) as Hh.
  assert (sublist
            (evaluation_iterations (log (snd (train num_epochs st))))
            (epoch_starts (step_itr (runner st))
               (_steps_per_epoch (hyper (self st))) num_epochs)) as Hsub.
  { destruct (fst (train num_epochs st)) as [v | []].
    - destruct H as (returns & (_ & _ & _ & _ & _ & Gsub & _) & _).
      rewrite Hh, Hitr, Nat.add_0_r in Gsub. exact Gsub.
    - destruct H as (_ & _ & _ & _ & _ & Gsub & _).
      rewrite Hh, Hitr, Nat.add_0_r in Gsub. exact Gsub.
    - destruct H as [(e & c & lr & He & _ & _ & _ & _ & _ & _ & Gsub & _) _].
      rewrite Hh, Hitr in Gsub.
      etransitivity; [exact Gsub | apply epoch_starts_sublist; lia].
    - contradiction. }
  split; [exact Hsub |].
  apply sublist_length in Hsub.
  rewrite length_evaluation_iterations, length_epoch_starts in Hsub.
  exact Hsub.
Qed.

Lemma train_evaluation_cadence_witness :
  let st := Cases.late_warm_up in
  let st' := snd (train 2 st) in
  log st = [] /\
  stores (log st') = [4; 3; 2; 1] /\
  epoch_starts 0 2 2 = [2; 0] /\
  evaluation_iterations (log st') = [2] /\
  sublist (evaluation_iterations (log st')) [2; 0].
Proof.
  cbv zeta.
  assert (log Cases.late_warm_up = []) as Hlog by reflexivity.
  split; [exact Hlog |]. split; [vm_compute; reflexivity |].
  split; [reflexivity |]. split; [vm_compute; reflexivity |].
  exact (proj1 (train_evaluation_cadence 2 Cases.late_warm_up Hlog)).
Defined.

(** X9: [runner.enable_logging], which [train] sets to [False] when it is
    entered, is [True] when [train] ends if and only if an evaluation
    ran. *)
Theorem train_enable_logging `{C : Collaborators}
  (num_epochs : nat) (st : State) :
  log st = [] ->
  let st' := snd (train num_epochs st) in
  enable_logging (runner st') = true <-> evaluations (log st') <> [].
Proof.
  intros Hlog. cbv zeta.
  destruct (train_cycles num_epochs st Hlog) as (st0 & _ & _ & H).
  cbv zeta in H.
  assert (exists lr,
            head (evaluations (log (snd (train num_epochs st)))) = lr /\
            enable_logging (runner (snd (train num_epochs st)))
            = bool_decide (is_Some lr)) as (lr & Hhd & Hen).
  { destruct (fst (train num_epochs st)) as [v | []].
    - destruct H as (returns & (_ & _ & _ & _ & _ & _ & G1 & G2) & _). eauto.
    - destruct H as (_ & _ & _ & _ & _ & _ & G1 & G2). eauto.
    - destruct H as
        [(e & c & lr & _ & _ & _ & _ & _ & _ & _ & _ & G1 & G2) _]. eauto.
    - contradiction. }
  rewrite Hen.
  destruct (evaluations (log (snd (train num_epochs st)))) as [|r l];
    simpl in Hhd; subst lr; simpl; split; intros; congruence.
Qed.

Lemma train_enable_logging_witness :
  let st := Cases.late_warm_up in
  log st = [] /\
  enable_logging (runner (snd (train 1 st))) = false /\
  evaluations (log (snd (train 1 st))) = [] /\
  enable_logging (runner (snd (train 2 st))) = true.
Proof.
  cbv zeta.
  assert (log Cases.late_warm_up = []) as Hlog by reflexivity.
  split; [exact Hlog |]. split; [vm_compute; reflexivity |].
  split; [vm_compute; reflexivity |].
  apply (train_enable_logging 2 Cases.late_warm_up Hlog).
  vm_compute. discriminate.
Defined.



End TrainExtras.

Section TrainConfiguration.

Context `{C : Collaborators}.

(** The loops of [train] leave the instance but for the accumulators and
    the replay buffer. *)
Lemma epochs_configuration (num_epochs : nat) (st : State) :
  wp (epochs num_epochs)
    (fun _ st' =>
       configuration (self st') = configuration (self st) /\
       _eval_env (self st') = _eval_env (self st)) st.
Proof.
  set (P := fun s : State =>
              configuration (self s) = configuration (self st) /\
              _eval_env (self s) = _eval_env (self st)).
  eapply wp_mono.
  - apply (epochs_keeps (fun _ => P) P); [| split; reflexivity].
    intros cycle lr st1 H1.
    apply (cycle_body_keeps (fun _ => P) P P); [exact H1 | | | |].
    + intros st2 H2. exact H2.
    + intros itr st2 [H2 H2'].
      eapply wp_mono; [apply train_once_run |].
      cbv zeta. intros r st3 (G1 & G2 & _).
      assert (P st3) as H3 by (unfold P; rewrite G1, G2; auto).
      destruct r; exact H3.
    + intros st2 returns r w H2 _. exact H2.
    + intros st2 r H2. exact H2.
  - intros [lr | e] st' H; exact H.
Qed.

(** Without epochs, or without cycles in an epoch, the loops do
    nothing. *)
Lemma epochs_empty (num_epochs : nat) (st : State) :
  num_epochs = O \/ _steps_per_epoch (hyper (self st)) <= 0 ->
  epochs num_epochs st = (Ok None, st).
Proof.
  intros [-> | Hspe]; [reflexivity |].
  unfold epochs, step_epochs.
  assert (range (_steps_per_epoch (hyper (self st))) = []) as Hr.
  { unfold range. replace (Z.to_nat _) with O by lia. reflexivity. }
  induction (seq 0 num_epochs) as [|x xs IH]; [reflexivity |].
  simpl. unfold bind at 1. unfold bind at 1. unfold attr, gets.
  rewrite Hr. simpl. exact IH.
Qed.

End TrainConfiguration.

Section TrainFrameExtras.

(** X10: [train] changes nothing of the instance but the four
    accumulators, the replay buffer and the evaluation environment: the
    hyperparameters, the networks and the exploration policy are those it
    was entered with. The evaluation environment is the one the instance
    had, or else the copy taken from the runner when [train] is
    entered. *)
Theorem train_keeps_configuration `{C : Collaborators}
  (num_epochs : nat) (st : State) :
  let st' := snd (train num_epochs st) in
  configuration (self st') = configuration (self st) /\
  _eval_env (self st') =
    Some match _eval_env (self st) with
         | Some env => env
         | None => fst (get_env_copy (world st))
         end.
Proof.
  cbv zeta. rewrite train_run. cbv zeta. cbn [snd].
  match goal with
  | |- context [epochs num_epochs ?s] =>
      pose proof (epochs_configuration num_epochs s) as [H1 H2]
  end.
  rewrite H1, H2. destruct (_eval_env (self st)) as [env |] eqn:He; simpl.
  - auto.
  - auto.
Qed.

(** X12: [train] over no epoch, or with [steps_per_epoch <= 0], calls
    neither the sampler nor the buffer, leaves [runner.step_itr] as it
    is, and raises [TypeError]. *)
Theorem train_empty_run `{C : Collaborators} (num_epochs : nat) (st : State) :
  num_epochs = O \/ _steps_per_epoch (hyper (self st)) <= 0 ->
  let st' := snd (train num_epochs st) in
  fst (train num_epochs st) = Raise TypeError /\
  log st' = log st /\
  mem st' = mem st /\
  replay_buffer (self st') = replay_buffer (self st) /\
  runner st' = set_enable_logging false (runner st).
Proof.
  intros H. cbv zeta. rewrite train_run. cbv zeta.
  rewrite epochs_empty.
  - simpl. destruct (_eval_env (self st)); simpl; auto.
  - destruct H as [H | H]; [left; exact H | right].
    destruct (_eval_env (self st)); exact H.
Qed.

Lemma train_empty_run_witness :
  let st := Scenario.warm in
  fst (train 0 st) = Raise TypeError /\
  samplings (log (snd (train 0 st))) = [] /\
  step_itr (runner (snd (train 0 st))) = 0.
Proof.
  cbv zeta.
  destruct (train_empty_run 0 Scenario.warm (or_introl eq_refl))
    as (-> & -> & _ & _ & ->).
  by_computation.
Defined.

End TrainFrameExtras.

Section UpdatesTogether.

Context `{C : Collaborators}.

Lemma train_step_updates_together (st : State) :
  length (qf_updates (log st)) = target_updates (log st) /\
  length (policy_updates (log st)) = target_updates (log st) ->
  wp train_step
    (fun _ st' =>
       length (qf_updates (log st')) = target_updates (log st') /\
       length (policy_updates (log st')) = target_updates (log st')) st.
Proof.
  intros [Hq Hp]. unfold train_step. wp_steps.
  destruct (_ >=? _); [| wp_steps; auto].
  apply wp_bind. eapply wp_mono; [apply optimize_policy_run |].
  cbv zeta. intros r st' (_ & _ & _ & H).
  destruct r as [[[[ql ys] qv] al] | e]; wp_steps;
    destruct H as [_ ->]; simpl; auto.
Qed.

Lemma epochs_updates_together (num_epochs : nat) (st : State) :
  length (qf_updates (log st)) = target_updates (log st) /\
  length (policy_updates (log st)) = target_updates (log st) ->
  wp (epochs num_epochs)
    (fun _ st' =>
       length (qf_updates (log st')) = target_updates (log st') /\
       length (policy_updates (log st')) = target_updates (log st')) st.
Proof.
  intros H0.
  set (P := fun s : State =>
              length (qf_updates (log s)) = target_updates (log s) /\
              length (policy_updates (log s)) = target_updates (log s)).
  eapply wp_mono.
  - apply (epochs_keeps (fun _ => P) P); [| exact H0].
    intros cycle lr st1 H1.
    apply (cycle_body_keeps (fun _ => P) P P); [exact H1 | | | |].
    + intros st2 H2. exact H2.
    + intros itr st2 H2.
      eapply wp_mono.
      * apply (train_once_keeps P); [| | | exact H2].
        -- intros s Hs. apply train_step_updates_together. exact Hs.
        -- intros s msg Hs. exact Hs.
        -- intros s Hs. unfold record_statistics. wp_steps; exact Hs.
      * intros [[] | e] st3 H3; exact H3.
    + intros st2 returns r w H2 _. exact H2.
    + intros st2 r H2. exact H2.
  - intros [lr | e] st' H; exact H.
Qed.

End UpdatesTogether.

Section UpdatesExtras.

(** X13: the Q-function, the policy and the target networks are updated
    together: after any run of [train], whether it returns or raises,
    [f_train_qf], [f_train_policy] and [f_update_target] have been called
    the same number of times, at most once per call of
    [optimize_policy]. *)
Theorem train_updates_together `{C : Collaborators}
  (num_epochs : nat) (st : State) :
  log st = [] ->
  let st' := snd (train num_epochs st) in
  length (qf_updates (log st')) = target_updates (log st') /\
  length (policy_updates (log st')) = target_updates (log st') /\
  (target_updates (log st') <= length (optimize_calls (log st')))%nat.
Proof.
  intros Hlog. cbv zeta.
  pose proof (train_gated num_epochs st) as Hg. unfold wp in Hg.
  rewrite Hlog in Hg. specialize (Hg (gated_nil _ _)).
  destruct Hg as (_ & _ & Hq & _).
  rewrite train_run in *. cbv zeta in *. cbn [snd] in *.
  match goal with
  | |- context [epochs num_epochs ?s] =>
      pose proof (epochs_updates_together num_epochs s) as H
  end.
  unfold wp in H.
  destruct H as [H1 H2].
  { destruct (_eval_env (self st)); simpl; rewrite Hlog; auto. }
  split; [exact H1 |]. split; [exact H2 |]. rewrite <- H1. exact Hq.
Qed.

Lemma train_updates_together_witness :
  let st := Scenario.two_epochs in
  let st' := snd (train 2 st) in
  log st = [] /\
  length (qf_updates (log st')) = 2%nat /\
  length (policy_updates (log st')) = 2%nat /\
  target_updates (log st') = 2%nat.
Proof.
  cbv zeta.
  assert (log Scenario.two_epochs = []) as Hlog by reflexivity.
  destruct (train_updates_together 2 Scenario.two_epochs Hlog)
    as (H1 & H2 & _).
  rewrite H1, H2. by_computation.
Defined.

End UpdatesExtras.

(** ** The attributes of an instance, and its pickled state *)

Section Pickle.

Context `{O : Instance.Objects}.

Local Open Scope string_scope.

Lemma getstate_returns (d : Instance.dict) :
  (forall k, k ∈ Instance.compiled_functions -> is_Some (d !! k)) ->
  exists s,
    Instance.__getstate__ d = (Instance.Returns s, d) /\
    forall k,
      s !! k =
      if bool_decide (k ∈ Instance.compiled_functions) then None
      else d !! k.
Proof.
  intros H.
  assert (forall k, k ∈ Instance.compiled_functions -> exists v, d !! k = Some v)
    as H' by (intros k Hk; destruct (H k Hk) as [v Hv]; eauto).
  unfold Instance.compiled_functions in H'.
  destruct (H' "target_policy_f_prob_online") as [v1 H1]; [repeat constructor |].
  destruct (H' "target_qf_f_prob_online") as [v2 H2]; [repeat constructor |].
  destruct (H' "f_train_policy") as [v3 H3]; [repeat constructor |].
  destruct (H' "f_train_qf") as [v4 H4]; [repeat constructor |].
  destruct (H' "f_init_target") as [v5 H5]; [repeat constructor |].
  destruct (H' "f_update_target") as [v6 H6]; [repeat constructor |].
  eexists. split.
  - unfold Instance.__getstate__, Instance.bind, Instance.copy_dict,
      Instance.del, Instance.ret.
    rewrite H1. simpl. rewrite lookup_delete_ne, H2 by done. simpl.
    rewrite !lookup_delete_ne, H3 by done. simpl.
    rewrite !lookup_delete_ne, H4 by done. simpl.
    rewrite !lookup_delete_ne, H5 by done. simpl.
    rewrite !lookup_delete_ne, H6 by done. simpl.
    reflexivity.
  - intros k. unfold Instance.compiled_functions.
    case_bool_decide as Hk.
    + rewrite !elem_of_cons, elem_of_nil in Hk.
      destruct Hk as [-> | [-> | [-> | [-> | [-> | [-> | []]]]]]];
        by simplify_map_eq.
    + rewrite !lookup_delete_ne; [reflexivity | ..];
        intros <-; apply Hk; repeat constructor.
Qed.

Lemma getstate_raises (d : Instance.dict) :
  ~ (forall k, k ∈ Instance.compiled_functions -> is_Some (d !! k)) ->
  exists k,
    Instance.__getstate__ d = (Instance.Raises (Instance.KeyError k), d) /\
    k ∈ Instance.compiled_functions /\ d !! k = None.
Proof.
  intros Hmissing.
  unfold Instance.__getstate__, Instance.bind, Instance.copy_dict,
    Instance.del, Instance.ret, Instance.compiled_functions in *.
  destruct (d !! "target_policy_f_prob_online") eqn:H1; simpl;
    [| eexists; split; [reflexivity | split; [repeat constructor | done]]].
  rewrite lookup_delete_ne by done.
  destruct (d !! "target_qf_f_prob_online") eqn:H2; simpl;
    [| eexists; split; [reflexivity | split; [repeat constructor | done]]].
  rewrite !lookup_delete_ne by done.
  destruct (d !! "f_train_policy") eqn:H3; simpl;
    [| eexists; split; [reflexivity | split; [repeat constructor | done]]].
  rewrite !lookup_delete_ne by done.
  destruct (d !! "f_train_qf") eqn:H4; simpl;
    [| eexists; split; [reflexivity | split; [repeat constructor | done]]].
  rewrite !lookup_delete_ne by done.
  destruct (d !! "f_init_target") eqn:H5; simpl;
    [| eexists; split; [reflexivity | split; [repeat constructor | done]]].
  rewrite !lookup_delete_ne by done.
  destruct (d !! "f_update_target") eqn:H6; simpl;
    [| eexists; split; [reflexivity | split; [repeat constructor | done]]].
  exfalso. apply Hmissing. intros k Hk.
  rewrite !elem_of_cons, elem_of_nil in Hk.
  destruct Hk as [-> | [-> | [-> | [-> | [-> | [-> | []]]]]]]; eauto.
Qed.

Lemma init_opt_returns (d : Instance.dict) :
  (forall k, k ∈ Instance.init_opt_reads -> is_Some (d !! k)) ->
  exists d',
    Instance.init_opt d = (Instance.Returns tt, d') /\
    (forall k, k ∈ Instance.compiled_functions -> is_Some (d' !! k)) /\
    (forall k, k ∉ Instance.compiled_functions -> d' !! k = d !! k).
Proof.
  intros H.
  assert (forall k, k ∈ Instance.init_opt_reads -> exists v, d !! k = Some v)
    as H' by (intros k Hk; destruct (H k Hk) as [v Hv]; eauto).
  unfold Instance.init_opt_reads in H'.
  destruct (H' "_name") as [v1 H1]; [repeat constructor |].
  destruct (H' "_obs_dim") as [v2 H2]; [repeat constructor |].
  destruct (H' "_act_dim") as [v3 H3]; [repeat constructor |].
  destruct (H' "_target_policy") as [v4 H4]; [repeat constructor |].
  destruct (H' "_target_qf") as [v5 H5]; [repeat constructor |].
  destruct (H' "policy") as [v6 H6]; [repeat constructor |].
  destruct (H' "_tau") as [v7 H7]; [repeat constructor |].
  destruct (H' "_qf") as [v8 H8]; [repeat constructor |].
  destruct (H' "_policy_weight_decay") as [v9 H9]; [repeat constructor |].
  destruct (H' "_policy_optimizer") as [v10 H10]; [repeat constructor |].
  destruct (H' "_policy_lr") as [v11 H11]; [repeat constructor |].
  destruct (H' "_qf_weight_decay") as [v12 H12]; [repeat constructor |].
  destruct (H' "_qf_optimizer") as [v13 H13]; [repeat constructor |].
  destruct (H' "_qf_lr") as [v14 H14]; [repeat constructor |].
  eexists. split; [| split].
  - unfold Instance.init_opt, Instance.bind, Instance.getattr,
      Instance.setattr.
    repeat (progress
              (simpl; rewrite ?lookup_insert_ne by done;
               rewrite ?H1, ?H2, ?H3, ?H4, ?H5, ?H6, ?H7, ?H8, ?H9, ?H10,
                 ?H11, ?H12, ?H13, ?H14)).
    reflexivity.
  - intros k Hk. unfold Instance.compiled_functions in Hk.
    rewrite !elem_of_cons, elem_of_nil in Hk.
    destruct Hk as [-> | [-> | [-> | [-> | [-> | [-> | []]]]]]];
      by simplify_map_eq.
  - intros k Hk. unfold Instance.compiled_functions in Hk.
    rewrite !lookup_insert_ne; [reflexivity | ..];
      intros <-; apply Hk; repeat constructor.
Qed.

Lemma init_opt_raises (d : Instance.dict) :
  ~ (forall k, k ∈ Instance.init_opt_reads -> is_Some (d !! k)) ->
  exists name,
    fst (Instance.init_opt d) = Instance.Raises (Instance.AttributeError name)
    /\ name ∈ Instance.init_opt_reads /\ d !! name = None /\
    forall k,
      k ∉ Instance.compiled_functions ->
      snd (Instance.init_opt d) !! k = d !! k.
Proof.
  intros Hmissing.
  unfold Instance.init_opt, Instance.bind, Instance.getattr,
    Instance.setattr, Instance.init_opt_reads,
    Instance.compiled_functions in *.
  repeat
    (repeat
       (progress
          (simpl; rewrite ?lookup_insert_ne by done;
           repeat match goal with
                  | H : d !! _ = Some _ |- _ => progress rewrite H
                  end));
     match goal with
     | |- context [d !! ?k] =>
         destruct (d !! k) eqn:?;
         [| eexists; split; [reflexivity |];
            split; [repeat constructor |];
            split; [assumption |];
            let k' := fresh in
            let Hk := fresh in
            intros k' Hk; simpl;
            rewrite ?lookup_insert_ne; [reflexivity | ..];
            intros <-; apply Hk; repeat constructor]
     end).
  exfalso. apply Hmissing. intros k Hk.
  rewrite !elem_of_cons, elem_of_nil in Hk.
  repeat destruct Hk as [-> | Hk]; [eauto .. | destruct Hk].
Qed.

Lemma reads_not_compiled (k : string) :
  k ∈ Instance.init_opt_reads -> k ∉ Instance.compiled_functions.
Proof.
  revert k. apply Forall_forall. apply (bool_decide_unpack _).
  vm_compute. exact I.
Qed.

Lemma init_attributes_not_compiled (k : string) :
  k ∈ Instance.init_attributes -> k ∉ Instance.compiled_functions.
Proof.
  revert k. apply Forall_forall. apply (bool_decide_unpack _).
  vm_compute. exact I.
Qed.

Lemma reads_are_init_attributes (k : string) :
  k ∈ Instance.init_opt_reads -> k ∈ Instance.init_attributes.
Proof.
  revert k. apply Forall_forall. apply (bool_decide_unpack _).
  vm_compute. exact I.
Qed.

(** The constructor: the thirty-nine assignments, then [init_opt]. *)
Lemma init_builds (arg : string -> Instance.object) :
  exists d0 : Instance.dict,
    Instance.__init__ arg ∅ = Instance.init_opt d0 /\
    dom d0 = list_to_set (rev Instance.init_attributes) /\
    d0 !! "worker_cls" = Some Instance.FragmentWorker.
Proof.
  eexists. split; [| split].
  - unfold Instance.__init__, Instance.bind, Instance.setattr,
      Instance.getattr.
    cbn [fst snd].
    rewrite !lookup_insert_ne by done.
    rewrite !lookup_insert_eq.
    reflexivity.
  - rewrite !dom_insert_L, dom_empty_L. reflexivity.
  - apply lookup_insert_eq.
Qed.

Lemma list_to_set_rev (l : list string) :
  list_to_set (rev l) =@{gset string} list_to_set l.
Proof.
  apply set_eq. intros k. rewrite !elem_of_list_to_set.
  rewrite !list_elem_of_In. symmetry. apply in_rev.
Qed.

(** Pickling, then restoring into a new object. *)
Lemma round_trip (self : Instance.dict) :
  (forall k, k ∈ Instance.compiled_functions -> is_Some (self !! k)) ->
  (forall k, k ∈ Instance.init_opt_reads -> is_Some (self !! k)) ->
  exists state restored,
    Instance.__getstate__ self = (Instance.Returns state, self) /\
    Instance.__setstate__ state ∅ = (Instance.Returns tt, restored) /\
    (forall k,
       state !! k =
       if bool_decide (k ∈ Instance.compiled_functions) then None
       else self !! k) /\
    (forall k, k ∈ Instance.compiled_functions -> is_Some (restored !! k)) /\
    (forall k, k ∉ Instance.compiled_functions -> restored !! k = self !! k).
Proof.
  intros Hc Hr.
  destruct (getstate_returns self Hc) as (s & Hget & Hs).
  assert (forall k, k ∈ Instance.init_opt_reads -> is_Some ((s ∪ ∅) !! k))
    as Hr'.
  { intros k Hk. rewrite (right_id_L ∅ (∪)), Hs.
    rewrite bool_decide_eq_false_2 by (apply reads_not_compiled; exact Hk).
    apply Hr. exact Hk. }
  destruct (init_opt_returns _ Hr') as (d' & Hset & Hc' & Hk').
  exists s, d'. split; [exact Hget |]. split; [exact Hset |].
  split; [exact Hs |]. split; [exact Hc' |].
  intros k Hk. rewrite (Hk' k Hk), (right_id_L ∅ (∪)), Hs.
  rewrite bool_decide_eq_false_2 by exact Hk. reflexivity.
Qed.

End Pickle.

Section PickleExtras.

Local Open Scope string_scope.

(** X14: [__getstate__] returns the attributes of the instance without
    the six compiled functions, every other attribute with its value,
    and leaves the instance as it is; it raises [KeyError] when one of
    the six is not an attribute of the instance. *)
Theorem getstate_drops_compiled_functions `{O : Instance.Objects}
  (self : Instance.dict) :
  snd (Instance.__getstate__ self) = self /\
  match fst (Instance.__getstate__ self) with
  | Instance.Returns data =>
      (forall k, k ∈ Instance.compiled_functions -> is_Some (self !! k)) /\
      forall k,
        data !! k =
        if bool_decide (k ∈ Instance.compiled_functions) then None
        else self !! k
  | Instance.Raises (Instance.KeyError key) =>
      key ∈ Instance.compiled_functions /\ self !! key = None
  | Instance.Raises (Instance.AttributeError _) => False
  end.
Proof.
  destruct (decide (Forall (fun k => is_Some (self !! k))
                      Instance.compiled_functions)) as [Hall | Hmissing].
  - rewrite Forall_forall in Hall.
    destruct (getstate_returns self Hall) as (s & -> & Hs). simpl. auto.
  - rewrite Forall_forall in Hmissing.
    destruct (getstate_raises self Hmissing) as (k & -> & Hk & Hnone).
    simpl. auto.
Qed.





End PickleExtras.

(** ** The trainer *)

Section TrainerFacts.

Context `{T : Trainer.TensorFlow}.

(** Between two steps of the program: the session has been left no more
    often than entered, and it is entered and not left when
    [sess_entered] holds. *)
Lemma step_balanced (p : Trainer.Process) (s : Trainer.Step) (n : nat) :
  Trainer.depth (Trainer.session_calls p) = Some n ->
  (Trainer.sess_entered (Trainer.trainer p) = true -> (0 < n)%nat) ->
  exists n',
    Trainer.depth (Trainer.session_calls (Trainer.step p s)) = Some n' /\
    (Trainer.sess_entered (Trainer.trainer (Trainer.step p s)) = true ->
     (0 < n')%nat) /\
    Trainer.sess (Trainer.trainer (Trainer.step p s))
    = Trainer.sess (Trainer.trainer p).
Proof.
  intros Hd Hn. destruct s as [| | f]; simpl.
  - unfold Trainer.__enter__. case_bool_decide; simpl.
    + rewrite Hd. simpl. exists (S n). split; [reflexivity |].
      split; [lia | reflexivity].
    + eauto.
  - unfold Trainer.__exit__.
    destruct (bool_decide _ && Trainer.sess_entered _) eqn:Hc; simpl.
    + apply andb_true_iff in Hc as [_ Hc]. specialize (Hn Hc).
      rewrite Hd. destruct n as [|n]; [lia |].
      exists n. split; [reflexivity |]. split; [discriminate | reflexivity].
    + eauto.
  - eauto.
Qed.

Lemma steps_balanced (l : list Trainer.Step) :
  forall (p : Trainer.Process) (n : nat),
    Trainer.depth (Trainer.session_calls p) = Some n ->
    (Trainer.sess_entered (Trainer.trainer p) = true -> (0 < n)%nat) ->
    exists n',
      Trainer.depth (Trainer.session_calls (Trainer.steps p l)) = Some n' /\
      (Trainer.sess_entered (Trainer.trainer (Trainer.steps p l)) = true ->
       (0 < n')%nat) /\
      Trainer.sess (Trainer.trainer (Trainer.steps p l))
      = Trainer.sess (Trainer.trainer p).
Proof.
  induction l as [|s l IH]; intros p n Hd Hn; simpl.
  - eauto.
  - destruct (step_balanced p s n Hd Hn) as (n1 & Hd1 & Hn1 & Hs1).
    destruct (IH _ n1 Hd1 Hn1) as (n2 & Hd2 & Hn2 & Hs2).
    exists n2. split; [exact Hd2 |]. split; [exact Hn2 | congruence].
Qed.

Lemma before_colon_app (name index : string) :
  ~ In ":"%char (list_ascii_of_string name) ->
  Trainer.before_colon (name ++ ":" ++ index) = name.
Proof.
  induction name as [|c name IH]; simpl; intros Hc.
  - reflexivity.
  - destruct (Ascii.eqb c ":") eqn:Hcc.
    + apply Ascii.eqb_eq in Hcc. exfalso. apply Hc. left. exact Hcc.
    + f_equal. apply IH. intros Hin. apply Hc. right. exact Hin.
Qed.

End TrainerFacts.

Section TrainerExtras.

Local Open Scope string_scope.

(** X18: the worker class of [make_sampler]. For a DDPG instance as
    [__init__] leaves it, a call without [worker_class] hands
    [TFWorkerClassWrapper(FragmentWorker)] to [Trainer.make_sampler]; for
    an algorithm without the attribute [worker_cls] it hands
    [TFWorkerClassWrapper(DefaultWorker)]; a class given by the caller is
    wrapped as well. *)
Theorem make_sampler_worker_class `{W : Trainer.Workers}
  (arg : string -> Instance.object) (other : Instance.dict)
  (sampler_cls seed n_workers max_episode_length worker_class sampler_args
     worker_args : Instance.object) :
  let ddpg := snd (Instance.__init__ arg ∅) in
  Trainer.worker_class
    (Trainer.make_sampler ddpg sampler_cls seed n_workers max_episode_length
       worker_class sampler_args worker_args)
  = Trainer.TFWorkerClassWrapper
      (if Instance.is_none worker_class then Instance.FragmentWorker
       else worker_class) /\
  Trainer.worker_class
    (Trainer.make_sampler (delete "worker_cls" other) sampler_cls seed
       n_workers max_episode_length worker_class sampler_args worker_args)
  = Trainer.TFWorkerClassWrapper
      (if Instance.is_none worker_class then Trainer.DefaultWorker
       else worker_class).
Proof.
  cbv zeta. unfold Trainer.make_sampler, Trainer.getattr_default.
  cbn [Trainer.worker_class].
  rewrite lookup_delete_eq. split; [| reflexivity].
  destruct (init_builds arg) as (d0 & -> & Hdom & Hw).
  assert (forall k, k ∈ Instance.init_opt_reads -> is_Some (d0 !! k)) as Hr.
  { intros k Hk. rewrite <- elem_of_dom, Hdom, list_to_set_rev.
    apply elem_of_list_to_set, reads_are_init_attributes, Hk. }
  destruct (init_opt_returns d0 Hr) as (self & -> & _ & Hk).
  cbn [snd]. rewrite Hk, Hw; [reflexivity |].
  apply init_attributes_not_compiled.
  apply (bool_decide_unpack _). vm_compute. exact I.
Qed.

(** X19: whatever the program does, entering and leaving the trainer in
    any order and changing the default session in between, the trainer
    never leaves its session more often than it has entered it, it holds
    [sess_entered] only while the session is entered and not left, and
    it keeps the session it was made with. *)
Theorem trainer_session_balanced `{T : Trainer.TensorFlow}
  (sess : option Trainer.Session) (tf : Trainer.Tf)
  (l : list Trainer.Step) :
  let p0 := Trainer.__init__ sess tf in
  let p := Trainer.steps p0 l in
  exists n,
    Trainer.depth (Trainer.session_calls p) = Some n /\
    (Trainer.sess_entered (Trainer.trainer p) = true -> (0 < n)%nat) /\
    Trainer.sess (Trainer.trainer p) = Trainer.sess (Trainer.trainer p0).
Proof.
  cbv zeta. apply (steps_balanced l _ O).
  - unfold Trainer.__init__.
    destruct sess as [s |]; [| destruct (Trainer.new_session tf)];
      reflexivity.
  - unfold Trainer.__init__.
    destruct sess as [s |]; [| destruct (Trainer.new_session tf)];
      simpl; discriminate.
Qed.

(** X20: the trainer as a context manager. Where entering a session
    makes it the default one and leaving it gives the default session
    back, the session of the trainer is the default one inside the block,
    and after the block the default session is the one from before and
    [sess_entered] is false again: also when the session of the trainer
    was the default one already, in which case the trainer neither
    enters nor leaves it. *)
Theorem trainer_with_block `{T : Trainer.TensorFlow} (p : Trainer.Process) :
  (forall s tf,
     Trainer.get_default_session (Trainer.session_enter s tf) = Some s) ->
  (forall s tf,
     Trainer.get_default_session
       (Trainer.session_exit s (Trainer.session_enter s tf))
     = Trainer.get_default_session tf) ->
  Trainer.sess_entered (Trainer.trainer p) = false ->
  let inside := Trainer.__enter__ p in
  let after := Trainer.__exit__ inside in
  Trainer.get_default_session (Trainer.tf inside)
    = Some (Trainer.sess (Trainer.trainer p)) /\
  Trainer.get_default_session (Trainer.tf after)
    = Trainer.get_default_session (Trainer.tf p) /\
  Trainer.trainer after = Trainer.trainer p /\
  (Trainer.get_default_session (Trainer.tf p)
     = Some (Trainer.sess (Trainer.trainer p)) ->
   after = p).
Proof.
  intros Henter Hexit Hflag. cbv zeta.
  unfold Trainer.__enter__.
  destruct p as [[s entered] tf calls]. simpl in *. subst entered.
  case_bool_decide as Hdefault; unfold Trainer.__exit__; simpl.
  - rewrite Henter. rewrite bool_decide_eq_true_2 by reflexivity. simpl.
    rewrite Hexit. repeat split; auto. intros H. contradiction.
  - rewrite andb_false_r. simpl.
    destruct (option_eq_dec (dec := Trainer.Session_eq_dec)
                (Trainer.get_default_session tf) (Some s)) as [Heq | Hne];
      [auto | contradiction].
Qed.

Lemma trainer_with_block_witness :
  let p :=
    Trainer.__init__ (T := Stubs.tensorflow) (Some 7%nat)
      (Stubs.mk_runtime [3%nat] []) in
  Trainer.get_default_session (Trainer.tf (Trainer.__enter__ p)) = Some 7%nat
  /\
  Trainer.get_default_session
    (Trainer.tf (Trainer.__exit__ (Trainer.__enter__ p))) = Some 3%nat.
Proof.
  cbv zeta.
  destruct (trainer_with_block (T := Stubs.tensorflow)
              (Trainer.__init__ (T := Stubs.tensorflow) (Some 7%nat)
                 (Stubs.mk_runtime [3%nat] [])))
    as (H1 & H2 & _).
  - intros s tf. reflexivity.
  - intros s tf. reflexivity.
  - reflexivity.
  - split; [exact H1 | exact H2].
Defined.

(** X21: the variables [initialize_tf_vars] initializes. Where the name
    of each global variable is the name of its operation, which holds no
    colon, followed by a colon and an index, the variables given to
    [variables_initializer] are the global variables whose operation is
    reported as not initialized, and no other. *)
Theorem initialize_tf_vars_selects `{T : Trainer.TensorFlow}
  (p : Trainer.Process) (op : Trainer.TfVariable -> string) :
  (forall v,
     In v (Trainer.global_variables (Trainer.tf p)) ->
     ~ In ":"%char (list_ascii_of_string (op v)) /\
     exists index, Trainer.variable_name v = op v ++ ":" ++ index) ->
  let reported :=
    Trainer.report_uninitialized_variables
      (Trainer.sess (Trainer.trainer p)) (Trainer.tf p) in
  Trainer.tf (Trainer.initialize_tf_vars p)
  = Trainer.variables_initializer (Trainer.sess (Trainer.trainer p))
      (Trainer.uninitialized_global_variables p) (Trainer.tf p) /\
  forall v,
    In v (Trainer.uninitialized_global_variables p) <->
    In v (Trainer.global_variables (Trainer.tf p)) /\ In (op v) reported.
Proof.
  intros Hnames. cbv zeta. split; [reflexivity |].
  intros v. unfold Trainer.uninitialized_global_variables.
  rewrite filter_In. split; intros [Hv Hin]; (split; [exact Hv |]).
  - destruct (Hnames v Hv) as (Hcolon & index & Hname).
    rewrite Hname, before_colon_app in Hin by exact Hcolon.
    apply existsb_exists in Hin as (x & Hx & Heq).
    apply String.eqb_eq in Heq. subst x. exact Hx.
  - destruct (Hnames v Hv) as (Hcolon & index & Hname).
    rewrite Hname, before_colon_app by exact Hcolon.
    apply existsb_exists. exists (op v). split; [exact Hin |].
    apply String.eqb_refl.
Qed.

Lemma initialize_tf_vars_selects_witness :
  let p :=
    Trainer.__init__ (T := Stubs.tensorflow) (Some 7%nat)
      (Stubs.mk_runtime [] [("policy/w:0", false); ("policy/b:0", true)]) in
  Trainer.uninitialized_global_variables p = [("policy/w:0", false)] /\
  Stubs.variables (Trainer.tf (Trainer.initialize_tf_vars p))
    = [("policy/w:0", true); ("policy/b:0", true)] /\
  (In ("policy/b:0", true) (Trainer.uninitialized_global_variables p) <->
   In ("policy/b:0", true) (Trainer.global_variables (Trainer.tf p)) /\
   In "policy/b"
     (Trainer.report_uninitialized_variables
        (Trainer.sess (Trainer.trainer p)) (Trainer.tf p))).
Proof.
  cbv zeta. split; [reflexivity |]. split; [reflexivity |].
  apply (initialize_tf_vars_selects (T := Stubs.tensorflow)
           (Trainer.__init__ (T := Stubs.tensorflow) (Some 7%nat)
              (Stubs.mk_runtime []
                 [("policy/w:0", false); ("policy/b:0", true)]))
           (fun v => Trainer.before_colon (fst v))).
  intros v [<- | [<- | []]]; simpl.
  - split; [simpl; intuition discriminate | exists "0"; reflexivity].
  - split; [simpl; intuition discriminate | exists "0"; reflexivity].
Defined.

End TrainerExtras.
